(** * demcompare: classification, masks, statistics and the baseline comparator

    A shallow embedding of [dem_compare_lib/stats.py] and
    [dem_compare_lib/compare_with_baseline.py].

    - Samples are IEEE-754 binary64 numbers, taken from the Standard Library's
      executable specification of floating point ([spec_float], precision 53,
      maximal exponent 1024): NaN, the infinities, signed zeros and rounding
      to nearest-even are the real ones.
    - A raster band (a numpy array) is the row-major sequence of its samples;
      every operation of the module is pixelwise or a reduction over all the
      pixels.
    - A Python exception is a value of [exn]; code that can raise lives in
      the [result] monad.
    - Where the identity of an array or of a list matters (in-place updates,
      a list handed to a function that assigns into it), the objects live in
      a store and the code in a state and error monad (module [Heap]). *)

From Stdlib Require Import ZArith List Bool String Ascii Lia.
From Stdlib Require Import Floats.SpecFloat.
From stdpp Require Import base option list gmap.

Local Open Scope Z_scope.

(** ** Python exceptions *)

Module Py.

Inductive exn : Type :=
| ValueError
| IndexError
| NameError
| TypeError
| AttributeError
| ZeroDivisionError
| OverflowError
| RuntimeError.

Inductive result (A : Type) : Type :=
| Ok (a : A)
| Raise (e : exn).

Arguments Ok {A} a.
Arguments Raise {A} e.

Definition bind {A B : Type} (m : result A) (k : A -> result B) : result B :=
  match m with
  | Ok a => k a
  | Raise e => Raise e
  end.

(** [l[i]] on a Python list or a one-dimensional array. *)
Definition getitem {A : Type} (l : list A) (i : nat) : result A :=
  match l !! i with
  | Some a => Ok a
  | None => Raise IndexError
  end.

(** [[f(x) for x in l]], stopping at the first exception. *)
Fixpoint traverse {A B : Type} (f : A -> result B) (l : list A) : result (list B) :=
  match l with
  | [] => Ok []
  | a :: l' =>
      bind (f a) (fun b => bind (traverse f l') (fun bs => Ok (b :: bs)))
  end.

End Py.

Import Py.

Notation "'let*' x ':=' m 'in' k" := (Py.bind m (fun x => k))
  (at level 10, x pattern, m at level 100, k at level 200).

(** ** Binary64 arithmetic *)

Module F64.

Definition prec : Z := 53.
Definition emax : Z := 1024.

Abbreviation float := spec_float.

Definition add : float -> float -> float := SFadd prec emax.
Definition sub : float -> float -> float := SFsub prec emax.
Definition mul : float -> float -> float := SFmul prec emax.
Definition div : float -> float -> float := SFdiv prec emax.
Definition sqrt : float -> float := SFsqrt prec emax.
Definition abs : float -> float := SFabs.

Definition nan : float := S754_nan.
Definition zero : float := S754_zero false.

(** Comparisons: every one of them is false as soon as an operand is NaN,
    except [neb] (Python's and numpy's [!=]), which is the negation of [==]. *)
Definition ltb : float -> float -> bool := SFltb.
Definition leb : float -> float -> bool := SFleb.
Definition eqb : float -> float -> bool := SFeqb.
Definition gtb (x y : float) : bool := ltb y x.
Definition neb (x y : float) : bool := negb (eqb x y).

Definition isnan (x : float) : bool :=
  match x with
  | S754_nan => true
  | _ => false
  end.

Definition isfinite (x : float) : bool :=
  match x with
  | S754_zero _ | S754_finite _ _ _ => true
  | _ => false
  end.

(** The binary64 number nearest to [n / d] (ties to even), signed by [s]:
    the quotient of the two integers is rounded once. *)
Definition of_ratio (s : bool) (n : Z) (d : positive) : float :=
  match n with
  | Z0 => S754_zero s
  | _ =>
      let '(q, e, l) := SFdiv_core_binary prec emax (Z.abs n) 0 (Zpos d) 0 in
      binary_round_aux prec emax s q e l
  end.

(** [float(n)] for a Python integer. *)
Definition of_Z (n : Z) : float := of_ratio (n <? 0) n 1.

(** The literal [m * 10^-k], as Python reads [1.4826] (m = 14826, k = 4). *)
Definition dec (m : Z) (k : nat) : float :=
  of_ratio (m <? 0) m (Z.to_pos (10 ^ Z.of_nat k)).

Definition isinf (x : float) : bool :=
  match x with
  | S754_infinity _ => true
  | _ => false
  end.

(** [floor] and [ceil] of a float that is neither NaN nor infinite. *)
Definition floor (x : float) : Z :=
  match x with
  | S754_finite s m e =>
      let v := if s then Zneg m else Zpos m in
      Z.shiftl v e
  | _ => 0
  end.

Definition ceil (x : float) : Z := - floor (SFopp x).

(** *** The order of the numbers

    Two numbers compare as their keys do, lexicographically. *)

Definition key (x : float) : Z * Z * Z :=
  match x with
  | S754_nan => (0, 0, 0)
  | S754_zero _ => (0, 0, 0)
  | S754_infinity true => (-2, 0, 0)
  | S754_infinity false => (2, 0, 0)
  | S754_finite true m e => (-1, - e, Zneg m)
  | S754_finite false m e => (1, e, Zpos m)
  end.

Definition lex (a b : Z * Z * Z) : comparison :=
  let '(a1, a2, a3) := a in
  let '(b1, b2, b3) := b in
  match a1 ?= b1 with
  | Eq => match a2 ?= b2 with
          | Eq => a3 ?= b3
          | c => c
          end
  | c => c
  end.

Definition klt (a b : Z * Z * Z) : Prop :=
  let '(a1, a2, a3) := a in
  let '(b1, b2, b3) := b in
  a1 < b1 \/ (a1 = b1 /\ (a2 < b2 \/ (a2 = b2 /\ a3 < b3))).

End F64.

Abbreviation float := spec_float.

(** ** The numpy operations the module uses *)

Module Np.

Import F64.

(** [np.where(mask == True)]: the positions at which the mask holds. *)
Fixpoint where_from (i : nat) (mask : list bool) : list nat :=
  match mask with
  | [] => []
  | b :: mask' =>
      if b then i :: where_from (S i) mask' else where_from (S i) mask'
  end.

Definition where_true (mask : list bool) : list nat := where_from 0 mask.

(** [arr[idx]] for an array of positions: [IndexError] when one of them is
    outside the array. *)
Definition take {A : Type} (arr : list A) (idx : list nat) : result (list A) :=
  traverse (getitem arr) idx.

(** [arr[np.where(mask == True)]]. *)
Definition select {A : Type} (arr : list A) (mask : list bool) : result (list A) :=
  take arr (where_true mask).

(** The samples a mask of the shape of the array selects, in order. *)
Fixpoint masked {A : Type} (arr : list A) (mask : list bool) : list A :=
  match arr, mask with
  | a :: arr', b :: mask' =>
      if b then a :: masked arr' mask' else masked arr' mask'
  | _, _ => []
  end.

(** [a * b] on two boolean arrays: the pixelwise conjunction; the shapes have
    to agree. *)
Definition mul_bool (a b : list bool) : result (list bool) :=
  if Nat.eqb (length a) (length b) then Ok (zip_with andb a b)
  else Raise ValueError.

(** [np.ones(shape)], read as a mask. *)
Definition ones (n : nat) : list bool := repeat true n.

(** [np.sum]: numpy's pairwise summation. Fewer than 8 samples are added
    from the first to the last, starting from 0. Up to 128 samples are
    added into 8 accumulators, block of 8 after block of 8, the sample of
    rank [i] in its block into the accumulator [i]; the accumulators are
    then added two by two, and the samples after the last full block are
    added one by one. A longer array is cut in two near its middle, at a
    multiple of 8, and the sums of the two parts are added. *)
Fixpoint accumulate (blocks : nat) (r rest : list float)
  : list float * list float :=
  match blocks with
  | O => (r, rest)
  | S blocks' =>
      accumulate blocks' (zip_with add r (firstn 8 rest)) (skipn 8 rest)
  end.

Definition block_sum (a : list float) : float :=
  let '(r, rest) :=
    accumulate (Nat.div (length a) 8 - 1) (firstn 8 a) (skipn 8 a) in
  let acc i := nth i r zero in
  fold_left add rest
    (add (add (add (acc 0%nat) (acc 1%nat)) (add (acc 2%nat) (acc 3%nat)))
         (add (add (acc 4%nat) (acc 5%nat)) (add (acc 6%nat) (acc 7%nat)))).

(** The recursion is on [fuel]; each part of an array of more than 128
    samples is shorter than the array, so that the length of the array is
    fuel enough. *)
Fixpoint pairwise_sum (fuel : nat) (a : list float) : float :=
  let n := length a in
  if Nat.ltb n 8 then fold_left add a zero
  else if Nat.leb n 128 then block_sum a
  else
    match fuel with
    | O => block_sum a
    | S fuel' =>
        let n2 := (Nat.div n 2 - Nat.modulo (Nat.div n 2) 8)%nat in
        add (pairwise_sum fuel' (firstn n2 a)) (pairwise_sum fuel' (skipn n2 a))
    end.

(** The reduction adds the pairwise sum to its initial value, 0. *)
Definition sum (a : list float) : float :=
  add zero (pairwise_sum (length a) a).

Definition size {A : Type} (a : list A) : Z := Z.of_nat (length a).

(** [np.mean]: NaN on an empty array (0 / 0). *)
Definition mean (a : list float) : float := div (sum a) (of_Z (size a)).

(** [np.std]: the root of the mean of the squared deviations from the mean. *)
Definition std (a : list float) : float :=
  let m := mean a in
  sqrt (mean (map (fun x => let d := sub x m in mul d d) a)).

(** [np.maximum] and [np.minimum] hand a NaN operand on. *)
Definition maximum (x y : float) : float :=
  if isnan x then x else if isnan y then y else if ltb x y then y else x.

Definition minimum (x y : float) : float :=
  if isnan x then x else if isnan y then y else if ltb y x then y else x.

(** [np.max] and [np.min] of a non-empty array ([ValueError] on an empty
    one). *)
Definition max (a : list float) : result float :=
  match a with
  | [] => Raise ValueError
  | x :: a' => Ok (fold_left maximum a' x)
  end.

Definition min (a : list float) : result float :=
  match a with
  | [] => Raise ValueError
  | x :: a' => Ok (fold_left minimum a' x)
  end.

(** [np.nanmin] and [np.nanmax]: NaN samples are skipped; NaN when every
    sample is NaN, [ValueError] on an empty array. *)
Definition nanmin (a : list float) : result float :=
  match a with
  | [] => Raise ValueError
  | _ :: _ =>
      match List.filter (fun x => negb (isnan x)) a with
      | [] => Ok nan
      | x :: b => Ok (fold_left minimum b x)
      end
  end.

Definition nanmax (a : list float) : result float :=
  match a with
  | [] => Raise ValueError
  | _ :: _ =>
      match List.filter (fun x => negb (isnan x)) a with
      | [] => Ok nan
      | x :: b => Ok (fold_left maximum b x)
      end
  end.

(** Sorting an array without NaN into increasing order. *)
Fixpoint insert_sorted (x : float) (l : list float) : list float :=
  match l with
  | [] => [x]
  | y :: l' => if leb x y then x :: l else y :: insert_sorted x l'
  end.

Definition sort (a : list float) : list float :=
  fold_right insert_sorted [] a.

(** [np.median]: the mean of the middle sample, or of the two middle
    samples, of the sorted array, and NaN when a sample is NaN. *)
Definition median (a : list float) : float :=
  if existsb isnan a then nan
  else
    let s := sort a in
    let n := length s in
    let index := Nat.div n 2 in
    if Nat.odd n then mean (firstn 1 (skipn index s))
    else mean (firstn 2 (skipn (index - 1) s)).

Definition remove_nan (a : list float) : list float :=
  List.filter (fun x => negb (isnan x)) a.

(** [np.nanmedian]: the median of the samples that are not NaN, and NaN when
    there is none. *)
Definition nanmedian (a : list float) : float :=
  match remove_nan a with
  | [] => nan
  | b => median b
  end.

(** [np.nanmean]. *)
Definition nanmean (a : list float) : float := mean (remove_nan a).

(** [np.percentile] of an array without NaN, with linear interpolation
    between the two order statistics around the position
    [q / 100 * (n - 1)]. *)
Definition percentile (a : list float) (q : Z) : float :=
  let ap := sort a in
  let nx := size ap in
  let indices := mul (div (of_Z q) (of_Z 100)) (of_Z (nx - 1)) in
  let below := floor indices in
  let above := Z.min (below + 1) (nx - 1) in
  let weights_above := sub indices (of_Z below) in
  let weights_below := sub (of_Z 1) weights_above in
  add (mul (nth (Z.to_nat below) ap nan) weights_below)
      (mul (nth (Z.to_nat above) ap nan) weights_above).

(** [np.nanpercentile]: NaN when no sample is left. *)
Definition nanpercentile (a : list float) (q : Z) : float :=
  match remove_nan a with
  | [] => nan
  | b => percentile b q
  end.

End Np.

(** ** stats.py *)

Module Stats.

Import F64.

(** An [A3DGeoRaster], as far as this module reads it: the samples [r] and
    the nodata value. *)
Record A3DGeoRaster : Type := {
  r : list float;
  nodata : float
}.

(** The descriptor of a classified image ([path] and [nodata] keys); the
    band 4 (alpha) of the PNG stored at that path goes with it as
    [alpha_band]. *)
Record classified_img : Type := {
  path : string;
  png_nodata : list Z;
  alpha_band : list Z
}.

(** What numpy needs of a sample type for [np.isnan(x)] and [x != v]. *)
Class NpScalar (A : Type) : Type := {
  sc_isnan : A -> bool;
  sc_ne : A -> A -> bool
}.

#[export] Instance float_scalar : NpScalar float :=
  {| sc_isnan := isnan; sc_ne := neb |}.

(** The samples of a byte band are integers: none is NaN. *)
#[export] Instance byte_scalar : NpScalar Z :=
  {| sc_isnan := fun _ => false; sc_ne := fun a b => negb (a =? b) |}.

(** [roundUp]: [int(math.ceil(x / float(y))) * y]. Python raises on a
    division by zero, and on the conversion of NaN or of an infinity to an
    integer. *)
Definition roundUp (x y : float) : result float :=
  if eqb y zero then Raise ZeroDivisionError
  else
    let q := div x y in
    if isnan q then Raise ValueError
    else if isinf q then Raise OverflowError
    else Ok (mul (of_Z (ceil q)) y).

(** The matplotlib palette [getColor] picks; its colours are matplotlib's. *)
Inductive colormap : Type := tab10 | tab20.

Definition getColor (nb_color : nat) : result colormap :=
  let x := if Nat.ltb 10 nb_color && Nat.ltb nb_color 21 then Some tab20 else None in
  let x := if Nat.ltb nb_color 11 then Some tab10 else x in
  if Nat.ltb 20 nb_color then Raise NameError
  else match x with
       | Some c => Ok c
       | None => Raise NameError
       end.

(** The grid appended for the range of index [idx]: the last range is not
    bounded above. *)
Definition range_grid (sets_rad_range : list float) (idx : nat) (img : list float)
  : list bool :=
  let lo := nth idx sets_rad_range nan in
  if Nat.eqb idx (length sets_rad_range - 1) then
    map (fun x => leb lo x) img
  else
    let hi := nth (S idx) sets_rad_range nan in
    map (fun x => leb lo x && ltb x hi) img.

(** [(np.isnan(img.r)) + (img.r == img.nodata)]. *)
Definition nan_or_nodata (img : A3DGeoRaster) : list bool :=
  map (fun x => isnan x || eqb x (nodata img)) (r img).

(** [grid[where] = v], for a boolean array [where] of the shape of [grid]. *)
Fixpoint assign_where {A : Type} (grid : list A) (where_ : list bool) (v : A)
  : list A :=
  match grid, where_ with
  | g :: grid', w :: where' => (if w then v else g) :: assign_where grid' where' v
  | _, _ => grid
  end.

(** [create_sets]: the class grids, the palette, and, when an output
    descriptor is given, the alpha band written to the PNG (255, and the
    descriptor's fourth nodata component where the support is absent). The
    three colour bands are left out. *)
Definition create_sets (img_to_classify : A3DGeoRaster) (sets_rad_range : list float)
    (output_descriptor : option (list Z))
  : result (list (list bool) * colormap * option (list Z)) :=
  let* sets_colors := getColor (length sets_rad_range) in
  let output_sets_def :=
    map (fun idx => range_grid sets_rad_range idx (r img_to_classify))
        (seq 0 (length sets_rad_range)) in
  let* output_v :=
    match output_descriptor with
    | None => Ok None
    | Some nd =>
        let* nd3 := getitem nd 3 in
        Ok (Some (assign_where (repeat 255 (length (r img_to_classify)))
                               (nan_or_nodata img_to_classify) nd3))
    end in
  let output_sets_def :=
    map (fun set => assign_where set (nan_or_nodata img_to_classify) false)
        output_sets_def in
  Ok (output_sets_def, sets_colors, output_v).

(** [cross_class_apha_bands]: both alpha bands are set to 0 at the pixels
    where the two classifications differ for some class. *)
Definition eq_grid (a b : list bool) : list bool := zip_with Bool.eqb a b.

(** [np.all(combine_sets, axis=0)]: of the shape of the grids; with no
    grid, numpy gives the scalar True, and [np.where] then no index. *)
Definition all_axis0 (grids : list (list bool)) : list bool :=
  match grids with
  | [] => []
  | g :: rest => fold_left (zip_with andb) rest g
  end.

(** [arr[indices] = v], for the indices [np.where] gives: IndexError when
    one of them is outside the array. *)
Definition assign_at {A : Type} (arr : list A) (indices : list nat) (v : A)
  : result (list A) :=
  if forallb (fun i => Nat.ltb i (length arr)) indices
  then Ok (fold_left (fun a i => <[i := v]> a) indices arr)
  else Raise IndexError.

Definition cross_class_apha_bands (ref_alpha dsm_alpha : list Z)
    (ref_sets dsm_sets : list (list bool)) : result (list Z * list Z) :=
  let* combine_sets :=
    traverse (fun i => let* a := getitem ref_sets i in
                       let* b := getitem dsm_sets i in
                       Ok (eq_grid a b))
             (seq 0 (length ref_sets)) in
  let incoherent_indices :=
    Np.where_true (map negb (all_axis0 combine_sets)) in
  let* ref_alpha := assign_at ref_alpha incoherent_indices 0 in
  let* dsm_alpha := assign_at dsm_alpha incoherent_indices 0 in
  Ok (ref_alpha, dsm_alpha).

(** The two local functions of [create_masks]. *)
Definition get_nonan_mask {A : Type} `{NpScalar A} (array : list A) (nan_value : A)
  : list bool :=
  map (fun x => negb (sc_isnan x) && sc_ne x nan_value) array.

Definition inside_3sigma (mu sigma x : float) : bool :=
  gtb x (sub mu (mul (of_Z 3) sigma)) && ltb x (add mu (mul (of_Z 3) sigma)).

Definition get_ouliersfree_mask (array : list float) (no_nan_mask : list bool)
  : result (list bool) :=
  let* array_without_nan := Np.select array no_nan_mask in
  let mu := Np.mean array_without_nan in
  let sigma := Np.std array_without_nan in
  Ok (map (inside_3sigma mu sigma) array).

Definition standard : string := "standard".
Definition coherent_classification : string := "coherent-classification".
Definition incoherent_classification : string := "incoherent-classification".

Definition create_masks (alti_map : A3DGeoRaster)
    (do_classification : bool) (ref_support : option A3DGeoRaster)
    (do_cross_classification : bool)
    (ref_support_classified_desc : option classified_img)
    (remove_outliers : bool)
  : result (list (list bool) * list string * option (list bool)) :=
  let masks0 := get_nonan_mask (r alti_map) (nodata alti_map) in
  let* no_outliers :=
    if remove_outliers then
      let* m := get_ouliersfree_mask (r alti_map) masks0 in Ok (Some m)
    else Ok None in
  let* masks0 :=
    if do_classification then
      match ref_support with
      | None => Raise AttributeError
      | Some s => Np.mul_bool masks0 (get_nonan_mask (r s) (nodata s))
      end
    else Ok masks0 in
  if do_classification && do_cross_classification then
    match ref_support_classified_desc with
    | None => Raise TypeError
    | Some desc =>
        let* nd0 := getitem (png_nodata desc) 0 in
        let coherent_mask := get_nonan_mask (alpha_band desc) nd0 in
        let* coherent := Np.mul_bool masks0 coherent_mask in
        let* incoherent := Np.mul_bool masks0 (map negb coherent_mask) in
        Ok ([masks0; coherent; incoherent],
            [standard; coherent_classification; incoherent_classification],
            no_outliers)
    end
  else Ok ([masks0], [standard], no_outliers).

(** The dictionary [stats_computation] returns. *)
Record Stats : Type := {
  nbpts : Z;
  max : float;
  min : float;
  mean : float;
  std : float;
  rmse : float;
  median : float;
  nmad : float;
  sum_err : float;
  sum_err_err : float
}.

Definition stats_computation (array : list float) : result Stats :=
  if negb (Np.size array =? 0) then
    let* mx := Np.max array in
    let* mn := Np.min array in
    Ok {| nbpts := Np.size array;
          max := mx;
          min := mn;
          mean := Np.mean array;
          std := Np.std array;
          rmse := sqrt (Np.mean (map (fun x => mul x x) array));
          median := Np.nanmedian array;
          nmad := mul (dec 14826 4)
                      (Np.nanmedian
                         (map (fun x => abs (sub x (Np.nanmedian array))) array));
          sum_err := Np.sum array;
          sum_err_err := Np.sum (map (fun x => mul x x) array) |}
  else
    Ok {| nbpts := Np.size array;
          max := nan; min := nan; mean := nan; std := nan; rmse := nan;
          median := nan; nmad := nan; sum_err := nan; sum_err_err := nan |}.

(** One element of the list [get_stats] returns: the statistics with the
    keys [set_label], [set_name], [%] and [90p]. *)
Record StatsRecord : Type := {
  stats : Stats;
  set_label : string;
  set_name : string;
  percent : float;
  p90 : float
}.

Definition nighty_percentile (array : list float) : float :=
  Np.nanpercentile (map (fun x => abs (sub x (Np.nanmean array))) array) 90.

(** [100 * float(nbpts) / float(nb_total_points)]: Python raises on a
    division by zero. *)
Definition percent_of (nbpts nb_total_points : Z) : result float :=
  if nb_total_points =? 0 then Raise ZeroDivisionError
  else Ok (div (mul (of_Z 100) (of_Z nbpts)) (of_Z nb_total_points)).

Definition get_stats (dz_values : list float)
    (to_keep_mask no_outliers_mask : option (list bool))
    (sets : option (list (list bool)))
    (sets_labels sets_names : option (list string))
  : result (list StatsRecord) :=
  let nb_total_points := Np.size dz_values in
  let to_keep_mask := default (Np.ones (length dz_values)) to_keep_mask in
  let no_outliers_mask := default (Np.ones (length dz_values)) no_outliers_mask in
  let* kept := Np.mul_bool to_keep_mask no_outliers_mask in
  let* data := Np.select dz_values kept in
  let* st := stats_computation data in
  let* pc := percent_of (nbpts st) nb_total_points in
  let* data90 := Np.select dz_values to_keep_mask in
  let all :=
    {| stats := st; set_label := "all"; set_name := "All classes considered";
       percent := pc; p90 := nighty_percentile data90 |} in
  match sets, sets_labels, sets_names with
  | Some sets, Some sets_labels, Some sets_names =>
      let* per_set :=
        traverse
          (fun set_idx =>
             let* s := getitem sets set_idx in
             let* sk := Np.mul_bool s to_keep_mask in
             let* set := Np.mul_bool sk no_outliers_mask in
             let* data := Np.select dz_values set in
             let* st := stats_computation data in
             let* label := getitem sets_labels set_idx in
             let* name := getitem sets_names set_idx in
             let* pc := percent_of (nbpts st) nb_total_points in
             let* data90 := Np.select dz_values sk in
             Ok {| stats := st; set_label := label; set_name := name;
                   percent := pc; p90 := nighty_percentile data90 |})
          (seq 0 (length sets)) in
      Ok (all :: per_set)
  | _, _, _ => Ok [all]
  end.

End Stats.

(** ** The terms of the statements *)

Module Terms.

Import F64.

(** The test the grid of index [idx] applies to a sample. *)
Definition in_range (sets_rad_range : list float) (idx : nat) (x : float) : bool :=
  if Nat.eqb idx (length sets_rad_range - 1) then
    leb (nth idx sets_rad_range nan) x
  else
    leb (nth idx sets_rad_range nan) x && ltb x (nth (S idx) sets_rad_range nan).

(** The boundaries of a ClassRange increase strictly. *)
Definition increasing (sets_rad_range : list float) : Prop :=
  forall (i : nat) (a b : float),
    sets_rad_range !! i = Some a -> sets_rad_range !! S i = Some b ->
    ltb a b = true.

(** The number of class grids that hold at the pixel [p]. *)
Definition classes_at (sets : list (list bool)) (p : nat) : nat :=
  length (List.filter (fun set => nth p set false) sets).

(** The inputs of [get_stats] fit together: the masks and the class grids
    have the shape of the differences, and every class has a label and a
    name. *)
Definition same_shape (dz_values : list float) (mask : option (list bool)) : Prop :=
  match mask with
  | Some m => length m = length dz_values
  | None => True
  end.

Definition classes_fit (dz_values : list float) (sets : option (list (list bool)))
    (sets_labels sets_names : option (list string)) : Prop :=
  match sets, sets_labels, sets_names with
  | Some sets, Some labels, Some names =>
      Forall (fun set => length set = length dz_values) sets /\
      (length sets <= length labels)%nat /\ (length sets <= length names)%nat
  | _, _, _ => True
  end.

End Terms.

(** ** The statistics, in the words of the specification *)

Module Spec.

Import F64.

(** NMAD: 1.4826 times the median of the absolute deviations from the
    median. *)
Definition nmad (values : list float) : float :=
  mul (dec 14826 4)
      (Np.median (map (fun v => abs (sub v (Np.median values))) values)).

End Spec.

(** ** compare_with_baseline.py *)

Module Baseline.

Import F64.

(** *** Python strings *)

Definition chars (s : string) : list ascii := list_ascii_of_string s.

Definition mem (c : ascii) (set : list ascii) : bool :=
  existsb (Ascii.eqb c) set.

Fixpoint lstrip_chars (set : list ascii) (l : list ascii) : list ascii :=
  match l with
  | [] => []
  | c :: l' => if mem c set then lstrip_chars set l' else l
  end.

(** [s.strip(set)]: the characters of [set] are removed at both ends. *)
Definition strip (set : string) (s : string) : string :=
  string_of_list_ascii
    (rev (lstrip_chars (chars set) (rev (lstrip_chars (chars set) (chars s))))).

(** [s.split(sep)] for a separator of one character: at least one field. *)
Fixpoint split (sep : ascii) (s : string) : list string :=
  match s with
  | EmptyString => [EmptyString]
  | String c s' =>
      if Ascii.eqb c sep then EmptyString :: split sep s'
      else match split sep s' with
           | h :: t => String c h :: t
           | [] => [String c EmptyString]
           end
  end.

Definition CR : ascii := ascii_of_nat 13.
Definition LF : ascii := ascii_of_nat 10.
Definition CRLF : string := String CR (String LF EmptyString).

(** *** [float(text)]

    An optional sign, then [inf], [infinity] or [nan] in any case, or a
    decimal number (digits with an optional point, at least one digit, and
    an optional exponent), between optional white space; anything else,
    digits grouped by underscores included, is a [ValueError]. The number
    read is the binary64 number nearest to the decimal one. *)

Definition whitespace : list ascii :=
  map ascii_of_nat [32; 9; 10; 11; 12; 13]%nat.

Definition digit_of (c : ascii) : option Z :=
  let n := Z.of_nat (nat_of_ascii c) in
  if (48 <=? n) && (n <=? 57) then Some (n - 48) else None.

(** The digits at the head of [l]: their value after [acc], their number
    after [cnt], and what follows them. *)
Fixpoint read_digits (acc : Z) (cnt : nat) (l : list ascii) : Z * nat * list ascii :=
  match l with
  | [] => (acc, cnt, [])
  | c :: l' =>
      match digit_of c with
      | Some d => read_digits (10 * acc + d) (S cnt) l'
      | None => (acc, cnt, l)
      end
  end.

Definition lower (c : ascii) : ascii :=
  let n := nat_of_ascii c in
  if Nat.leb 65 n && Nat.leb n 90 then ascii_of_nat (n + 32) else c.

Definition is_word (w : string) (l : list ascii) : bool :=
  String.eqb (string_of_list_ascii (map lower l)) w.

(** [m * 10^e], rounded once. *)
Definition scale10 (s : bool) (m : Z) (e : Z) : float :=
  if 0 <=? e then of_ratio s (m * 10 ^ e) 1
  else of_ratio s m (Z.to_pos (10 ^ (- e))).

Definition read_exponent (l : list ascii) : result Z :=
  match l with
  | [] => Ok 0
  | c :: l' =>
      if mem c (chars "eE") then
        let '(neg, l'') :=
          match l' with
          | "-"%char :: t => (true, t)
          | "+"%char :: t => (false, t)
          | _ => (false, l')
          end in
        match read_digits 0 0 l'' with
        | (_, O, _) => Raise ValueError
        | (v, _, []) => Ok (if neg then - v else v)
        | (_, _, _ :: _) => Raise ValueError
        end
      else Raise ValueError
  end.

Definition float_of_string (text : string) : result float :=
  let l := rev (lstrip_chars whitespace (rev (lstrip_chars whitespace (chars text)))) in
  let '(s, l) :=
    match l with
    | "-"%char :: t => (true, t)
    | "+"%char :: t => (false, t)
    | _ => (false, l)
    end in
  if is_word "inf" l || is_word "infinity" l then Ok (S754_infinity s)
  else if is_word "nan" l then Ok S754_nan
  else
    let '(m1, c1, rest1) := read_digits 0 0 l in
    let '(m, c2, rest2) :=
      match rest1 with
      | "."%char :: t => read_digits m1 0 t
      | _ => (m1, O, rest1)
      end in
    if Nat.eqb (c1 + c2) 0 then Raise ValueError
    else
      let* e := read_exponent rest2 in
      Ok (scale10 s m (e - Z.of_nat c2)).

(** *** [check_csv] *)

(** One difference record (an [OrderedDict] with these five keys). *)
Record difference : Type := {
  csv_file : string;
  class_name : string;
  stat_name : string;
  baseline_val : float;
  test_val : float
}.

(** The positions of the [False] items of [results]. *)
Definition false_indices (results : list bool) : list nat :=
  Np.where_true (map negb results).

(** The body of the loop over the indices of the differing columns: the
    record appended for [index]. *)
Definition report (header_cols : list string) (csv_file name : string)
    (f_cols_ref f_cols_test : list float) (index : nat) : result difference :=
  let* stat := getitem header_cols (index + 1) in
  let* ref := getitem f_cols_ref index in
  let* test := getitem f_cols_test index in
  Ok {| csv_file := csv_file; class_name := name; stat_name := stat;
        baseline_val := ref; test_val := test |}.

(** The body of the loop over the rows. *)
Definition check_row (header : string) (csv_file : string) (epsilon : float)
    (row_ref row_test : string) : result (list difference) :=
  let cols_ref := split "," (strip CRLF row_ref) in
  let cols_test := split "," (strip CRLF row_test) in
  let* name_ref := getitem cols_ref 0 in
  let* name_test := getitem cols_test 0 in
  if negb (String.eqb name_ref name_test) then Raise ValueError
  else
    let* f_cols_ref := traverse float_of_string (tail cols_ref) in
    let* f_cols_test := traverse float_of_string (tail cols_test) in
    let results :=
      zip_with (fun ref test => leb (abs (sub ref test)) epsilon)
               f_cols_ref f_cols_test in
    if negb (Nat.eqb (length (List.filter (fun b : bool => b) results))
                     (length results)) then
      traverse (report (split "," (strip CRLF header)) csv_file name_ref
                       f_cols_ref f_cols_test)
               (false_indices results)
    else Ok [].

Definition check_csv (csv_ref csv_test : list string) (csv_file : string)
    (epsilon : float) : result (list difference) :=
  let* header := getitem csv_ref 0 in
  let* header_test := getitem csv_test 0 in
  if negb (String.eqb header header_test) then Raise ValueError
  else
    let* per_row :=
      traverse (fun rows => check_row header csv_file epsilon (fst rows) (snd rows))
               (zip (tail csv_ref) (tail csv_test)) in
    Ok (concat per_row).

End Baseline.

(** ** The comparison of a row, in the words of the specification *)

Module CsvSpec.

Import F64 Baseline.

(** The two values agree within the tolerance. *)
Definition within (epsilon ref test : float) : bool :=
  leb (abs (sub ref test)) epsilon.








End CsvSpec.

(** ** Python objects: the statistics loop of [alti_diff_stats]

    Arrays and lists are objects of a store, passed by reference; a function
    that assigns into a list it was given changes it for its caller too. The
    figures and the files [plot_histograms] produces, and what matplotlib
    and scipy may raise besides a fit that does not converge, are left out;
    its own exceptions and its writes are kept. *)

Module Heap.

Import F64 Stats.

Abbreviation loc := positive.

Inductive obj : Type :=
| FloatArray (a : list float)
| BoolArray (a : list bool)
| PyList (items : list loc).

(** A computation on the store that may raise. *)
Definition M (A : Type) : Type := gmap loc obj -> result A * gmap loc obj.

Definition ret {A : Type} (a : A) : M A := fun s => (Ok a, s).

Definition raise {A : Type} (e : exn) : M A := fun s => (Raise e, s).

Definition lift {A : Type} (r : result A) : M A := fun s => (r, s).

Definition bindM {A B : Type} (m : M A) (k : A -> M B) : M B :=
  fun s =>
    match m s with
    | (Ok a, s') => k a s'
    | (Raise e, s') => (Raise e, s')
    end.

Notation "'do*' x ':=' m 'in' k" := (bindM m (fun x => k))
  (at level 10, x pattern, m at level 100, k at level 200).

(** A new object, at a location the store does not use. *)
Definition alloc (o : obj) : M loc :=
  fun s => let l := fresh (dom s) in (Ok l, <[l := o]> s).

Definition float_array (l : loc) : M (list float) :=
  fun s =>
    match s !! l with
    | Some (FloatArray a) => (Ok a, s)
    | _ => (Raise TypeError, s)
    end.

Definition bool_array (l : loc) : M (list bool) :=
  fun s =>
    match s !! l with
    | Some (BoolArray a) => (Ok a, s)
    | _ => (Raise TypeError, s)
    end.

Definition py_list (l : loc) : M (list loc) :=
  fun s =>
    match s !! l with
    | Some (PyList items) => (Ok items, s)
    | _ => (Raise TypeError, s)
    end.

(** [lst[i] = v]: the list object itself is updated. *)
Definition setitem (lst : loc) (i : nat) (v : loc) : M unit :=
  fun s =>
    match s !! lst with
    | Some (PyList items) =>
        if Nat.ltb i (length items)
        then (Ok tt, <[lst := PyList (<[i := v]> items)]> s)
        else (Raise IndexError, s)
    | _ => (Raise TypeError, s)
    end.

(** [for a in l: st = body(st, a)]. *)
Fixpoint for_each {A S : Type} (body : S -> A -> M S) (l : list A) (st : S) : M S :=
  match l with
  | [] => ret st
  | a :: l' => do* st' := body st a in for_each body l' st'
  end.

Fixpoint traverseM {A B : Type} (f : A -> M B) (l : list A) : M (list B) :=
  match l with
  | [] => ret []
  | a :: l' => do* b := f a in do* bs := traverseM f l' in ret (b :: bs)
  end.

(** A computation keeps the objects of [s0] when, run from any store that
    has them, it ends in a store that has them, unchanged. *)
Definition keeps {A : Type} (s0 : gmap loc obj) (m : M A) : Prop :=
  forall s : gmap loc obj, s0 ⊆ s -> s0 ⊆ snd (m s).

(** [arr *= other] and [arr[where] = v]: the array object itself is
    updated. *)
Definition update_bool (l : loc) (f : list bool -> result (list bool)) : M unit :=
  fun s =>
    match s !! l with
    | Some (BoolArray a) =>
        match f a with
        | Ok a' => (Ok tt, <[l := BoolArray a']> s)
        | Raise e => (Raise e, s)
        end
    | _ => (Raise TypeError, s)
    end.

(** A raster of the store: its samples and its nodata value. *)
Record raster_ref : Type := {
  samples : loc;
  nodata_value : float
}.

(** Lines 248 to 258 of [create_sets]: one new grid for every range. *)
Definition range_grids (img : list float) (sets_rad_range : list float)
  : M (list loc) :=
  traverseM (fun idx => alloc (BoolArray (range_grid sets_rad_range idx img)))
            (seq 0 (length sets_rad_range)).

(** [create_sets] on the store: the grids are created for every range,
    then each of them is cleared in place where the support is absent
    (lines 269 and 270); the result is the list object holding them. The
    classified image is left out. *)
Definition create_sets (img_to_classify : raster_ref) (sets_rad_range : list float)
  : M loc :=
  do* img := float_array (samples img_to_classify) in
  do* _ := lift (getColor (length sets_rad_range)) in
  do* grids := range_grids img sets_rad_range in
  let absent :=
    nan_or_nodata {| r := img; nodata := nodata_value img_to_classify |} in
  do* _ :=
    traverseM (fun idx =>
                 do* g := lift (getitem grids idx) in
                 update_bool g (fun set => Ok (assign_where set absent false)))
              (seq 0 (length sets_rad_range)) in
  alloc (PyList grids).

(** Lines 356 to 366 of [create_masks]: [masks[0]] is created, then read
    for the outlier mask. *)
Definition standard_mask (alti_map : raster_ref) (remove_outliers : bool)
  : M (loc * option loc) :=
  do* alti := float_array (samples alti_map) in
  do* m0 := alloc (BoolArray (get_nonan_mask alti (nodata_value alti_map))) in
  do* no_outliers :=
    if remove_outliers then
      do* mask0 := bool_array m0 in
      do* free := lift (get_ouliersfree_mask alti mask0) in
      do* l := alloc (BoolArray free) in
      ret (Some l)
    else ret None in
  ret (m0, no_outliers).

(** [create_masks] on the store: [masks[0]], once created and read, is
    multiplied in place by the mask of the support (line 370); the other
    masks are new arrays. *)
Definition create_masks (alti_map : raster_ref) (do_classification : bool)
    (ref_support : option raster_ref) (do_cross_classification : bool)
    (ref_support_classified_desc : option classified_img)
    (remove_outliers : bool)
  : M (list loc * list string * option loc) :=
  do* built := standard_mask alti_map remove_outliers in
  let '(m0, no_outliers) := built in
  do* _ :=
    if do_classification then
      match ref_support with
      | None => raise AttributeError
      | Some support =>
          do* sup := float_array (samples support) in
          update_bool m0
            (fun mask0 =>
               Np.mul_bool mask0 (get_nonan_mask sup (nodata_value support)))
      end
    else ret tt in
  if do_classification && do_cross_classification then
    match ref_support_classified_desc with
    | None => raise TypeError
    | Some desc =>
        do* nd0 := lift (getitem (png_nodata desc) 0) in
        let coherent_mask := get_nonan_mask (alpha_band desc) nd0 in
        do* mask0 := bool_array m0 in
        do* coherent := lift (Np.mul_bool mask0 coherent_mask) in
        do* m1 := alloc (BoolArray coherent) in
        do* mask0 := bool_array m0 in
        do* incoherent := lift (Np.mul_bool mask0 (map negb coherent_mask)) in
        do* m2 := alloc (BoolArray incoherent) in
        ret ([m0; m1; m2],
             [standard; coherent_classification; incoherent_classification],
             no_outliers)
    end
  else ret ([m0], [standard], no_outliers).

Definition color : Type := float * float * float.

Definition black : color := (zero, zero, zero).

Section Plot.

(** Whether scipy's [curve_fit] converges on the histogram of the data. *)
Variable curve_fit_converges : list float -> bool.

(** The body of the loop of [plot_histograms] over [set_idx]; the state is
    [set_zero_size] and [saved_labels]. *)
Definition plot_set (input_array : list float) (to_keep_mask : option (list bool))
    (sets : loc) (sets_labels : list string) (sets_colors : list color)
    (st : Z * list string) (set_idx : nat) : M (Z * list string) :=
  let '(set_zero_size, saved_labels) := st in
  do* _ :=
    match to_keep_mask with
    | Some mask =>
        do* items := py_list sets in
        do* g := lift (getitem items set_idx) in
        do* grid := bool_array g in
        do* restricted := lift (Np.mul_bool grid mask) in
        do* g' := alloc (BoolArray restricted) in
        setitem sets set_idx g'
    | None => ret tt
    end in
  do* items := py_list sets in
  do* g := lift (getitem items set_idx) in
  do* grid := bool_array g in
  do* data := lift (Np.select input_array grid) in
  if Np.size data =? 0 then ret st
  else
    do* set_zero_size' :=
      if Nat.eqb set_idx 0 then ret (Np.size data)
      else if set_zero_size =? 0 then raise ZeroDivisionError
           else ret set_zero_size in
    do* label := lift (getitem sets_labels set_idx) in
    do* _ := lift (getitem sets_colors set_idx) in
    if curve_fit_converges data
    then ret (set_zero_size', saved_labels ++ [label])
    else raise RuntimeError.

(** [plot_histograms]: the labels saved. The bound of the bins is the
    largest absolute value of the kept samples, rounded up to the bin
    step. *)
Definition plot_histograms (input_array : loc) (bin_step : float)
    (to_keep_mask : option loc)
    (sets : option loc) (sets_labels : option (list string))
    (sets_colors : option (list color)) : M (list string) :=
  do* input := float_array input_array in
  do* mask :=
    match to_keep_mask with
    | Some l => do* m := bool_array l in ret (Some m)
    | None => ret None
    end in
  do* kept :=
    match mask with
    | Some m => lift (Np.select input m)
    | None => ret input
    end in
  do* lowest := lift (Np.nanmin kept) in
  do* highest := lift (Np.nanmax kept) in
  let borne := Np.maximum (abs lowest) (abs highest) in
  do* _ := lift (roundUp borne bin_step) in
  match sets, sets_labels, sets_colors with
  | Some sets, Some sets_labels, Some sets_colors =>
      do* items := py_list sets in
      do* st := for_each (plot_set input mask sets sets_labels sets_colors)
                         (seq 0 (length items)) (0, []) in
      ret (snd st)
  | _, _, _ => ret []
  end.

(** One turn of the loop of [alti_diff_stats] over the modes: [get_stats],
    then [plot_histograms] on the product of the two masks and on the list
    [[np.ones(...)] + ref_sets_def]. *)
Definition mode_step (alti_r : loc) (bin_step : float) (no_outliers_mask : loc)
    (ref_sets_def : option loc) (sets_labels sets_names : option (list string))
    (sets_color : list color) (to_keep_mask : loc)
  : M (list StatsRecord * list string) :=
  do* dz := float_array alti_r in
  do* keep := bool_array to_keep_mask in
  do* no_out := bool_array no_outliers_mask in
  do* sets :=
    match ref_sets_def with
    | Some l =>
        do* items := py_list l in
        do* grids := traverseM bool_array items in
        ret (Some grids)
    | None => ret None
    end in
  do* mode_stats :=
    lift (get_stats dz (Some keep) (Some no_out) sets sets_labels sets_names) in
  do* both := lift (Np.mul_bool keep no_out) in
  do* kept := alloc (BoolArray both) in
  do* all := alloc (BoolArray (Np.ones (length dz))) in
  do* items :=
    match ref_sets_def with
    | Some l => py_list l
    | None => raise TypeError
    end in
  do* sets_all := alloc (PyList (all :: items)) in
  do* labels :=
    match sets_labels with
    | Some labels => ret ("all"%string :: labels)
    | None => raise TypeError
    end in
  do* saved :=
    plot_histograms alti_r bin_step (Some kept) (Some sets_all) (Some labels)
                    (Some (black :: sets_color)) in
  ret (mode_stats, saved).

(** The loop over the modes. *)
Definition run_modes (alti_r : loc) (bin_step : float) (no_outliers_mask : loc)
    (ref_sets_def : option loc) (sets_labels sets_names : option (list string))
    (sets_color : list color) (to_keep_masks : list loc)
  : M (list (list StatsRecord * list string)) :=
  traverseM (mode_step alti_r bin_step no_outliers_mask ref_sets_def
                       sets_labels sets_names sets_color)
            to_keep_masks.

(** [alti_diff_stats], from the class grids on: the grids of the reference
    support when classification is asked for, the masks (with the outlier
    mask), then the loop over the modes. The descriptor stands for the
    classified image as it is on disk when the masks are built. *)
Definition alti_diff_stats (alti_map : raster_ref) (bin_step : float)
    (do_classify_results : bool)
    (support_ref : option raster_ref) (class_rad_range : list float)
    (sets_labels sets_names : option (list string)) (sets_color : list color)
    (do_cross_classification : bool) (ref_classified : option classified_img)
  : M (list (list StatsRecord * list string)) :=
  do* ref_sets_def :=
    if do_classify_results then
      match support_ref with
      | None => raise AttributeError
      | Some support =>
          do* sets := create_sets support class_rad_range in ret (Some sets)
      end
    else ret None in
  do* built :=
    create_masks alti_map do_classify_results support_ref
                 do_cross_classification ref_classified true in
  let '(to_keep_masks, modes, no_outliers_mask) := built in
  match no_outliers_mask with
  | Some no_outliers =>
      run_modes (samples alti_map) bin_step no_outliers ref_sets_def
                sets_labels sets_names sets_color to_keep_masks
  | None => raise TypeError
  end.

End Plot.

End Heap.

(** ** More of stats.py and of compare_with_baseline.py *)

Module More.

Import F64 Stats Baseline.

(** The two classifications agree at the pixel [p] for every class. *)
Definition agree_at (ref_sets dsm_sets : list (list bool)) (p : nat) : bool :=
  forallb (fun i => Bool.eqb (nth p (nth i ref_sets []) false)
                             (nth p (nth i dsm_sets []) false))
          (seq 0 (length ref_sets)).

(** All the grids and the two alpha bands have one shape. *)
Definition one_shape (n : nat) (ref_alpha dsm_alpha : list Z)
    (ref_sets dsm_sets : list (list bool)) : Prop :=
  length ref_alpha = n /\ length dsm_alpha = n /\
  Forall (fun set => length set = n) ref_sets /\
  Forall (fun set => length set = n) dsm_sets.

(** The comparison of the grids of [cross_class_apha_bands], class by
    class: one step of it, and the list it builds when no step raises. *)
Definition compared (ref_sets dsm_sets : list (list bool)) : list (list bool) :=
  map (fun i => eq_grid (nth i ref_sets []) (nth i dsm_sets []))
      (seq 0 (length ref_sets)).

Definition compare_class (ref_sets dsm_sets : list (list bool)) (i : nat)
  : result (list bool) :=
  let* a := getitem ref_sets i in
  let* b := getitem dsm_sets i in
  Ok (eq_grid a b).

(** The number of pixels a mask selects, and the sum of a list of counts. *)
Definition selected (mask : list bool) : nat :=
  length (List.filter (fun b : bool => b) mask).

Definition total (counts : list Z) : Z := fold_right Z.add 0 counts.

(** A record with the two values exchanged. *)
Definition swapped (d : difference) : difference :=
  {| csv_file := csv_file d; class_name := class_name d;
     stat_name := stat_name d; baseline_val := test_val d;
     test_val := baseline_val d |}.

(** A computation on the store that changes no object. *)
Definition reads_only {A : Type} (m : Heap.M A) : Prop :=
  forall s, snd (m s) = s.

(** The state of the loop of [plot_histograms] before the turn [j], from
    the store [s0] in which the list [sets] holds [items]: the entries
    before [j] are new arrays, the grids restricted to the mask; the others
    are those of [items]; and the objects of [s0], the list apart, are as
    they were. *)
Definition replaced_up_to (s0 : gmap Heap.loc Heap.obj) (sets : Heap.loc)
    (items : list Heap.loc) (grids : list (list bool)) (mask : list bool)
    (j : nat) (s : gmap Heap.loc Heap.obj) : Prop :=
  exists cur : list Heap.loc,
    s !! sets = Some (Heap.PyList cur) /\
    length cur = length items /\
    (forall i grid, (i < j)%nat -> grids !! i = Some grid ->
       exists g', cur !! i = Some g' /\ s0 !! g' = None /\
                  s !! g' = Some (Heap.BoolArray (zip_with andb grid mask))) /\
    (forall i, (j <= i)%nat -> cur !! i = items !! i) /\
    (forall l o, s0 !! l = Some o -> l <> sets -> s !! l = Some o).

Section Labels.

(** ['{}'.format(x)] for a boundary of the configuration. *)
Variable format : float -> string.

(** The label and the name [get_sets_labels_and_names] appends for the
    range of index [i]. *)
Definition label_and_name (class_type : string) (class_rad_range : list float)
    (i : nat) : string * string :=
  let a := format (nth i class_rad_range nan) in
  if Nat.eqb i (length class_rad_range - 1) then
    ((if String.eqb class_type "slope"
      then "$\nabla$ > " ++ a ++ "%"
      else "val > " ++ a ++ "%"),
     "[" ++ a ++ "; inf[")%string
  else
    let b := format (nth (S i) class_rad_range nan) in
    ((if String.eqb class_type "slope"
      then "$\nabla \in$ [" ++ a ++ "% ; " ++ b ++ "%]"
      else "val $\in$ [" ++ a ++ "% ; " ++ b ++ "%]"),
     "[" ++ a ++ "; " ++ b ++ "]")%string.

Definition get_sets_labels_and_names (class_type : string)
    (class_rad_range : list float) : list string * list string :=
  let items :=
    map (label_and_name class_type class_rad_range)
        (seq 0 (length class_rad_range)) in
  (map fst items, map snd items).

End Labels.

(** The nodata of the descriptors [alti_diff_stats] makes for the
    classified images. *)
Definition classified_nodata : list Z := [0; 0; 0; 0].

(** [alti_diff_stats], from the class grids to the masks: the grids of the
    reference support and, for a cross classification, of the other one,
    the reconciliation of the two alpha bands, then the masks, read from
    the alpha band of the reference image as it then is. *)
Definition classify_and_mask (alti_map : A3DGeoRaster)
    (do_classify_results : bool) (support_ref : option A3DGeoRaster)
    (do_cross_classification : bool) (support_dsm : option A3DGeoRaster)
    (class_rad_range : list float)
  : result (option (list (list bool)) * option (list (list bool))
            * (list (list bool) * list string * option (list bool))) :=
  let* ref_built :=
    if do_classify_results then
      match support_ref with
      | None => Raise AttributeError
      | Some support =>
          let* built := create_sets support class_rad_range
                                    (Some classified_nodata) in
          Ok (Some built)
      end
    else Ok None in
  let* dsm_built :=
    if do_classify_results && do_cross_classification then
      match support_dsm with
      | None => Raise AttributeError
      | Some support =>
          let* built := create_sets support class_rad_range
                                    (Some classified_nodata) in
          Ok (Some built)
      end
    else Ok None in
  let ref_sets_def := option_map (fun built => fst (fst built)) ref_built in
  let dsm_sets_def := option_map (fun built => fst (fst built)) dsm_built in
  let ref_alpha := from_option (fun built => default [] (snd built)) [] ref_built in
  let dsm_alpha := from_option (fun built => default [] (snd built)) [] dsm_built in
  let* ref_alpha :=
    if do_classify_results && do_cross_classification then
      let* alphas := cross_class_apha_bands ref_alpha dsm_alpha
                       (default [] ref_sets_def) (default [] dsm_sets_def) in
      Ok (fst alphas)
    else Ok ref_alpha in
  let ref_classified_img_descriptor :=
    if do_classify_results then
      Some {| path := "Ref_support_classified.png";
              png_nodata := classified_nodata;
              alpha_band := ref_alpha |}
    else None in
  let* masks :=
    create_masks alti_map do_classify_results support_ref
                 do_cross_classification ref_classified_img_descriptor true in
  Ok (ref_sets_def, dsm_sets_def, masks).

(** [main] of compare_with_baseline, on the lines of the files found in the
    two directories. *)
Definition main (baseline_data test_data : list (list string))
    (baseline_csv_files : list string) (epsilon : float) : result unit :=
  if negb (Nat.eqb (length baseline_data) (length test_data)) then
    Raise ValueError
  else
    let* differences :=
      traverse (fun files =>
                  check_csv (fst (fst files)) (snd (fst files)) (snd files)
                            epsilon)
               (zip (zip baseline_data test_data) baseline_csv_files) in
    if negb (Nat.eqb (list_sum (map (@length difference) differences)) 0)
    then Raise ValueError
    else Ok tt.

End More.

(** ** Sample inputs *)

Module Samples.

Import F64 Stats.

Definition floats (l : list Z) : list float := map of_Z l.

(** A difference raster with a nodata pixel, a support with another one,
    and the alpha band of its classified image. *)
Definition alti_demo : A3DGeoRaster :=
  {| r := floats [1; -9999; 2; 3]; nodata := of_Z (-9999) |}.

Definition support_demo : A3DGeoRaster :=
  {| r := floats [5; 5; -32768; 30]; nodata := of_Z (-32768) |}.

Definition desc_demo : classified_img :=
  {| path := "Ref_support_classified.png";
     png_nodata := [0; 0; 0; 0];
     alpha_band := [255; 0; 0; 0] |}.

(** A 4x4 difference raster of zeros, by rows, with one nodata pixel on the
    border. *)
Definition zeros_4x4 : A3DGeoRaster :=
  {| r := floats [0; 0; 0; 0;  0; 0; 0; -9999;  0; 0; 0; 0;  0; 0; 0; 0];
     nodata := of_Z (-9999) |}.

Definition mask_4x4 : list bool :=
  [true; true; true; true;  true; true; true; false;
   true; true; true; true;  true; true; true; true].

(** A raster with an infinite difference. *)
Definition alti_inf : A3DGeoRaster :=
  {| r := [S754_infinity false]; nodata := of_Z (-9999) |}.

(** Two small differences and a large one, the large one where the support
    has no data. *)
Definition alti_far : A3DGeoRaster :=
  {| r := floats [0; 0; 100]; nodata := of_Z (-9999) |}.

Definition support_far : A3DGeoRaster :=
  {| r := floats [1; 1; -32768]; nodata := of_Z (-32768) |}.

(** A slope support with samples on the boundaries 10 and 25, and another
    with a sample below the first boundary. *)
Definition boundaries : list float := floats [0; 10; 25].

Definition support_on_boundaries : A3DGeoRaster :=
  {| r := floats [10; 25]; nodata := of_Z (-32768) |}.

Definition support_below : A3DGeoRaster :=
  {| r := floats [-5]; nodata := of_Z (-32768) |}.

(** A support with a sample below the first boundary, one on it, one on
    the second boundary, one above the last, and a nodata sample. *)
Definition support_mixed : A3DGeoRaster :=
  {| r := floats [-5; 0; 10; 30; -32768]; nodata := of_Z (-32768) |}.

(** Two differences, none of them kept, and one class. *)
Definition dz_two : list float := floats [1; 2].

Definition keep_none : list bool := [false; false].

Definition one_class : list (list bool) := [[true; false]].

Definition values_with_outlier : list float := floats [1; 2; 3; 4; 100].

(** The lines of two CSV files, as [readlines] returns them. *)
Definition line (text : string) : string :=
  (text ++ String Baseline.LF EmptyString)%string.

Definition header_line : string := line "Set Name,Mean Error,Error std".

Definition baseline_row : string := line "A,1.0,2.0".

Definition test_row_close : string := line "A,1.0,2.0000000000000002".

Definition test_row_next : string := line "A,1.0,2.0000000000000004".

Definition nan_row : string := line "A,1.0,nan".

Definition surplus_row : string := line "B,not a number".

(** A store with the differences (1), a mask (2), the outlier mask (3), two
    class grids (4, 5) and the list of the class grids (6). *)
Definition store_demo : gmap Heap.loc Heap.obj :=
  <[1%positive := Heap.FloatArray (floats [1; 2; 3; 4])]>
  (<[2%positive := Heap.BoolArray [true; true; false; true]]>
  (<[3%positive := Heap.BoolArray [true; true; true; true]]>
  (<[4%positive := Heap.BoolArray [true; false; false; false]]>
  (<[5%positive := Heap.BoolArray [false; true; true; true]]>
  (<[6%positive := Heap.PyList [4%positive; 5%positive]]> ∅))))).

Definition fit_always (data : list float) : bool := true.

Definition bin_step_demo : float := dec 1 1.

(** A store with a difference raster (1) and its support (2) only. *)
Definition store_rasters : gmap Heap.loc Heap.obj :=
  <[1%positive := Heap.FloatArray (floats [1; -9999; 2; 3])]>
  (<[2%positive := Heap.FloatArray (floats [5; 5; -32768; 30])]> ∅).

Definition alti_ref : Heap.raster_ref :=
  {| Heap.samples := 1%positive; Heap.nodata_value := of_Z (-9999) |}.

Definition support_ref : Heap.raster_ref :=
  {| Heap.samples := 2%positive; Heap.nodata_value := of_Z (-32768) |}.

End Samples.

(** ** More sample inputs *)

Module MoreSamples.

Import F64 Stats Samples.

(** A second support for [alti_demo] and [support_demo], in another class
    than the first on the last pixel. *)
Definition support_other : A3DGeoRaster :=
  {| r := floats [5; 12; 7; 5]; nodata := of_Z (-32768) |}.

(** Four differences, a mask that keeps three of them, and two classes
    that share out the pixels. *)
Definition dz_four : list float := floats [1; 2; 3; 4].

Definition keep_three : list bool := [true; true; false; true].

Definition two_classes : list (list bool) :=
  [[true; false; false; false]; [false; true; true; true]].

(** Three samples, the second of which is NaN. *)
Definition values_with_nan : list float := [of_Z 1; S754_nan; of_Z 3].

(** The records of the comparison of [baseline_row] with [test_row_next],
    and of [nan_row] with itself. *)
Definition record_next : Baseline.difference :=
  {| Baseline.csv_file := "stats.csv"; Baseline.class_name := "A";
     Baseline.stat_name := "Error std"; Baseline.baseline_val := of_Z 2;
     Baseline.test_val := S754_finite false 4503599627370497 (-51) |}.

Definition record_nan : Baseline.difference :=
  {| Baseline.csv_file := "stats.csv"; Baseline.class_name := "A";
     Baseline.stat_name := "Error std"; Baseline.baseline_val := nan;
     Baseline.test_val := nan |}.

(** A stand-in for the formatting of a boundary. *)
Definition format_demo (x : float) : string :=
  if eqb x (of_Z 0) then "0" else if eqb x (of_Z 10) then "10" else "25".

(** The store [store_demo] with a mask that keeps no pixel (7). *)
Definition store_empty_mode : gmap Heap.loc Heap.obj :=
  <[7%positive := Heap.BoolArray [false; false; false; false]]> store_demo.

(** A store with a difference raster of zeros (1) and a support (2). *)
Definition store_zeros : gmap Heap.loc Heap.obj :=
  <[1%positive := Heap.FloatArray (floats [0; 0; 0; 0])]>
  (<[2%positive := Heap.FloatArray (floats [5; 5; 12; 30])]> ∅).

(** A store with a support (1) whose nodata value, 0, is in the first
    class of [boundaries]. *)
Definition store_support_zero : gmap Heap.loc Heap.obj :=
  <[1%positive := Heap.FloatArray (floats [0; 5; 12; 30])]> ∅.

Definition support_zero_ref : Heap.raster_ref :=
  {| Heap.samples := 1%positive; Heap.nodata_value := of_Z 0 |}.

(** A support for [alti_demo] with a sample below the first boundary. *)
Definition support_low : A3DGeoRaster :=
  {| r := floats [-5; 5; 12; 30]; nodata := of_Z (-32768) |}.

(** The class grids of [support_low] over [boundaries]. *)
Definition classes_low : list (list bool) :=
  [[false; true; false; false]; [false; false; true; false];
   [false; false; false; true]].

End MoreSamples.

(** * Properties *)

(** ** The error monad *)

Lemma bind_Ok_inv {A B : Type} (m : result A) (k : A -> result B) (b : B) :
  Py.bind m k = Ok b -> exists a, m = Ok a /\ k a = Ok b.
Proof.
  destruct m as [a|e]; simpl; intros Hk; [ eauto | discriminate ].
Qed.

Tactic Notation "inv_bind" hyp(H) "as" ident(a) ident(Ha) :=
  apply bind_Ok_inv in H; destruct H as (a & Ha & H).

Lemma mul_bool_Ok (a b c : list bool) :
  Np.mul_bool a b = Ok c -> length a = length b /\ c = zip_with andb a b.
Proof.
  unfold Np.mul_bool.
  destruct (Nat.eqb (length a) (length b)) eqn:E; [ | discriminate ].
  intros [= <-]. apply Nat.eqb_eq in E. auto.
Qed.

Lemma mul_bool_same_shape (a b : list bool) :
  length a = length b -> Np.mul_bool a b = Ok (zip_with andb a b).
Proof.
  intros E. unfold Np.mul_bool. rewrite E, Nat.eqb_refl. reflexivity.
Qed.

(** ** Binary64: order and rounding *)

Module F64Facts.

Import F64.

Lemma compare_key (x y : float) :
  isnan x = false -> isnan y = false ->
  SFcompare x y = Some (lex (key x) (key y)).
Proof.
  destruct x as [sx|sx| |sx mx ex], y as [sy|sy| |sy my ey];
    try discriminate; intros _ _; simpl;
    try (destruct sx); try (destruct sy); simpl; try reflexivity.
  rewrite Z.compare_opp, (Z.compare_antisym ex ey).
  destruct (ex ?= ey); reflexivity.
Qed.

Lemma lex_Lt (a b : Z * Z * Z) : lex a b = Lt <-> klt a b.
Proof.
  destruct a as [[a1 a2] a3], b as [[b1 b2] b3]. simpl.
  destruct (Z.compare_spec a1 b1), (Z.compare_spec a2 b2), (Z.compare_spec a3 b3);
    split; intros; try discriminate; try reflexivity; lia.
Qed.

Lemma lex_Eq (a b : Z * Z * Z) : lex a b = Eq <-> a = b.
Proof.
  destruct a as [[a1 a2] a3], b as [[b1 b2] b3]. simpl.
  destruct (Z.compare_spec a1 b1), (Z.compare_spec a2 b2), (Z.compare_spec a3 b3);
    split; intros H'; try discriminate; try reflexivity;
    try (injection H'; intros; lia); subst; reflexivity.
Qed.

Lemma lex_Gt (a b : Z * Z * Z) : lex a b = Gt <-> klt b a.
Proof.
  destruct a as [[a1 a2] a3], b as [[b1 b2] b3]. simpl.
  destruct (Z.compare_spec a1 b1), (Z.compare_spec a2 b2), (Z.compare_spec a3 b3);
    split; intros; try discriminate; try reflexivity; lia.
Qed.

Lemma klt_trans a b c : klt a b -> klt b c -> klt a c.
Proof.
  destruct a as [[a1 a2] a3], b as [[b1 b2] b3], c as [[c1 c2] c3]. simpl. lia.
Qed.

Lemma klt_irrefl a : ~ klt a a.
Proof. destruct a as [[a1 a2] a3]. simpl. lia. Qed.

Lemma klt_total a b : klt a b \/ a = b \/ klt b a.
Proof.
  destruct a as [[a1 a2] a3], b as [[b1 b2] b3]. simpl.
  destruct (Z.lt_total a1 b1) as [|[|]], (Z.lt_total a2 b2) as [|[|]],
    (Z.lt_total a3 b3) as [|[|]]; subst; auto 10.
Qed.

Lemma ltb_spec (x y : float) :
  SFltb x y = true <-> isnan x = false /\ isnan y = false /\ klt (key x) (key y).
Proof.
  unfold SFltb.
  destruct (isnan x) eqn:Nx.
  { destruct x; try discriminate. simpl. split; [discriminate | intros (? & _); discriminate]. }
  destruct (isnan y) eqn:Ny.
  { destruct y; try discriminate. destruct x; simpl; split; try discriminate;
      intros (_ & ? & _); discriminate. }
  rewrite compare_key by assumption. rewrite <- lex_Lt.
  destruct (lex (key x) (key y)); split; try discriminate; auto;
    intros (_ & _ & ?); discriminate.
Qed.

Lemma leb_spec (x y : float) :
  SFleb x y = true <->
  isnan x = false /\ isnan y = false /\ (klt (key x) (key y) \/ key x = key y).
Proof.
  unfold SFleb.
  destruct (isnan x) eqn:Nx.
  { destruct x; try discriminate. simpl. split; [discriminate | intros (? & _); discriminate]. }
  destruct (isnan y) eqn:Ny.
  { destruct y; try discriminate. destruct x; simpl; split; try discriminate;
      intros (_ & ? & _); discriminate. }
  rewrite compare_key by assumption. rewrite <- lex_Lt, <- lex_Eq.
  destruct (lex (key x) (key y)); split; try discriminate; auto;
    intros (_ & _ & [?|?]); discriminate.
Qed.

Lemma eqb_spec (x y : float) :
  SFeqb x y = true <-> isnan x = false /\ isnan y = false /\ key x = key y.
Proof.
  unfold SFeqb.
  destruct (isnan x) eqn:Nx.
  { destruct x; try discriminate. simpl. split; [discriminate | intros (? & _); discriminate]. }
  destruct (isnan y) eqn:Ny.
  { destruct y; try discriminate. destruct x; simpl; split; try discriminate;
      intros (_ & ? & _); discriminate. }
  rewrite compare_key by assumption. rewrite <- lex_Eq.
  destruct (lex (key x) (key y)); split; try discriminate; auto;
    intros (_ & _ & ?); discriminate.
Qed.


Lemma shr_m_of_loc (m : Z) (l : location) : shr_m (shr_record_of_loc m l) = m.
Proof. destruct l as [|[ | | ]]; reflexivity. Qed.

Lemma shr_1_nonneg (mrs : shr_record) : 0 <= shr_m mrs -> 0 <= shr_m (shr_1 mrs).
Proof.
  destruct mrs as [m r s]. simpl.
  destruct m as [|[p|p|]|[p|p|]]; simpl; lia.
Qed.

Lemma iter_shr_1_nonneg (p : positive) :
  forall mrs, 0 <= shr_m mrs -> 0 <= shr_m (SpecFloat.iter_pos shr_1 p mrs).
Proof.
  induction p as [p IH|p IH|]; intros mrs H; simpl.
  - apply IH, IH, shr_1_nonneg, H.
  - apply IH, IH, H.
  - apply shr_1_nonneg, H.
Qed.

Lemma shr_nonneg (mrs : shr_record) (e n : Z) :
  0 <= shr_m mrs -> 0 <= shr_m (fst (shr mrs e n)).
Proof.
  intros H. destruct n; simpl; auto using iter_shr_1_nonneg.
Qed.

Lemma round_nearest_even_nonneg (m : Z) (l : location) :
  0 <= m -> 0 <= round_nearest_even m l.
Proof.
  intros H. destruct l as [|[ | | ]]; simpl; try lia.
  destruct (Z.even m); lia.
Qed.

(** Rounding a non-negative mantissa gives a number. *)
Lemma binary_round_aux_not_nan (s : bool) (mx ex : Z) (lx : location) :
  0 <= mx -> isnan (binary_round_aux prec emax s mx ex lx) = false.
Proof.
  intros H. unfold binary_round_aux, shr_fexp.
  destruct (shr (shr_record_of_loc mx lx) ex _) as [mrs' e'] eqn:E1.
  assert (H1 : 0 <= shr_m mrs').
  { change mrs' with (fst (mrs', e')). rewrite <- E1.
    apply shr_nonneg. rewrite shr_m_of_loc. exact H. }
  destruct (shr (shr_record_of_loc (round_nearest_even _ _) loc_Exact) e' _)
    as [mrs'' e''] eqn:E2.
  assert (H2 : 0 <= shr_m mrs'').
  { change mrs'' with (fst (mrs'', e'')). rewrite <- E2.
    apply shr_nonneg. rewrite shr_m_of_loc.
    apply round_nearest_even_nonneg, H1. }
  destruct (shr_m mrs'') as [|m|m]; try reflexivity.
  - destruct (e'' <=? emax - prec); reflexivity.
  - lia.
Qed.

Lemma binary_normalize_not_nan (m e : Z) (sz : bool) :
  isnan (binary_normalize prec emax m e sz) = false.
Proof.
  destruct m as [|m|m]; simpl; try reflexivity;
    unfold binary_round;
    destruct (shl_align _ _ _) as [mz ez];
    apply binary_round_aux_not_nan; lia.
Qed.

(** Shifting a positive mantissa right by fewer bits than it has digits
    leaves a positive mantissa, with that many digits less. *)
Lemma digits2_pos_xO (p : positive) :
  Zpos (digits2_pos p~0) = Zpos (digits2_pos p) + 1.
Proof. exact (Pos2Z.inj_succ (digits2_pos p)). Qed.

Lemma digits2_pos_xI (p : positive) :
  Zpos (digits2_pos p~1) = Zpos (digits2_pos p) + 1.
Proof. exact (Pos2Z.inj_succ (digits2_pos p)). Qed.

Lemma shr_1_digits (mrs : shr_record) (m : positive) :
  shr_m mrs = Zpos m -> 1 < Zpos (digits2_pos m) ->
  exists m', shr_m (shr_1 mrs) = Zpos m' /\
             Zpos (digits2_pos m') = Zpos (digits2_pos m) - 1.
Proof.
  destruct mrs as [z r s]. cbn [shr_m]. intros -> H.
  destruct m as [p|p|].
  - exists p. split; [reflexivity | rewrite digits2_pos_xI; lia].
  - exists p. split; [reflexivity | rewrite digits2_pos_xO; lia].
  - cbn in H. lia.
Qed.

Lemma iter_shr_1_digits (p : positive) :
  forall (mrs : shr_record) (m : positive),
    shr_m mrs = Zpos m -> Zpos p < Zpos (digits2_pos m) ->
    exists m', shr_m (SpecFloat.iter_pos shr_1 p mrs) = Zpos m' /\
               Zpos (digits2_pos m') = Zpos (digits2_pos m) - Zpos p.
Proof.
  induction p as [p IH|p IH|]; intros mrs m Hm Hp; cbn [SpecFloat.iter_pos];
    [ rewrite Pos2Z.inj_xI in Hp |- * | rewrite Pos2Z.inj_xO in Hp |- * | ].
  - destruct (shr_1_digits mrs m Hm) as (m1 & H1 & D1); [lia|].
    destruct (IH _ _ H1) as (m2 & H2 & D2); [lia|].
    destruct (IH _ _ H2) as (m3 & H3 & D3); [lia|].
    exists m3. split; [exact H3 | lia].
  - destruct (IH _ _ Hm) as (m2 & H2 & D2); [lia|].
    destruct (IH _ _ H2) as (m3 & H3 & D3); [lia|].
    exists m3. split; [exact H3 | lia].
  - apply shr_1_digits; [exact Hm | lia].
Qed.

Lemma digits2_pos_succ (m : positive) :
  (Zpos (digits2_pos m) <= Zpos (digits2_pos (Pos.succ m))).
Proof.
  induction m as [m IH|m IH|].
  - change (Pos.succ m~1) with ((Pos.succ m)~0)%positive.
    rewrite digits2_pos_xI, digits2_pos_xO. lia.
  - change (Pos.succ m~0) with (m~1)%positive.
    rewrite digits2_pos_xI, digits2_pos_xO. lia.
  - cbn. lia.
Qed.

(** One rounding shift: the mantissa stays positive and the sum of its
    number of digits and of the exponent is kept, when the number is above
    the least exponent. *)
Lemma shr_fexp_pos (m : positive) (e : Z) (l : location) :
  emin prec emax < Zpos (digits2_pos m) + e ->
  exists m' e', exists r,
    shr_fexp prec emax (Zpos m) e l = (r, e') /\ shr_m r = Zpos m' /\
    Zpos (digits2_pos m') + e' = Zpos (digits2_pos m) + e.
Proof.
  intros H. unfold shr_fexp, shr. simpl Zdigits2.
  unfold fexp, emin, prec, emax in *.
  destruct (Z.max (Zpos (digits2_pos m) + e - 53) (3 - 1024 - 53) - e) as [|p|p] eqn:E.
  - exists m, e, (shr_record_of_loc (Zpos m) l). rewrite shr_m_of_loc. auto.
  - destruct (iter_shr_1_digits p (shr_record_of_loc (Zpos m) l) m) as (m' & H1 & D1).
    + apply shr_m_of_loc.
    + lia.
    + exists m', (e + Zpos p), (SpecFloat.iter_pos shr_1 p (shr_record_of_loc (Zpos m) l)).
      repeat split; auto. lia.
  - exists m, e, (shr_record_of_loc (Zpos m) l). rewrite shr_m_of_loc. auto.
Qed.

(** Rounding a positive mantissa above the least exponent gives a number
    that is neither a zero nor NaN. *)
Lemma binary_round_aux_pos (s : bool) (m : positive) (e : Z) (l : location) :
  emin prec emax < Zpos (digits2_pos m) + e ->
  (exists m' e', binary_round_aux prec emax s (Zpos m) e l = S754_finite s m' e')
  \/ binary_round_aux prec emax s (Zpos m) e l = S754_infinity s.
Proof.
  intros H. unfold binary_round_aux.
  destruct (shr_fexp_pos m e l H) as (m1 & e1 & r1 & -> & Hm1 & D1).
  rewrite Hm1.
  assert (Hr : exists m2, round_nearest_even (Zpos m1) (loc_of_shr_record r1) = Zpos m2
                          /\ Zpos (digits2_pos m1) <= Zpos (digits2_pos m2)).
  { destruct (loc_of_shr_record r1) as [|[ | | ]]; cbn [round_nearest_even].
    - exists m1; split; [reflexivity|lia].
    - destruct (Z.even (Zpos m1)).
      + exists m1; split; [reflexivity|lia].
      + exists (Pos.succ m1). split; [f_equal; lia | apply digits2_pos_succ].
    - exists m1; split; [reflexivity|lia].
    - exists (Pos.succ m1). split; [f_equal; lia | apply digits2_pos_succ]. }
  destruct Hr as (m2 & -> & D2).
  destruct (shr_fexp_pos m2 e1 loc_Exact) as (m3 & e3 & r3 & -> & Hm3 & D3); [lia|].
  rewrite Hm3.
  destruct (e3 <=? emax - prec); eauto.
Qed.

(** *** The order, as the tests of the code use it *)

Lemma ltb_not_leb (x y : float) : ltb x y = true -> leb y x = false.
Proof.
  unfold ltb, leb. intros H. apply ltb_spec in H as (Nx & Ny & K).
  destruct (SFleb y x) eqn:E; [|reflexivity].
  apply leb_spec in E as (_ & _ & [K'|K']).
  - destruct (klt_irrefl (key x)). eapply klt_trans; eauto.
  - rewrite K' in K. destruct (klt_irrefl _ K).
Qed.

Lemma ltb_leb_trans (a b v : float) :
  ltb a b = true -> leb b v = true -> leb a v = true.
Proof.
  unfold ltb, leb. intros H1 H2.
  apply ltb_spec in H1 as (Na & Nb & K1).
  apply leb_spec in H2 as (_ & Nv & K2).
  apply leb_spec. repeat split; auto. left.
  destruct K2 as [K2|K2]; [eapply klt_trans; eauto | rewrite <- K2; exact K1].
Qed.

Lemma not_ltb_leb (x y : float) :
  isnan x = false -> isnan y = false -> ltb x y = false -> leb y x = true.
Proof.
  unfold ltb, leb. intros Nx Ny H. apply leb_spec. repeat split; auto.
  destruct (klt_total (key x) (key y)) as [K|[K|K]]; auto.
  assert (E : SFltb x y = true) by (apply ltb_spec; auto).
  congruence.
Qed.

Lemma ltb_not_nan (x y : float) :
  ltb x y = true -> isnan x = false /\ isnan y = false.
Proof.
  unfold ltb. intros H. apply ltb_spec in H as (Nx & Ny & _). auto.
Qed.

Lemma leb_not_nan (x y : float) :
  leb x y = true -> isnan x = false /\ isnan y = false.
Proof.
  unfold leb. intros H. apply leb_spec in H as (Nx & Ny & _). auto.
Qed.

(** *** Integers and arithmetic that stay numbers *)

Lemma div_eucl_nonneg (a b q r : Z) :
  0 <= a -> 0 < b -> Z.div_eucl a b = (q, r) -> q = a / b /\ 0 <= q.
Proof.
  intros Ha Hb E.
  assert (Hq : q = a / b) by (unfold Z.div; rewrite E; reflexivity).
  split; [exact Hq|]. subst q. apply Z.div_pos; assumption.
Qed.

(** The quotient of a positive integer by 1, before rounding. *)
Lemma div_core_by_one (p : positive) :
  exists (mq : positive) (e' : Z) (l : location),
    SFdiv_core_binary prec emax (Zpos p) 0 1 0 = (Zpos mq, e', l) /\
    emin prec emax <= e'.
Proof.
  unfold SFdiv_core_binary.
  match goal with
  | |- context [Z.min ?a ?b] => set (e' := Z.min a b)
  end.
  assert (He : emin prec emax <= e' <= 0).
  { unfold e', fexp, emin, prec, emax. lia. }
  clearbody e'.
  match goal with
  | |- context [let '(_, _) := ?d in _] => destruct d as [q r0] eqn:E
  end.
  match type of E with
  | _ ?a ?b = _ =>
      assert (Ha : 0 < a);
      [ | destruct (div_eucl_nonneg a b q r0) as [Hq _];
          [lia | lia | exact E | ] ]
  end.
  - destruct (0 - 0 - e') as [|k|k] eqn:Es; try lia.
    rewrite Z.shiftl_mul_pow2 by lia.
    apply Z.mul_pos_pos; [lia | apply Z.pow_pos_nonneg; lia].
  - rewrite Z.div_1_r in Hq. rewrite <- Hq in Ha.
    destruct q as [|mq|mq]; try lia.
    exists mq, e', (new_location 1 r0). split; [reflexivity | lia].
Qed.

(** [float(n)] of a positive integer is a positive number. *)
Lemma of_Z_pos (n : Z) :
  0 < n ->
  (exists m e, of_Z n = S754_finite false m e) \/ of_Z n = S754_infinity false.
Proof.
  intros Hn. destruct n as [|p|p]; try lia.
  change (of_Z (Zpos p))
    with (let '(q, e, l) := SFdiv_core_binary prec emax (Zpos p) 0 1 0 in
          binary_round_aux prec emax false q e l).
  destruct (div_core_by_one p) as (mq & e' & l & -> & He).
  destruct (binary_round_aux_pos false mq e' l) as [(m & e & H)|H].
  - pose proof (Pos2Z.is_pos (digits2_pos mq)). lia.
  - left. exists m, e. exact H.
  - right. exact H.
Qed.

Lemma add_not_nan (x y : float) :
  isnan x = false -> isfinite y = true -> isnan (add x y) = false.
Proof.
  destruct x as [sx|sx| |sx mx ex], y as [sy|sy| |sy my ey];
    try discriminate; intros _ _; try reflexivity.
  - destruct sx, sy; reflexivity.
  - apply binary_normalize_not_nan.
Qed.

Lemma sub_not_nan (x y : float) :
  isfinite x = true -> isnan y = false -> isnan (sub x y) = false.
Proof.
  destruct x as [sx|sx| |sx mx ex], y as [sy|sy| |sy my ey];
    try discriminate; intros _ _; try reflexivity.
  - destruct sx, sy; reflexivity.
  - apply binary_normalize_not_nan.
Qed.

Lemma div_not_nan (x : float) (s : bool) (m : positive) (e : Z) :
  isnan x = false -> isnan (div x (S754_finite s m e)) = false.
Proof.
  destruct x as [sx|sx| |sx mx ex]; try discriminate; intros _; try reflexivity.
  unfold div, SFdiv, SFdiv_core_binary.
  match goal with
  | |- context [Z.div_eucl ?a ?b] => destruct (Z.div_eucl a b) as [q r0] eqn:E
  end.
  apply binary_round_aux_not_nan.
  match type of E with
  | _ ?a ?b = _ =>
      assert (Ha : 0 <= a);
      [ | destruct (div_eucl_nonneg a b q r0) as [_ Hq];
          [lia | lia | exact E | exact Hq ] ]
  end.
  match goal with
  | |- 0 <= match ?s' with _ => _ end => destruct s'
  end; try lia.
  apply Z.shiftl_nonneg. lia.
Qed.

Lemma abs_not_nan (x : float) : isnan x = false -> isnan (abs x) = false.
Proof. destruct x; auto. Qed.

Lemma isfinite_not_nan (x : float) : isfinite x = true -> isnan x = false.
Proof. destruct x; auto; discriminate. Qed.

End F64Facts.

(** ** Lists, indexing and the error monad *)

Module ListFacts.

Lemma traverse_Ok {A B : Type} (f : A -> result B) (l : list A) (bs : list B) :
  traverse f l = Ok bs -> Forall2 (fun a b => f a = Ok b) l bs.
Proof.
  revert bs. induction l as [|a l IH]; simpl; intros bs H.
  - injection H as <-. constructor.
  - inv_bind H as b Hb. inv_bind H as bs' Hbs. injection H as <-.
    constructor; auto.
Qed.

Lemma traverse_all_Ok {A B : Type} (f : A -> result B) (g : A -> B) (l : list A) :
  (forall a, In a l -> f a = Ok (g a)) -> traverse f l = Ok (map g l).
Proof.
  induction l as [|a l IH]; simpl; intros H; [reflexivity|].
  rewrite (H a) by auto. simpl. rewrite IH by auto. reflexivity.
Qed.

Lemma getitem_Ok {A : Type} (l : list A) (i : nat) (a : A) :
  getitem l i = Ok a <-> l !! i = Some a.
Proof.
  unfold getitem. destruct (l !! i); split; intros H; congruence.
Qed.

Lemma getitem_app_r {A : Type} (pre l : list A) (a : A) :
  getitem (pre ++ a :: l) (length pre) = Ok a.
Proof.
  apply getitem_Ok. rewrite lookup_app_r by lia.
  rewrite Nat.sub_diag. reflexivity.
Qed.

Lemma take_where_from {A : Type} (arr : list A) :
  forall (pre : list A) (mask : list bool),
    (length mask <= length arr)%nat ->
    Np.take (pre ++ arr) (Np.where_from (length pre) mask)
      = Ok (Np.masked arr mask).
Proof.
  unfold Np.take.
  induction arr as [|a arr IH]; intros pre mask Hlen.
  - destruct mask; [reflexivity | simpl in Hlen; lia].
  - destruct mask as [|b mask]; [reflexivity|]. simpl in Hlen.
    assert (IH' := IH (pre ++ [a]) mask).
    rewrite <- app_assoc, length_app in IH'. simpl in IH'.
    rewrite Nat.add_1_r in IH'.
    destruct b; simpl.
    + rewrite getitem_app_r. simpl. rewrite IH' by lia. reflexivity.
    + apply IH'. lia.
Qed.

(** Boolean indexing by a mask of the shape of the array does not raise. *)
Lemma select_masked {A : Type} (arr : list A) (mask : list bool) :
  (length mask <= length arr)%nat -> Np.select arr mask = Ok (Np.masked arr mask).
Proof.
  intros H. apply (take_where_from arr [] mask H).
Qed.

Lemma masked_map {A : Type} (f : A -> bool) (arr : list A) :
  Np.masked arr (map f arr) = List.filter f arr.
Proof.
  induction arr as [|a arr IH]; simpl; [reflexivity|].
  rewrite IH. reflexivity.
Qed.

Lemma select_map {A : Type} (f : A -> bool) (arr : list A) :
  Np.select arr (map f arr) = Ok (List.filter f arr).
Proof.
  rewrite select_masked by (rewrite length_map; lia).
  rewrite masked_map. reflexivity.
Qed.

Lemma masked_nil_size {A : Type} (arr : list A) (mask : list bool) :
  Np.size (Np.masked arr mask) = 0 -> Np.masked arr mask = [].
Proof.
  unfold Np.size. destruct (Np.masked arr mask); simpl; [reflexivity | lia].
Qed.

End ListFacts.

(** ** Masks *)

Module MaskProps.

Import F64 Stats Samples ListFacts.

Lemma get_nonan_mask_float (array : list float) (nan_value : float) :
  get_nonan_mask array nan_value
    = map (fun v => negb (isnan v) && neb v nan_value) array.
Proof. reflexivity. Qed.

(** The first mask [create_masks] returns, whatever the outlier option. *)
Lemma create_masks_inv (alti_map : A3DGeoRaster) (do_classification : bool)
    (ref_support : option A3DGeoRaster) (do_cross : bool)
    (desc : option classified_img) (remove_outliers : bool)
    (masks : list (list bool)) (modes : list string)
    (no_outliers : option (list bool)) :
  create_masks alti_map do_classification ref_support do_cross desc remove_outliers
    = Ok (masks, modes, no_outliers) ->
  exists (m_std : list bool) (rest : list (list bool)),
    masks = m_std :: rest /\
    (if do_classification then
       exists s, ref_support = Some s /\
         Np.mul_bool (get_nonan_mask (r alti_map) (nodata alti_map))
                     (get_nonan_mask (r s) (nodata s)) = Ok m_std
     else m_std = get_nonan_mask (r alti_map) (nodata alti_map)).
Proof.
  unfold create_masks. intros H.
  inv_bind H as no_out Hout. inv_bind H as m0 Hm0.
  assert (Hstd : if do_classification then
       exists s, ref_support = Some s /\
         Np.mul_bool (get_nonan_mask (r alti_map) (nodata alti_map))
                     (get_nonan_mask (r s) (nodata s)) = Ok m0
     else m0 = get_nonan_mask (r alti_map) (nodata alti_map)).
  { destruct do_classification.
    - destruct ref_support as [s|]; [eauto | discriminate].
    - injection Hm0 as <-. reflexivity. }
  destruct (do_classification && do_cross).
  - destruct desc as [d|]; [|discriminate].
    inv_bind H as nd0 Hnd. inv_bind H as coh Hcoh. inv_bind H as inc Hinc.
    injection H as <- <- <-. eauto.
  - injection H as <- <- <-. eauto.
Qed.

(** C4. The first mask [create_masks] returns has the shape of the
    difference raster and holds exactly at the pixels whose difference is
    neither NaN nor equal to the nodata value and, when classification is
    active, whose reference support sample is neither NaN nor equal to its
    nodata value; infinite samples are kept. On the 4x4 raster of zeros
    with one nodata pixel and no classification, the mask holds at 15
    pixels and the record of all classes, computed on it, has count 15,
    mean, std, rmse, median and nmad 0, and percent 93.75. *)
Theorem standard_mask_not_nan_not_nodata :
  (forall (alti_map : A3DGeoRaster) (do_classification : bool)
          (ref_support : option A3DGeoRaster) (do_cross : bool)
          (desc : option classified_img) (remove_outliers : bool)
          (masks : list (list bool)) (modes : list string)
          (no_outliers : option (list bool)),
      create_masks alti_map do_classification ref_support do_cross desc
                   remove_outliers = Ok (masks, modes, no_outliers) ->
      exists (m_std : list bool) (rest : list (list bool)),
        masks = m_std :: rest /\
        length m_std = length (r alti_map) /\
        forall (p : nat) (v : float), r alti_map !! p = Some v ->
          if do_classification then
            exists (s : A3DGeoRaster) (w : float),
              ref_support = Some s /\ r s !! p = Some w /\
              m_std !! p = Some ((negb (isnan v) && neb v (nodata alti_map))
                                 && (negb (isnan w) && neb w (nodata s)))
          else
            m_std !! p = Some (negb (isnan v) && neb v (nodata alti_map)))
  /\
  (create_masks zeros_4x4 false None false None false
     = Ok ([mask_4x4], [standard], None) /\
   length (List.filter (fun b : bool => b) mask_4x4) = 15%nat /\
   exists rec : StatsRecord,
     get_stats (r zeros_4x4) (Some mask_4x4) None None None None = Ok [rec] /\
     nbpts (stats rec) = 15 /\
     mean (stats rec) = zero /\ std (stats rec) = zero /\
     rmse (stats rec) = zero /\ median (stats rec) = zero /\
     nmad (stats rec) = zero /\
     set_label rec = "all"%string /\
     percent rec = dec 9375 2).
Proof.
  split.
  - intros alti_map do_classification ref_support do_cross desc remove_outliers
      masks modes no_outliers H.
    apply create_masks_inv in H as (m_std & rest & -> & Hstd).
    exists m_std, rest. split; [reflexivity|].
    destruct do_classification.
    + destruct Hstd as (s & -> & Hmul).
      apply mul_bool_Ok in Hmul as [Hlen ->].
      rewrite !get_nonan_mask_float in *. rewrite !length_map in Hlen.
      split.
      * rewrite length_zip_with, !length_map. lia.
      * intros p v Hv.
        assert (Hlt : (p < length (r s))%nat).
        { rewrite <- Hlen. eapply lookup_lt_Some; eauto. }
        apply lookup_lt_is_Some_2 in Hlt as [w Hw].
        exists s, w. repeat split; auto.
        rewrite lookup_zip_with, !list_lookup_fmap, Hv, Hw. reflexivity.
    + subst m_std. rewrite get_nonan_mask_float. split.
      * apply length_map.
      * intros p v Hv. rewrite list_lookup_fmap, Hv. reflexivity.
  - split; [vm_compute; reflexivity|].
    split; [reflexivity|].
    eexists. split; [vm_compute; reflexivity|].
    repeat split; vm_compute; reflexivity.
Qed.

Lemma standard_mask_not_nan_not_nodata_witness :
  create_masks alti_demo true (Some support_demo) true (Some desc_demo) true
    = Ok ([[true; false; false; true]; [true; false; false; false];
           [false; false; false; true]],
          [standard; coherent_classification; incoherent_classification],
          Some [true; false; true; true]) /\
  exists (m_std : list bool) (rest : list (list bool)),
    [[true; false; false; true]; [true; false; false; false];
     [false; false; false; true]] = m_std :: rest /\
    length m_std = length (r alti_demo) /\
    forall (p : nat) (v : float), r alti_demo !! p = Some v ->
      exists (s : A3DGeoRaster) (w : float),
        Some support_demo = Some s /\ r s !! p = Some w /\
        m_std !! p = Some ((negb (isnan v) && neb v (nodata alti_demo))
                           && (negb (isnan w) && neb w (nodata s))).
Proof.
  assert (H : create_masks alti_demo true (Some support_demo) true
                (Some desc_demo) true
              = Ok ([[true; false; false; true]; [true; false; false; false];
                     [false; false; false; true]],
                    [standard; coherent_classification;
                     incoherent_classification],
                    Some [true; false; true; true])).
  { vm_compute. reflexivity. }
  split; [exact H|].
  exact (proj1 standard_mask_not_nan_not_nodata _ _ _ _ _ _ _ _ _ H).
Defined.

(** C4, as the claim words it, fails: an infinite difference is kept by the
    standard mask although it is not finite. *)
Lemma standard_mask_keeps_infinity :
  ~ (forall (alti_map : A3DGeoRaster) (m_std : list bool)
            (rest : list (list bool)) (modes : list string)
            (no_outliers : option (list bool)) (p : nat) (v : float),
        create_masks alti_map false None false None false
          = Ok (m_std :: rest, modes, no_outliers) ->
        r alti_map !! p = Some v ->
        m_std !! p = Some (isfinite v && neb v (nodata alti_map))).
Proof.
  intros H.
  specialize (H alti_inf [true] [] [standard] None 0%nat (S754_infinity false)).
  assert (E : [true] !! 0%nat = Some false).
  { apply H; vm_compute; reflexivity. }
  discriminate E.
Qed.

(** C7. When classification and cross-classification are both active, the
    masks [create_masks] returns are the standard, the coherent and the
    incoherent one, all of one shape; at every pixel the coherent and the
    incoherent mask never hold together, and one of them holds exactly when
    the standard mask does. *)
Theorem coherent_incoherent_split_standard
    (alti_map : A3DGeoRaster) (ref_support : option A3DGeoRaster)
    (desc : option classified_img) (remove_outliers : bool)
    (masks : list (list bool)) (modes : list string)
    (no_outliers : option (list bool)) :
  create_masks alti_map true ref_support true desc remove_outliers
    = Ok (masks, modes, no_outliers) ->
  exists m_std m_coh m_inc : list bool,
    masks = [m_std; m_coh; m_inc] /\
    modes = [standard; coherent_classification; incoherent_classification] /\
    length m_coh = length m_std /\ length m_inc = length m_std /\
    forall (p : nat) (s : bool), m_std !! p = Some s ->
      exists c i : bool,
        m_coh !! p = Some c /\ m_inc !! p = Some i /\
        c && i = false /\ c || i = s.
Proof.
  unfold create_masks. intros H.
  inv_bind H as no_out Hout. clear Hout.
  inv_bind H as m0 Hm0. simpl in H.
  destruct desc as [d|]; [ | discriminate ].
  inv_bind H as nd0 Hnd. inv_bind H as coh Hcoh. inv_bind H as inc Hinc.
  injection H as <- <- <-.
  set (cm := get_nonan_mask (alpha_band d) nd0) in *.
  apply mul_bool_Ok in Hcoh as [L2 ->], Hinc as [L3 ->].
  rewrite length_map in L3.
  exists m0, (zip_with andb m0 cm), (zip_with andb m0 (map negb cm)).
  repeat split.
  - rewrite length_zip_with. lia.
  - rewrite length_zip_with, length_map. lia.
  - intros p s Hp.
    assert (Hlt : (p < length cm)%nat).
    { rewrite <- L2. eapply lookup_lt_Some; eauto. }
    apply lookup_lt_is_Some_2 in Hlt as [k Hk].
    exists (s && k), (s && negb k).
    rewrite !lookup_zip_with, Hp, list_lookup_fmap, Hk. simpl.
    repeat split; destruct s, k; reflexivity.
Qed.

Lemma coherent_incoherent_split_standard_witness :
  create_masks alti_demo true (Some support_demo) true (Some desc_demo) false
    = Ok ([[true; false; false; true]; [true; false; false; false];
           [false; false; false; true]],
          [standard; coherent_classification; incoherent_classification],
          None) /\
  exists m_std m_coh m_inc : list bool,
    [[true; false; false; true]; [true; false; false; false];
     [false; false; false; true]] = [m_std; m_coh; m_inc] /\
    [standard; coherent_classification; incoherent_classification]
      = [standard; coherent_classification; incoherent_classification] /\
    length m_coh = length m_std /\ length m_inc = length m_std /\
    forall (p : nat) (s : bool), m_std !! p = Some s ->
      exists c i : bool,
        m_coh !! p = Some c /\ m_inc !! p = Some i /\
        c && i = false /\ c || i = s.
Proof.
  assert (H : create_masks alti_demo true (Some support_demo) true
                (Some desc_demo) false
              = Ok ([[true; false; false; true]; [true; false; false; false];
                     [false; false; false; true]],
                    [standard; coherent_classification;
                     incoherent_classification],
                    None)).
  { vm_compute. reflexivity. }
  split; [exact H|].
  exact (coherent_incoherent_split_standard _ _ _ _ _ _ _ H).
Defined.

(** C1, amended. The outlier mask has the shape of the difference raster
    and holds exactly at the pixels whose difference lies strictly between
    [mu - 3 * sigma] and [mu + 3 * sigma], where [mu] and [sigma] are the
    mean and the standard deviation of the differences that are neither NaN
    nor equal to the nodata value, whether classification is active or not;
    and the masks returned are those returned without the outlier mask. *)
Theorem outlier_mask_three_sigma
    (alti_map : A3DGeoRaster) (do_classification : bool)
    (ref_support : option A3DGeoRaster) (do_cross : bool)
    (desc : option classified_img)
    (masks : list (list bool)) (modes : list string)
    (no_outliers : option (list bool)) :
  create_masks alti_map do_classification ref_support do_cross desc true
    = Ok (masks, modes, no_outliers) ->
  let kept :=
    List.filter (fun v => negb (isnan v) && neb v (nodata alti_map))
                (r alti_map) in
  let mu := Np.mean kept in
  let sigma := Np.std kept in
  no_outliers
    = Some (map (fun x => ltb (sub mu (mul (of_Z 3) sigma)) x
                          && ltb x (add mu (mul (of_Z 3) sigma)))
                (r alti_map)) /\
  create_masks alti_map do_classification ref_support do_cross desc false
    = Ok (masks, modes, None).
Proof.
  intros H kept mu sigma. unfold create_masks in H |- *.
  inv_bind H as no_out Hout. cbv beta iota in Hout.
  inv_bind Hout as om Hom. injection Hout as <-.
  unfold get_ouliersfree_mask in Hom.
  rewrite get_nonan_mask_float, select_map in Hom. simpl in Hom.
  injection Hom as <-.
  cbn [Py.bind].
  inv_bind H as m0 Hm0. rewrite Hm0. cbn [Py.bind].
  destruct (do_classification && do_cross).
  - destruct desc as [d|]; [|discriminate].
    inv_bind H as nd0 Hnd. inv_bind H as coh Hcoh. inv_bind H as inc Hinc.
    rewrite Hnd. cbn [Py.bind]. rewrite Hcoh. cbn [Py.bind].
    rewrite Hinc. cbn [Py.bind].
    injection H as <- <- <-. split; reflexivity.
  - injection H as <- <- <-. split; reflexivity.
Qed.

Lemma outlier_mask_three_sigma_witness :
  create_masks alti_far true (Some support_far) false None true
    = Ok ([[true; true; false]], [standard], Some [true; true; true]) /\
  let kept :=
    List.filter (fun v => negb (isnan v) && neb v (nodata alti_far))
                (r alti_far) in
  let mu := Np.mean kept in
  let sigma := Np.std kept in
  Some [true; true; true]
    = Some (map (fun x => ltb (sub mu (mul (of_Z 3) sigma)) x
                          && ltb x (add mu (mul (of_Z 3) sigma)))
                (r alti_far)) /\
  create_masks alti_far true (Some support_far) false None false
    = Ok ([[true; true; false]], [standard], None).
Proof.
  assert (H : create_masks alti_far true (Some support_far) false None true
              = Ok ([[true; true; false]], [standard],
                    Some [true; true; true])).
  { vm_compute. reflexivity. }
  split; [exact H|].
  exact (outlier_mask_three_sigma _ _ _ _ _ _ _ _ H).
Defined.

(** C1, as the claim words it, fails when classification is active: the
    bounds are not those of the differences the standard mask selects. Here
    the standard mask selects the two zeros, whose mean and deviation are 0
    and would leave no pixel inside the bounds, and the outlier mask holds
    everywhere. *)
Lemma outlier_bounds_ignore_support :
  exists (m_std om : list bool) (selected : list float),
    create_masks alti_far true (Some support_far) false None true
      = Ok ([m_std], [standard], Some om) /\
    Np.select (r alti_far) m_std = Ok selected /\
    om = [true; true; true] /\
    map (inside_3sigma (Np.mean selected) (Np.std selected)) (r alti_far)
      = [false; false; false].
Proof.
  exists [true; true; false], [true; true; true], (floats [0; 0]).
  repeat split; vm_compute; reflexivity.
Qed.

End MaskProps.

(** ** Classes *)

Module ClassProps.

Import F64 Stats Terms Samples ListFacts F64Facts.

(** *** The grids of [create_sets] *)

Lemma range_grid_in_range (sets_rad_range : list float) (idx : nat)
    (img : list float) :
  range_grid sets_rad_range idx img = map (in_range sets_rad_range idx) img.
Proof.
  unfold range_grid, in_range.
  destruct (Nat.eqb idx (length sets_rad_range - 1)); reflexivity.
Qed.

Lemma assign_where_length {A : Type} (grid : list A) (w : list bool) (v : A) :
  length (assign_where grid w v) = length grid.
Proof.
  revert w. induction grid as [|g grid IH]; intros [|b w]; simpl; auto.
Qed.

Lemma assign_where_lookup {A : Type} (grid : list A) (w : list bool) (v : A)
    (p : nat) (g : A) (b : bool) :
  grid !! p = Some g -> w !! p = Some b ->
  assign_where grid w v !! p = Some (if b then v else g).
Proof.
  revert w p. induction grid as [|g0 grid IH]; intros [|b0 w] [|p]; simpl;
    try discriminate.
  - intros [= ->] [= ->]. reflexivity.
  - apply IH.
Qed.

(** What [create_sets] returns, when it returns. *)
Lemma create_sets_inv (img : A3DGeoRaster) (sets_rad_range : list float)
    (desc : option (list Z)) (sets : list (list bool)) (colors : colormap)
    (out : option (list Z)) :
  create_sets img sets_rad_range desc = Ok (sets, colors, out) ->
  (length sets_rad_range <= 20)%nat /\
  sets = map (fun idx =>
                assign_where (map (in_range sets_rad_range idx) (r img))
                             (nan_or_nodata img) false)
             (seq 0 (length sets_rad_range)).
Proof.
  unfold create_sets. intros H.
  inv_bind H as c Hc. inv_bind H as ov Hov. injection H as <- <- <-.
  split.
  - unfold getColor in Hc.
    destruct (Nat.ltb 20 (length sets_rad_range)) eqn:E; [discriminate|].
    apply Nat.ltb_ge in E. exact E.
  - rewrite map_map. apply map_ext. intros idx.
    rewrite range_grid_in_range. reflexivity.
Qed.

Lemma getColor_Ok (n : nat) :
  (n <= 20)%nat -> exists c, getColor n = Ok c.
Proof.
  intros H. unfold getColor.
  destruct (Nat.ltb 20 n) eqn:E; [apply Nat.ltb_lt in E; lia|].
  destruct (Nat.ltb n 11) eqn:E1; [eauto|].
  apply Nat.ltb_ge in E1.
  assert (E2 : Nat.ltb 10 n = true) by (apply Nat.ltb_lt; lia).
  assert (E3 : Nat.ltb n 21 = true) by (apply Nat.ltb_lt; lia).
  rewrite E2, E3. simpl. eauto.
Qed.

Lemma create_sets_returns (img : A3DGeoRaster) (sets_rad_range : list float)
    (desc : option (list Z)) :
  (length sets_rad_range <= 20)%nat ->
  match desc with Some nd => (4 <= length nd)%nat | None => True end ->
  exists sets colors out,
    create_sets img sets_rad_range desc = Ok (sets, colors, out).
Proof.
  intros Hn Hd. unfold create_sets.
  destruct (getColor_Ok _ Hn) as [c ->]. cbn [Py.bind].
  destruct desc as [nd|]; cbn [Py.bind]; [|eauto].
  assert (Hlt : (3 < length nd)%nat) by lia.
  apply lookup_lt_is_Some_2 in Hlt as [x Hx].
  apply getitem_Ok in Hx. rewrite Hx. cbn [Py.bind]. eauto.
Qed.

(** The value of a class grid at a pixel. *)
Lemma class_grid_lookup (img : A3DGeoRaster) (sets_rad_range : list float)
    (idx p : nat) (v : float) :
  r img !! p = Some v ->
  assign_where (map (in_range sets_rad_range idx) (r img))
               (nan_or_nodata img) false !! p
    = Some (if isnan v || eqb v (nodata img) then false
            else in_range sets_rad_range idx v).
Proof.
  intros Hv. apply assign_where_lookup.
  - rewrite list_lookup_fmap, Hv. reflexivity.
  - unfold nan_or_nodata. rewrite list_lookup_fmap, Hv. reflexivity.
Qed.

(** *** Counting the classes of a sample *)

Lemma filter_map_length {A B : Type} (f : B -> bool) (g : A -> B) (l : list A) :
  length (List.filter f (map g l)) = length (List.filter (fun a => f (g a)) l).
Proof.
  induction l as [|a l IH]; simpl; [reflexivity|].
  destruct (f (g a)); simpl; rewrite IH; reflexivity.
Qed.

Lemma filter_ext_length {A : Type} (f g : A -> bool) (l : list A) :
  (forall a, In a l -> f a = g a) ->
  length (List.filter f l) = length (List.filter g l).
Proof.
  induction l as [|a l IH]; simpl; intros H; [reflexivity|].
  rewrite (H a) by auto. destruct (g a); simpl; rewrite IH; auto.
Qed.

Lemma filter_false_length {A : Type} (l : list A) :
  length (List.filter (fun _ => false) l) = 0%nat.
Proof. induction l; simpl; auto. Qed.

Lemma filter_one {A : Type} (f : A -> bool) (l : list A) (j : nat) (b : A) :
  l !! j = Some b -> f b = true -> (1 <= length (List.filter f l))%nat.
Proof.
  revert j. induction l as [|x l IH]; intros [|j]; simpl; try discriminate.
  - intros [= ->] ->. simpl. lia.
  - intros Hb Hf. specialize (IH _ Hb Hf). destruct (f x); simpl; lia.
Qed.

Lemma filter_two {A : Type} (f : A -> bool) (l : list A) (i j : nat) (a b : A) :
  (i < j)%nat -> l !! i = Some a -> l !! j = Some b ->
  f a = true -> f b = true -> (2 <= length (List.filter f l))%nat.
Proof.
  revert i j. induction l as [|x l IH]; intros [|i] [|j] Hij; simpl;
    try discriminate; try lia.
  - intros [= ->] Hb -> Hfb. simpl.
    pose proof (filter_one f l j b Hb Hfb). lia.
  - intros Ha Hb Hfa Hfb.
    assert (Hij' : (i < j)%nat) by lia.
    specialize (IH i j Hij' Ha Hb Hfa Hfb). destruct (f x); simpl; lia.
Qed.

Lemma filter_cons_length {A : Type} (f : A -> bool) (x : A) (l : list A) :
  length (List.filter f (x :: l))
    = ((if f x then 1 else 0) + length (List.filter f l))%nat.
Proof. simpl. destruct (f x); reflexivity. Qed.

Lemma increasing_tail (b : float) (rest : list float) :
  increasing (b :: rest) -> increasing rest.
Proof.
  intros H i x y Hx Hy. apply (H (S i) x y); assumption.
Qed.

Lemma in_range_shift (b : float) (rest : list float) (i : nat) (v : float) :
  (i < length rest)%nat ->
  in_range (b :: rest) (S i) v = in_range rest i v.
Proof.
  intros Hi. unfold in_range.
  destruct rest as [|b' rest']; [simpl in Hi; lia|].
  replace (length (b :: b' :: rest') - 1)%nat with (S (length rest'))
    by (simpl; lia).
  replace (length (b' :: rest') - 1)%nat with (length rest') by (simpl; lia).
  reflexivity.
Qed.

(** Above the first of increasing boundaries a sample passes the test of
    one range, below it the test of none. *)
Lemma count_in_range (sets_rad_range : list float) (v : float) :
  isnan v = false -> increasing sets_rad_range ->
  length (List.filter (fun i => in_range sets_rad_range i v)
                      (seq 0 (length sets_rad_range)))
    = if leb (nth 0 sets_rad_range nan) v then 1%nat else 0%nat.
Proof.
  intros Nv. induction sets_rad_range as [|b rest IH]; intros Hinc.
  - reflexivity.
  - cbn [length seq]. rewrite <- seq_shift.
    rewrite filter_cons_length, filter_map_length.
    rewrite (filter_ext_length _ (fun i => in_range rest i v)).
    2:{ intros i Hi. apply in_seq in Hi. apply in_range_shift. lia. }
    rewrite (IH (increasing_tail _ _ Hinc)).
    unfold in_range at 1.
    destruct rest as [|b' rest'].
    + simpl. destruct (leb b v); reflexivity.
    + replace (length (b :: b' :: rest') - 1)%nat with (S (length rest'))
        by (simpl; lia).
      cbn [Nat.eqb nth].
      assert (Hlt : ltb b b' = true) by (apply (Hinc 0%nat); reflexivity).
      destruct (leb b v) eqn:E1; cbn [andb].
      * destruct (ltb v b') eqn:E2.
        -- rewrite (ltb_not_leb _ _ E2). reflexivity.
        -- rewrite (not_ltb_leb v b' Nv (proj2 (ltb_not_nan _ _ Hlt)) E2).
           reflexivity.
      * destruct (leb b' v) eqn:E3; [|reflexivity].
        rewrite (ltb_leb_trans _ _ _ Hlt E3) in E1. discriminate.
Qed.

(** C6. When [create_sets] returns, a sample that is neither NaN nor the
    nodata value (so every finite sample other than nodata) belongs to the
    class of a boundary that has a next one exactly when it is at least
    that boundary and strictly below the next, and to the class of the
    last boundary exactly when it is at least that boundary. With the
    boundaries 0, 10 and 25, a sample of 10 is in the second class only
    and a sample of 25 in the third only. *)
Theorem class_membership_half_open :
  (forall (img : A3DGeoRaster) (sets_rad_range : list float)
          (desc : option (list Z)) (sets : list (list bool))
          (colors : colormap) (out : option (list Z)),
      create_sets img sets_rad_range desc = Ok (sets, colors, out) ->
      forall (i : nat) (lo : float) (p : nat) (v : float),
        sets_rad_range !! i = Some lo -> r img !! p = Some v ->
        isnan v = false -> neb v (nodata img) = true ->
        exists set : list bool,
          sets !! i = Some set /\
          set !! p = Some (match sets_rad_range !! S i with
                           | Some hi => leb lo v && ltb v hi
                           | None => leb lo v
                           end))
  /\
  create_sets support_on_boundaries boundaries None
    = Ok ([[false; false]; [true; false]; [false; true]], tab10, None).
Proof.
  split; [|vm_compute; reflexivity].
  intros img sets_rad_range desc sets colors out H i lo p v Hlo Hv Nv Hnd.
  apply create_sets_inv in H as [_ ->].
  assert (Hi : (i < length sets_rad_range)%nat) by (eapply lookup_lt_Some; eauto).
  eexists. split.
  - rewrite list_lookup_fmap, lookup_seq_lt by exact Hi. reflexivity.
  - cbn [Nat.add]. rewrite (class_grid_lookup _ _ _ _ _ Hv).
    unfold neb in Hnd. apply negb_true_iff in Hnd. rewrite Nv, Hnd.
    cbn [orb]. f_equal. unfold in_range.
    rewrite (nth_lookup_Some _ _ _ _ Hlo).
    destruct (sets_rad_range !! S i) as [hi|] eqn:E.
    + assert (Hs : (S i < length sets_rad_range)%nat) by (eapply lookup_lt_Some; eauto).
      assert (En : Nat.eqb i (length sets_rad_range - 1) = false)
        by (apply Nat.eqb_neq; lia).
      rewrite En, (nth_lookup_Some _ _ _ _ E). reflexivity.
    + apply lookup_ge_None in E.
      assert (En : Nat.eqb i (length sets_rad_range - 1) = true)
        by (apply Nat.eqb_eq; lia).
      rewrite En. reflexivity.
Qed.

Lemma class_membership_half_open_witness :
  create_sets support_on_boundaries boundaries None
    = Ok ([[false; false]; [true; false]; [false; true]], tab10, None) /\
  exists set : list bool,
    [[false; false]; [true; false]; [false; true]] !! 1%nat = Some set /\
    set !! 0%nat = Some (match boundaries !! 2%nat with
                         | Some hi => leb (of_Z 10) (of_Z 10)
                                      && ltb (of_Z 10) hi
                         | None => leb (of_Z 10) (of_Z 10)
                         end).
Proof.
  assert (H : create_sets support_on_boundaries boundaries None
              = Ok ([[false; false]; [true; false]; [false; true]],
                    tab10, None)) by (vm_compute; reflexivity).
  split; [exact H|].
  apply (proj1 class_membership_half_open _ _ _ _ _ _ H
           1%nat (of_Z 10) 0%nat (of_Z 10)); vm_compute; reflexivity.
Defined.

(** C2, amended. For at most 20 boundaries that increase strictly,
    [create_sets] returns one class grid per boundary, each of the shape of
    the support; two different grids never hold at the same pixel; and a
    pixel whose support sample is neither NaN nor the nodata value is in
    exactly one class when the sample is at least the first boundary, and
    in none when it is below it. *)
Theorem class_grids_partition_above_first_boundary
    (img : A3DGeoRaster) (sets_rad_range : list float) (desc : option (list Z)) :
  (length sets_rad_range <= 20)%nat ->
  increasing sets_rad_range ->
  match desc with Some nd => (4 <= length nd)%nat | None => True end ->
  exists (sets : list (list bool)) (colors : colormap) (out : option (list Z)),
    create_sets img sets_rad_range desc = Ok (sets, colors, out) /\
    length sets = length sets_rad_range /\
    (forall (i : nat) (set : list bool),
        sets !! i = Some set -> length set = length (r img)) /\
    (forall (i j p : nat) (si sj : list bool),
        i <> j -> sets !! i = Some si -> sets !! j = Some sj ->
        ~ (si !! p = Some true /\ sj !! p = Some true)) /\
    (forall (p : nat) (v : float), r img !! p = Some v ->
        classes_at sets p
          = if negb (isnan v) && neb v (nodata img)
               && leb (nth 0 sets_rad_range nan) v
            then 1%nat else 0%nat).
Proof.
  intros Hn Hinc Hd.
  destruct (create_sets_returns img sets_rad_range desc Hn Hd)
    as (sets & colors & out & H).
  exists sets, colors, out. split; [exact H|].
  apply create_sets_inv in H as [_ ->].
  set (mk := fun idx => assign_where (map (in_range sets_rad_range idx) (r img))
                                     (nan_or_nodata img) false).
  assert (Hcount : forall (p : nat) (v : float), r img !! p = Some v ->
            classes_at (map mk (seq 0 (length sets_rad_range))) p
            = if negb (isnan v) && neb v (nodata img)
                 && leb (nth 0 sets_rad_range nan) v
              then 1%nat else 0%nat).
  { intros p v Hv. unfold classes_at. rewrite filter_map_length.
    destruct (isnan v || eqb v (nodata img)) eqn:Eabs.
    - rewrite (filter_ext_length _ (fun _ => false)).
      2:{ intros idx _. unfold mk.
          apply nth_lookup_Some with (d := false).
          rewrite (class_grid_lookup _ _ _ _ _ Hv), Eabs. reflexivity. }
      rewrite filter_false_length.
      unfold neb. destruct (isnan v); [reflexivity|].
      simpl in Eabs. rewrite Eabs. reflexivity.
    - apply orb_false_iff in Eabs as [Nv Ev].
      rewrite (filter_ext_length _ (fun idx => in_range sets_rad_range idx v)).
      2:{ intros idx _. unfold mk.
          apply nth_lookup_Some with (d := false).
          rewrite (class_grid_lookup _ _ _ _ _ Hv), Nv, Ev. reflexivity. }
      rewrite (count_in_range _ _ Nv Hinc).
      unfold neb. rewrite Nv, Ev. reflexivity. }
  split; [rewrite length_map, length_seq; reflexivity|].
  split.
  { intros i set Hset. apply list_lookup_fmap_Some in Hset as (idx & -> & _).
    unfold mk. rewrite assign_where_length, length_map. reflexivity. }
  split; [|exact Hcount].
  intros i j p si sj Hij Hsi Hsj [Hpi Hpj].
  assert (Hp : (p < length (r img))%nat).
  { apply list_lookup_fmap_Some in Hsi as (idx & -> & _).
    apply lookup_lt_Some in Hpi.
    unfold mk in Hpi. rewrite assign_where_length, length_map in Hpi. exact Hpi. }
  apply lookup_lt_is_Some_2 in Hp as [v Hv].
  specialize (Hcount p v Hv). unfold classes_at in Hcount.
  assert (H2 : (2 <= length (List.filter (fun set => nth p set false)
                               (map mk (seq 0 (length sets_rad_range)))))%nat).
  { destruct (Nat.lt_total i j) as [L|[L|L]]; [|contradiction|].
    - eapply (filter_two _ _ i j si sj L Hsi Hsj);
        eapply nth_lookup_Some; eauto.
    - eapply (filter_two _ _ j i sj si L Hsj Hsi);
        eapply nth_lookup_Some; eauto. }
  rewrite Hcount in H2.
  destruct (negb (isnan v) && neb v (nodata img) && leb (nth 0 sets_rad_range nan) v);
    lia.
Qed.

Lemma boundaries_increasing : increasing boundaries.
Proof.
  intros [|[|[|i]]] a b Ha Hb; try discriminate;
    injection Ha as <-; injection Hb as <-; vm_compute; reflexivity.
Qed.

Lemma class_grids_partition_above_first_boundary_witness :
  (length boundaries <= 20)%nat /\ increasing boundaries /\
  exists (sets : list (list bool)) (colors : colormap) (out : option (list Z)),
    create_sets support_mixed boundaries None = Ok (sets, colors, out) /\
    length sets = length boundaries /\
    (forall (i : nat) (set : list bool),
        sets !! i = Some set -> length set = length (r support_mixed)) /\
    (forall (i j p : nat) (si sj : list bool),
        i <> j -> sets !! i = Some si -> sets !! j = Some sj ->
        ~ (si !! p = Some true /\ sj !! p = Some true)) /\
    (forall (p : nat) (v : float), r support_mixed !! p = Some v ->
        classes_at sets p
          = if negb (isnan v) && neb v (nodata support_mixed)
               && leb (nth 0 boundaries nan) v
            then 1%nat else 0%nat).
Proof.
  assert (Hn : (length boundaries <= 20)%nat) by (vm_compute; lia).
  split; [exact Hn|]. split; [exact boundaries_increasing|].
  exact (class_grids_partition_above_first_boundary support_mixed boundaries
           None Hn boundaries_increasing I).
Defined.

(** C2, as the claim words it, fails: a finite sample below the first
    boundary, other than the nodata value, is in no class; and with more
    than 20 boundaries [create_sets] raises instead of returning grids. *)
Lemma sample_below_first_boundary_in_no_class :
  create_sets support_below boundaries None
    = Ok ([[false]; [false]; [false]], tab10, None) /\
  r support_below !! 0%nat = Some (of_Z (-5)) /\
  isfinite (of_Z (-5)) = true /\
  neb (of_Z (-5)) (nodata support_below) = true /\
  classes_at [[false]; [false]; [false]] 0 = 0%nat /\
  create_sets support_below (floats (map Z.of_nat (seq 0 21))) None
    = Raise NameError.
Proof.
  repeat split; vm_compute; reflexivity.
Qed.

End ClassProps.

(** ** Statistics *)

Module StatsProps.

Import F64 Stats Terms Samples ListFacts F64Facts.

Lemma traverse_returns {A B : Type} (f : A -> result B) (l : list A) :
  (forall a, In a l -> exists b, f a = Ok b) -> exists bs, traverse f l = Ok bs.
Proof.
  induction l as [|a l IH]; simpl; intros H; [eauto|].
  destruct (H a) as [b ->]; [auto|]. simpl.
  destruct IH as [bs ->]; [auto|]. simpl. eauto.
Qed.

Lemma Forall2_Forall_r {A B : Type} (R : A -> B -> Prop) (P : B -> Prop)
    (l : list A) (k : list B) :
  Forall2 R l k -> (forall a b, R a b -> P b) -> Forall P k.
Proof.
  induction 1; intros H'; constructor; eauto.
Qed.

(** [stats_computation] never raises, and counts the samples. *)
Lemma stats_computation_returns (array : list float) :
  exists st, stats_computation array = Ok st /\ nbpts st = Np.size array.
Proof.
  unfold stats_computation.
  destruct array as [|x array]; [simpl; eauto|].
  replace (Np.size (x :: array) =? 0) with false
    by (symmetry; apply Z.eqb_neq; unfold Np.size; simpl; lia).
  cbn [negb Np.max Np.min Py.bind]. eauto.
Qed.

Lemma stats_computation_count (array : list float) (st : Stats) :
  stats_computation array = Ok st -> nbpts st = Np.size array.
Proof.
  intros H. destruct (stats_computation_returns array) as (st' & H' & E).
  congruence.
Qed.

(** The record of an empty population. *)
Lemma stats_computation_empty (array : list float) (st : Stats) :
  stats_computation array = Ok st -> nbpts st = 0 ->
  st = {| nbpts := 0; max := nan; min := nan; mean := nan; std := nan;
          rmse := nan; median := nan; nmad := nan; sum_err := nan;
          sum_err_err := nan |}.
Proof.
  intros H H0. rewrite (stats_computation_count _ _ H) in H0.
  unfold stats_computation in H. rewrite H0 in H. simpl in H.
  injection H as <-. reflexivity.
Qed.

Lemma percent_of_empty (total : Z) (pc : float) :
  0 <= total -> percent_of 0 total = Ok pc -> pc = zero.
Proof.
  unfold percent_of. intros Ht H.
  destruct (total =? 0) eqn:E; [discriminate|].
  apply Z.eqb_neq in E. injection H as <-.
  change (mul (of_Z 100) (of_Z 0)) with (S754_zero false).
  destruct (of_Z_pos total) as [(m & e & ->)| ->]; [lia| |]; reflexivity.
Qed.

(** Every record [get_stats] returns holds the statistics of some selection
    and its share of the whole array. *)
Lemma get_stats_records (dz_values : list float)
    (to_keep_mask no_outliers_mask : option (list bool))
    (sets : option (list (list bool)))
    (sets_labels sets_names : option (list string)) (recs : list StatsRecord) :
  get_stats dz_values to_keep_mask no_outliers_mask sets sets_labels sets_names
    = Ok recs ->
  Forall (fun rec => exists data,
            stats_computation data = Ok (stats rec) /\
            percent_of (nbpts (stats rec)) (Np.size dz_values)
              = Ok (percent rec)) recs.
Proof.
  unfold get_stats. intros H.
  inv_bind H as kept Hkept. inv_bind H as data Hdata. inv_bind H as st Hst.
  inv_bind H as pc Hpc. inv_bind H as data90 Hdata90.
  assert (Hall : exists data0,
             stats_computation data0 = Ok st /\
             percent_of (nbpts st) (Np.size dz_values) = Ok pc) by eauto.
  destruct sets as [sets|]; [|injection H as <-; repeat constructor; exact Hall].
  destruct sets_labels as [labels|];
    [|injection H as <-; repeat constructor; exact Hall].
  destruct sets_names as [names|];
    [|injection H as <-; repeat constructor; exact Hall].
  inv_bind H as per_set Hper. injection H as <-.
  constructor; [exact Hall|].
  apply traverse_Ok in Hper.
  eapply Forall2_Forall_r; [exact Hper|].
  intros idx rec Hrec. simpl in Hrec.
  inv_bind Hrec as s Hs. inv_bind Hrec as sk Hsk. inv_bind Hrec as set Hset.
  inv_bind Hrec as d Hd. inv_bind Hrec as st' Hst'.
  inv_bind Hrec as label Hlabel. inv_bind Hrec as name Hname.
  inv_bind Hrec as pc' Hpc'. inv_bind Hrec as d90 Hd90.
  injection Hrec as <-. simpl. eauto.
Qed.

Lemma mul_bool_length (a b c : list bool) :
  Np.mul_bool a b = Ok c -> length c = length a.
Proof.
  intros H. apply mul_bool_Ok in H as [E ->].
  rewrite length_zip_with. lia.
Qed.

Lemma ones_length (n : nat) : length (Np.ones n) = n.
Proof. apply repeat_length. Qed.

(** [get_stats] returns when its inputs fit and there is at least one
    pixel. *)
Lemma get_stats_returns (dz_values : list float)
    (to_keep_mask no_outliers_mask : option (list bool))
    (sets : option (list (list bool)))
    (sets_labels sets_names : option (list string)) :
  dz_values <> [] ->
  same_shape dz_values to_keep_mask ->
  same_shape dz_values no_outliers_mask ->
  classes_fit dz_values sets sets_labels sets_names ->
  exists recs,
    get_stats dz_values to_keep_mask no_outliers_mask sets sets_labels
              sets_names = Ok recs.
Proof.
  intros Hne Hk Ho Hc. unfold get_stats.
  set (keep := default (Np.ones (length dz_values)) to_keep_mask).
  set (no_out := default (Np.ones (length dz_values)) no_outliers_mask).
  assert (Lk : length keep = length dz_values).
  { unfold keep. destruct to_keep_mask; simpl; [exact Hk | apply ones_length]. }
  assert (Lo : length no_out = length dz_values).
  { unfold no_out. destruct no_outliers_mask; simpl; [exact Ho | apply ones_length]. }
  assert (Hpc : forall n, exists pc, percent_of n (Np.size dz_values) = Ok pc).
  { intros n. unfold percent_of.
    replace (Np.size dz_values =? 0) with false; [eauto|].
    symmetry. apply Z.eqb_neq. unfold Np.size.
    destruct dz_values; [congruence | simpl; lia]. }
  rewrite mul_bool_same_shape by lia. cbn [Py.bind].
  rewrite select_masked by (rewrite length_zip_with; lia). cbn [Py.bind].
  destruct (stats_computation_returns
              (Np.masked dz_values (zip_with andb keep no_out)))
    as (st & -> & _). cbn [Py.bind].
  destruct (Hpc (nbpts st)) as [pc ->]. cbn [Py.bind].
  rewrite select_masked by lia. cbn [Py.bind].
  destruct sets as [sets|]; [|eauto].
  destruct sets_labels as [labels|]; [|eauto].
  destruct sets_names as [names|]; [|eauto].
  destruct Hc as (Hshape & Hl & Hn).
  match goal with
  | |- context [traverse ?f ?l] => destruct (traverse_returns f l) as [per ->]
  end; [|cbn [Py.bind]; eauto].
  intros idx Hidx. apply in_seq in Hidx.
  assert (Hs : exists s, sets !! idx = Some s)
    by (apply lookup_lt_is_Some_2; lia).
  destruct Hs as [s Hs].
  assert (Ls : length s = length dz_values).
  { rewrite Forall_forall in Hshape. apply Hshape.
    eapply list_elem_of_lookup_2; eauto. }
  rewrite (proj2 (getitem_Ok _ _ _) Hs). cbn [Py.bind].
  rewrite mul_bool_same_shape by lia. cbn [Py.bind].
  rewrite mul_bool_same_shape by (rewrite length_zip_with; lia). cbn [Py.bind].
  rewrite select_masked by (rewrite !length_zip_with; lia). cbn [Py.bind].
  match goal with
  | |- context [stats_computation ?d] =>
      destruct (stats_computation_returns d) as (st' & -> & _)
  end. cbn [Py.bind].
  assert (Hlab : exists x, labels !! idx = Some x)
    by (apply lookup_lt_is_Some_2; lia).
  destruct Hlab as [label Hlab].
  rewrite (proj2 (getitem_Ok _ _ _) Hlab). cbn [Py.bind].
  assert (Hnam : exists x, names !! idx = Some x)
    by (apply lookup_lt_is_Some_2; lia).
  destruct Hnam as [name Hnam].
  rewrite (proj2 (getitem_Ok _ _ _) Hnam). cbn [Py.bind].
  destruct (Hpc (nbpts st')) as [pc' ->]. cbn [Py.bind].
  rewrite select_masked by (rewrite length_zip_with; lia). cbn [Py.bind].
  eauto.
Qed.

(** C3, amended. On a difference raster with at least one pixel, with
    masks and class grids of its shape and a label and a name for every
    class, [get_stats] does not raise, and every record it returns whose
    count is 0 has percent 0 and NaN for max, min, mean, std, rmse, median,
    nmad, sum and sum of squares. *)
Theorem empty_population_record
    (dz_values : list float)
    (to_keep_mask no_outliers_mask : option (list bool))
    (sets : option (list (list bool)))
    (sets_labels sets_names : option (list string)) :
  dz_values <> [] ->
  same_shape dz_values to_keep_mask ->
  same_shape dz_values no_outliers_mask ->
  classes_fit dz_values sets sets_labels sets_names ->
  exists recs : list StatsRecord,
    get_stats dz_values to_keep_mask no_outliers_mask sets sets_labels
              sets_names = Ok recs /\
    forall rec : StatsRecord, In rec recs -> nbpts (stats rec) = 0 ->
      percent rec = zero /\
      stats rec = {| nbpts := 0; max := nan; min := nan; mean := nan;
                     std := nan; rmse := nan; median := nan; nmad := nan;
                     sum_err := nan; sum_err_err := nan |}.
Proof.
  intros Hne Hk Ho Hc.
  destruct (get_stats_returns _ _ _ _ _ _ Hne Hk Ho Hc) as [recs H].
  exists recs. split; [exact H|].
  intros rec Hin H0.
  apply get_stats_records in H. rewrite Forall_forall in H.
  destruct (H rec) as (data & Hst & Hpc).
  { apply list_elem_of_In. exact Hin. }
  split.
  - rewrite H0 in Hpc. eapply percent_of_empty; [|exact Hpc].
    unfold Np.size. lia.
  - eapply stats_computation_empty; eauto.
Qed.

Lemma empty_population_record_witness :
  dz_two <> [] /\
  same_shape dz_two (Some keep_none) /\
  same_shape dz_two None /\
  classes_fit dz_two (Some one_class) (Some ["class"%string])
              (Some ["name"%string]) /\
  exists recs : list StatsRecord,
    get_stats dz_two (Some keep_none) None (Some one_class)
              (Some ["class"%string]) (Some ["name"%string]) = Ok recs /\
    forall rec : StatsRecord, In rec recs -> nbpts (stats rec) = 0 ->
      percent rec = zero /\
      stats rec = {| nbpts := 0; max := nan; min := nan; mean := nan;
                     std := nan; rmse := nan; median := nan; nmad := nan;
                     sum_err := nan; sum_err_err := nan |}.
Proof.
  assert (H1 : dz_two <> []) by discriminate.
  assert (H2 : same_shape dz_two (Some keep_none)) by reflexivity.
  assert (H3 : same_shape dz_two None) by exact I.
  assert (H4 : classes_fit dz_two (Some one_class) (Some ["class"%string])
                 (Some ["name"%string])).
  { split; [|split; simpl; lia]. repeat constructor. }
  repeat (split; [assumption|]).
  exact (empty_population_record dz_two (Some keep_none) None (Some one_class)
           (Some ["class"%string]) (Some ["name"%string]) H1 H2 H3 H4).
Defined.

(** C3, as the claim words it, fails on a raster without pixels: the
    population is empty and the percentage is a division by zero. *)
Lemma empty_raster_raises :
  stats_computation []
    = Ok {| nbpts := 0; max := nan; min := nan; mean := nan; std := nan;
            rmse := nan; median := nan; nmad := nan; sum_err := nan;
            sum_err_err := nan |} /\
  get_stats [] None None None None None = Raise ZeroDivisionError.
Proof.
  split; vm_compute; reflexivity.
Qed.

(** *** The median of finite samples *)

Lemma insert_sorted_length (x : float) (l : list float) :
  length (Np.insert_sorted x l) = S (length l).
Proof.
  induction l as [|y l IH]; simpl; [reflexivity|].
  destruct (leb x y); simpl; [reflexivity | rewrite IH; reflexivity].
Qed.

Lemma sort_length (a : list float) : length (Np.sort a) = length a.
Proof.
  induction a as [|x a IH]; simpl; [reflexivity|].
  rewrite insert_sorted_length, IH. reflexivity.
Qed.

Lemma insert_sorted_Forall (P : float -> Prop) (x : float) (l : list float) :
  P x -> Forall P l -> Forall P (Np.insert_sorted x l).
Proof.
  intros Hx. induction 1 as [|y l Hy Hl IH]; simpl; [repeat constructor; auto|].
  destruct (leb x y); repeat constructor; auto.
Qed.

Lemma sort_Forall (P : float -> Prop) (a : list float) :
  Forall P a -> Forall P (Np.sort a).
Proof.
  induction 1 as [|x a Hx Ha IH]; simpl; [constructor|].
  apply insert_sorted_Forall; assumption.
Qed.

Lemma sum_from_not_nan (l : list float) :
  Forall (fun v => isfinite v = true) l ->
  forall acc, isnan acc = false -> isnan (fold_left add l acc) = false.
Proof.
  induction 1 as [|x l Hx Hl IH]; intros acc Hacc; simpl; [exact Hacc|].
  apply IH. apply add_not_nan; assumption.
Qed.

Lemma pairwise_sum_few (fuel : nat) (a : list float) :
  (length a < 8)%nat -> Np.pairwise_sum fuel a = fold_left add a zero.
Proof.
  intros H. apply Nat.ltb_lt in H. destruct fuel; simpl; rewrite H; reflexivity.
Qed.

Lemma pairwise_sum_S (fuel : nat) (a : list float) :
  Np.pairwise_sum (S fuel) a
  = if Nat.ltb (length a) 8 then fold_left add a zero
    else if Nat.leb (length a) 128 then Np.block_sum a
    else
      add (Np.pairwise_sum fuel
             (firstn (Nat.div (length a) 2
                      - Nat.modulo (Nat.div (length a) 2) 8) a))
          (Np.pairwise_sum fuel
             (skipn (Nat.div (length a) 2
                     - Nat.modulo (Nat.div (length a) 2) 8) a)).
Proof. reflexivity. Qed.

(** The fuel does not matter once it reaches the length of the array. *)
Lemma pairwise_sum_fuel (fuel : nat) :
  forall (fuel' : nat) (a : list float),
    (length a <= fuel)%nat -> (length a <= fuel')%nat ->
    Np.pairwise_sum fuel a = Np.pairwise_sum fuel' a.
Proof.
  induction fuel as [|fuel IH]; intros fuel' a H H'.
  - destruct a; [|simpl in H; lia]. destruct fuel'; reflexivity.
  - destruct fuel' as [|fuel'].
    + destruct a; [|simpl in H'; lia]. reflexivity.
    + rewrite !pairwise_sum_S.
      destruct (Nat.ltb (length a) 8) eqn:E8; [reflexivity|].
      destruct (Nat.leb (length a) 128) eqn:E128; [reflexivity|].
      apply Nat.leb_gt in E128.
      pose proof (Nat.div_mod_eq (length a) 2) as Hdiv.
      pose proof (Nat.mod_upper_bound (length a) 2 ltac:(lia)) as Hmod.
      pose proof (Nat.mod_upper_bound (Nat.div (length a) 2) 8 ltac:(lia))
        as Hmod8.
      f_equal; apply IH; rewrite ?length_firstn, ?length_skipn; lia.
Qed.

Lemma add_zero_not_nan (x : float) :
  isnan x = false -> isnan (add zero x) = false.
Proof. destruct x as [[|]|[|]| |]; intros H; try discriminate; reflexivity. Qed.

(** The mean of one or two finite samples is a number. *)
Lemma mean_few_not_nan (l : list float) :
  Forall (fun v => isfinite v = true) l ->
  length l = 1%nat \/ length l = 2%nat ->
  isnan (Np.mean l) = false.
Proof.
  intros Hl Hn. unfold Np.mean.
  assert (Hs : isnan (Np.sum l) = false).
  { unfold Np.sum. rewrite pairwise_sum_few by lia.
    apply add_zero_not_nan.
    apply sum_from_not_nan; [exact Hl | reflexivity]. }
  unfold Np.size. destruct Hn as [-> | ->].
  - change (of_Z (Z.of_nat 1)) with (S754_finite false 4503599627370496 (-52)).
    apply div_not_nan, Hs.
  - change (of_Z (Z.of_nat 2)) with (S754_finite false 4503599627370496 (-51)).
    apply div_not_nan, Hs.
Qed.

Lemma median_not_nan (a : list float) :
  a <> [] -> Forall (fun v => isfinite v = true) a ->
  isnan (Np.median a) = false.
Proof.
  intros Hne Hfin. unfold Np.median.
  assert (Hex : existsb isnan a = false).
  { clear Hne. induction Hfin as [|x a Hx Ha IH]; simpl; [reflexivity|].
    rewrite (isfinite_not_nan _ Hx), IH. reflexivity. }
  rewrite Hex.
  pose proof (sort_length a) as Hlen.
  pose proof (sort_Forall _ _ Hfin) as Hs.
  assert (Hpos : (0 < length (Np.sort a))%nat).
  { rewrite Hlen. destruct a; [congruence | simpl; lia]. }
  set (s := Np.sort a) in *. clearbody s.
  destruct (Nat.odd (length s)) eqn:Eo.
  - apply mean_few_not_nan.
    + apply Forall_take, Forall_drop, Hs.
    + left. rewrite length_take, length_drop.
      pose proof (Nat.div_lt (length s) 2 Hpos). lia.
  - apply mean_few_not_nan.
    + apply Forall_take, Forall_drop, Hs.
    + right. rewrite length_take, length_drop.
      assert (Hev : Nat.even (length s) = true).
      { rewrite <- Nat.negb_odd, Eo. reflexivity. }
      apply Nat.even_spec in Hev as [k Hk].
      rewrite Hk in *. replace (2 * k)%nat with (k * 2)%nat by lia.
      rewrite Nat.div_mul by lia. lia.
Qed.

Lemma remove_nan_id (a : list float) :
  Forall (fun v => isnan v = false) a -> Np.remove_nan a = a.
Proof.
  unfold Np.remove_nan.
  induction 1 as [|x a Hx Ha IH]; simpl; [reflexivity|].
  rewrite Hx, IH. reflexivity.
Qed.

(** On samples that are numbers, [np.nanmedian] is [np.median]. *)
Lemma nanmedian_median (a : list float) :
  a <> [] -> Forall (fun v => isnan v = false) a ->
  Np.nanmedian a = Np.median a.
Proof.
  intros Hne Ha. unfold Np.nanmedian. rewrite (remove_nan_id _ Ha).
  destruct a; [congruence | reflexivity].
Qed.

(** C5. On a non-empty array of finite samples [stats_computation] does
    not raise, its median is the median of the samples, and its nmad is
    1.4826 times the median of the absolute deviations from that median;
    for the samples 1, 2, 3, 4 and 100 the median is 3 and the nmad is
    1.4826. *)
Theorem nmad_is_scaled_median_absolute_deviation :
  (forall array : list float,
      array <> [] -> Forall (fun v => isfinite v = true) array ->
      exists st : Stats,
        stats_computation array = Ok st /\
        median st = Np.median array /\
        nmad st = Spec.nmad array)
  /\
  (exists st : Stats,
      stats_computation values_with_outlier = Ok st /\
      median st = of_Z 3 /\
      Np.median (map (fun v => abs (sub v (of_Z 3))) values_with_outlier)
        = of_Z 1 /\
      nmad st = dec 14826 4).
Proof.
  split.
  - intros array Hne Hfin.
    assert (Hnn : Forall (fun v => isnan v = false) array).
    { eapply Forall_impl; [exact Hfin|]. apply isfinite_not_nan. }
    pose proof (median_not_nan _ Hne Hfin) as Hmed.
    assert (Hdev : Forall (fun v => isnan v = false)
                     (map (fun v => abs (sub v (Np.median array))) array)).
    { apply Forall_fmap. eapply Forall_impl; [exact Hfin|].
      intros v Hv. simpl. apply abs_not_nan, sub_not_nan; assumption. }
    assert (Hdne : map (fun v => abs (sub v (Np.median array))) array <> []).
    { destruct array; [congruence | discriminate]. }
    unfold stats_computation.
    replace (Np.size array =? 0) with false.
    2:{ symmetry. apply Z.eqb_neq. unfold Np.size.
        destruct array; [congruence | simpl; lia]. }
    destruct array as [|x array]; [congruence|].
    cbn [negb Np.max Np.min Py.bind].
    eexists. split; [reflexivity|]. cbn [median nmad].
    rewrite (nanmedian_median _ Hne Hnn).
    split; [reflexivity|].
    rewrite (nanmedian_median _ Hdne Hdev). reflexivity.
  - eexists. split; [vm_compute; reflexivity|].
    repeat split; vm_compute; reflexivity.
Qed.

Lemma nmad_is_scaled_median_absolute_deviation_witness :
  values_with_outlier <> [] /\
  Forall (fun v => isfinite v = true) values_with_outlier /\
  exists st : Stats,
    stats_computation values_with_outlier = Ok st /\
    median st = Np.median values_with_outlier /\
    nmad st = Spec.nmad values_with_outlier.
Proof.
  assert (H1 : values_with_outlier <> []) by discriminate.
  assert (H2 : Forall (fun v => isfinite v = true) values_with_outlier).
  { repeat constructor. }
  split; [exact H1|]. split; [exact H2|].
  exact (proj1 nmad_is_scaled_median_absolute_deviation _ H1 H2).
Defined.

End StatsProps.

(** ** The baseline comparator *)

Module BaselineProps.

Import F64 Baseline CsvSpec Samples ListFacts F64Facts.



Section Row.

Variables (header_cols : list string) (file name : string).
Variables (f_ref f_test : list float) (epsilon : float).


End Row.


Lemma check_csv_one_row (header row_ref row_test file : string) (epsilon : float) :
  check_csv [header; row_ref] [header; row_test] file epsilon
    = (let* diffs := check_row header file epsilon row_ref row_test in
       Ok (diffs ++ [])).
Proof.
  unfold check_csv. cbn [getitem lookup list_lookup Py.bind].
  rewrite String.eqb_refl. cbn [negb tail zip zip_with traverse fst snd].
  destruct (check_row header file epsilon row_ref row_test); reflexivity.
Qed.









(** *** Files with different numbers of rows *)

Lemma zip_take_min {A B : Type} (a : list A) (b : list B) :
  zip (firstn (Nat.min (length a) (length b)) a)
      (firstn (Nat.min (length a) (length b)) b) = zip a b.
Proof.
  revert b. induction a as [|x a IH]; intros [|y b]; simpl; try reflexivity.
  f_equal. apply IH.
Qed.

Lemma zip_app_surplus_l {A B : Type} (a extra : list A) (b : list B) :
  length a = length b -> zip (a ++ extra) b = zip a b.
Proof.
  revert b. induction a as [|x a IH]; intros [|y b] H; simpl in *;
    try discriminate.
  - destruct extra; reflexivity.
  - f_equal. apply IH. lia.
Qed.

Lemma zip_app_surplus_r {A B : Type} (a : list A) (b extra : list B) :
  length a = length b -> zip a (b ++ extra) = zip a b.
Proof.
  revert b. induction a as [|x a IH]; intros [|y b] H; simpl in *;
    try discriminate.
  - reflexivity.
  - f_equal. apply IH. lia.
Qed.

(** C10. With one header, [check_csv] returns what it returns on the first
    [min n m] rows of both files: the surplus rows are not read. So a file
    that lacks trailing rows, on either side, passes whenever the common
    rows do; here the surplus row of the baseline is not even a row of
    numbers. *)
Theorem check_csv_ignores_surplus_rows :
  (forall (header : string) (rows_ref rows_test : list string)
          (file : string) (epsilon : float),
      let k := Nat.min (length rows_ref) (length rows_test) in
      check_csv (header :: rows_ref) (header :: rows_test) file epsilon
        = check_csv (header :: firstn k rows_ref) (header :: firstn k rows_test)
                    file epsilon)
  /\
  (forall (header : string) (common_ref common_test surplus : list string)
          (file : string) (epsilon : float),
      length common_ref = length common_test ->
      check_csv (header :: common_ref) (header :: common_test) file epsilon
        = Ok [] ->
      check_csv (header :: common_ref ++ surplus) (header :: common_test)
                file epsilon = Ok [] /\
      check_csv (header :: common_ref) (header :: common_test ++ surplus)
                file epsilon = Ok [])
  /\
  check_csv [header_line; baseline_row; surplus_row]
            [header_line; test_row_close] "stats.csv" (dec 1 15) = Ok [].
Proof.
  split; [|split].
  - intros header rows_ref rows_test file epsilon k. unfold check_csv.
    cbn [getitem lookup list_lookup Py.bind tail].
    unfold k. rewrite zip_take_min. reflexivity.
  - intros header common_ref common_test surplus file epsilon Hlen H.
    unfold check_csv in *.
    cbn [getitem lookup list_lookup Py.bind tail] in *.
    rewrite zip_app_surplus_l, zip_app_surplus_r by assumption.
    split; exact H.
  - vm_compute. reflexivity.
Qed.

Lemma check_csv_ignores_surplus_rows_witness :
  length [baseline_row] = length [test_row_close] /\
  check_csv (header_line :: [baseline_row]) (header_line :: [test_row_close])
            "stats.csv" (dec 1 15) = Ok [] /\
  check_csv (header_line :: [baseline_row] ++ [surplus_row])
            (header_line :: [test_row_close]) "stats.csv" (dec 1 15) = Ok [] /\
  check_csv (header_line :: [baseline_row])
            (header_line :: [test_row_close] ++ [surplus_row])
            "stats.csv" (dec 1 15) = Ok [].
Proof.
  assert (H1 : length [baseline_row] = length [test_row_close]) by reflexivity.
  assert (H2 : check_csv (header_line :: [baseline_row])
                 (header_line :: [test_row_close]) "stats.csv" (dec 1 15)
               = Ok []) by (vm_compute; reflexivity).
  split; [exact H1|]. split; [exact H2|].
  exact (proj1 (proj2 check_csv_ignores_surplus_rows) header_line
           [baseline_row] [test_row_close] [surplus_row] "stats.csv"%string
           (dec 1 15) H1 H2).
Defined.

End BaselineProps.

(** ** The objects the statistics loop is given *)

Module HeapProps.

Import F64 Stats Heap Samples.

Section Keeps.

Variable s0 : gmap loc obj.

Lemma keeps_ret {A : Type} (a : A) : keeps s0 (ret a).
Proof. intros s H. exact H. Qed.

Lemma keeps_raise {A : Type} (e : exn) : keeps s0 (@raise A e).
Proof. intros s H. exact H. Qed.

Lemma keeps_lift {A : Type} (x : result A) : keeps s0 (lift x).
Proof. intros s H. exact H. Qed.

Lemma keeps_bind {A B : Type} (m : M A) (k : A -> M B) :
  keeps s0 m -> (forall a, keeps s0 (k a)) -> keeps s0 (bindM m k).
Proof.
  intros Hm Hk s H. unfold bindM. specialize (Hm s H).
  destruct (m s) as [[a|e] s1]; simpl in *; [apply Hk, Hm | exact Hm].
Qed.

(** What follows an allocation runs with a location [s0] does not have. *)
Lemma keeps_alloc_bind {B : Type} (o : obj) (k : loc -> M B) :
  (forall l, s0 !! l = None -> keeps s0 (k l)) -> keeps s0 (bindM (alloc o) k).
Proof.
  intros Hk s H. unfold bindM, alloc.
  assert (Hfresh : s0 !! fresh (dom s) = None).
  { destruct (s0 !! fresh (dom s)) as [o'|] eqn:E; [|reflexivity].
    exfalso. apply (is_fresh (dom s)). apply elem_of_dom.
    exists o'. eapply lookup_weaken; eauto. }
  apply (Hk _ Hfresh). apply insert_subseteq_r; assumption.
Qed.

Lemma keeps_float_array (l : loc) : keeps s0 (float_array l).
Proof.
  intros s H. unfold float_array. destruct (s !! l) as [[a|a|a]|]; exact H.
Qed.

Lemma keeps_bool_array (l : loc) : keeps s0 (bool_array l).
Proof.
  intros s H. unfold bool_array. destruct (s !! l) as [[a|a|a]|]; exact H.
Qed.

Lemma keeps_py_list (l : loc) : keeps s0 (py_list l).
Proof.
  intros s H. unfold py_list. destruct (s !! l) as [[a|a|a]|]; exact H.
Qed.

(** Assigning into a list that is not an object of [s0]. *)
Lemma keeps_setitem (lst : loc) (i : nat) (v : loc) :
  s0 !! lst = None -> keeps s0 (setitem lst i v).
Proof.
  intros Hl s H. unfold setitem.
  destruct (s !! lst) as [[a|a|items]|]; try exact H.
  destruct (Nat.ltb i (length items)); [|exact H].
  simpl. apply insert_subseteq_r; assumption.
Qed.

Lemma keeps_for_each {A S : Type} (body : S -> A -> M S) (l : list A) :
  (forall st a, keeps s0 (body st a)) -> forall st, keeps s0 (for_each body l st).
Proof.
  intros Hb. induction l as [|a l IH]; intros st; simpl.
  - apply keeps_ret.
  - apply keeps_bind; [apply Hb | exact IH].
Qed.

Lemma keeps_traverseM {A B : Type} (f : A -> M B) (l : list A) :
  (forall a, keeps s0 (f a)) -> keeps s0 (traverseM f l).
Proof.
  intros Hf. induction l as [|a l IH]; simpl.
  - apply keeps_ret.
  - apply keeps_bind; [apply Hf|]. intros b.
    apply keeps_bind; [exact IH|]. intros bs. apply keeps_ret.
Qed.

Lemma keeps_lift_bind {A B : Type} (x : result A) (k : A -> M B) :
  (forall a, x = Ok a -> keeps s0 (k a)) -> keeps s0 (bindM (lift x) k).
Proof.
  intros Hk s H. unfold bindM, lift.
  destruct x as [a|e]; [apply (Hk a eq_refl), H | exact H].
Qed.

(** Updating in place an array that is not an object of [s0]. *)
Lemma keeps_update_bool (l : loc) (f : list bool -> result (list bool)) :
  s0 !! l = None -> keeps s0 (update_bool l f).
Proof.
  intros Hl s H. unfold update_bool.
  destruct (s !! l) as [[a|a|items]|]; try exact H.
  destruct (f a); [|exact H].
  simpl. apply insert_subseteq_r; assumption.
Qed.

Lemma traverseM_cons {A B : Type} (f : A -> M B) (a : A) (l : list A)
    (s : gmap loc obj) :
  traverseM f (a :: l) s
    = match f a s with
      | (Ok b, s1) =>
          match traverseM f l s1 with
          | (Ok bs, s2) => (Ok (b :: bs), s2)
          | (Raise e, s2) => (Raise e, s2)
          end
      | (Raise e, s1) => (Raise e, s1)
      end.
Proof.
  simpl. unfold bindM. destruct (f a s) as [[b|e] s1]; [|reflexivity].
  destruct (traverseM f l s1) as [[bs|e] s2]; reflexivity.
Qed.

(** The objects allocated in a row are all new for [s0]. *)
Lemma alloc_all_new {X : Type} (f : X -> obj) (xs : list X) :
  forall s : gmap loc obj, s0 ⊆ s ->
    s0 ⊆ snd (traverseM (fun x => alloc (f x)) xs s) /\
    forall locs, fst (traverseM (fun x => alloc (f x)) xs s) = Ok locs ->
                 Forall (fun l => s0 !! l = None) locs.
Proof.
  induction xs as [|x xs IH]; intros s H.
  - split; [exact H|]. intros locs [= <-]. constructor.
  - rewrite traverseM_cons.
    change (alloc (f x) s) with (Ok (fresh (dom s)), <[fresh (dom s) := f x]> s).
    cbv beta iota.
    assert (Hnew : s0 !! fresh (dom s) = None).
    { destruct (s0 !! fresh (dom s)) as [o'|] eqn:E; [|reflexivity].
      exfalso. apply (is_fresh (dom s)). apply elem_of_dom.
      exists o'. eapply lookup_weaken; eauto. }
    assert (H1 : s0 ⊆ <[fresh (dom s) := f x]> s)
      by (apply insert_subseteq_r; assumption).
    destruct (IH _ H1) as [Hsub Hlocs].
    destruct (traverseM (fun x => alloc (f x)) xs (<[fresh (dom s) := f x]> s))
      as [[bs|e] s2]; simpl in *.
    + split; [exact Hsub|]. intros locs [= <-].
      constructor; [exact Hnew | apply Hlocs; reflexivity].
    + split; [exact Hsub | discriminate].
Qed.

Lemma keeps_alloc_all_bind {X B : Type} (f : X -> obj) (xs : list X)
    (k : list loc -> M B) :
  (forall locs, Forall (fun l => s0 !! l = None) locs -> keeps s0 (k locs)) ->
  keeps s0 (bindM (traverseM (fun x => alloc (f x)) xs) k).
Proof.
  intros Hk s H. unfold bindM.
  destruct (alloc_all_new f xs s H) as [Hsub Hlocs].
  destruct (traverseM (fun x => alloc (f x)) xs s) as [[locs|e] s1];
    simpl in *; [|exact Hsub].
  apply Hk; [apply Hlocs; reflexivity | exact Hsub].
Qed.

Lemma keeps_bind_assoc {A B C : Type} (m : M A) (f : A -> M B) (g : B -> M C) :
  keeps s0 (bindM m (fun a => bindM (f a) g)) -> keeps s0 (bindM (bindM m f) g).
Proof.
  intros H s Hs. specialize (H s Hs). unfold bindM in *.
  destruct (m s) as [[a|e] s1]; exact H.
Qed.

Lemma keeps_ret_bind {A B : Type} (a : A) (k : A -> M B) :
  keeps s0 (k a) -> keeps s0 (bindM (ret a) k).
Proof. intros H s Hs. exact (H s Hs). Qed.

Lemma keeps_create_sets (img : raster_ref) (sets_rad_range : list float) :
  keeps s0 (create_sets img sets_rad_range).
Proof.
  unfold create_sets, range_grids.
  apply keeps_bind; [apply keeps_float_array|]. intros samples.
  apply keeps_bind; [apply keeps_lift|]. intros _.
  apply keeps_alloc_all_bind. intros grids Hnew.
  apply keeps_bind.
  - apply keeps_traverseM. intros idx.
    apply keeps_lift_bind. intros g Hg.
    apply keeps_update_bool.
    rewrite Forall_forall in Hnew. apply Hnew.
    apply ListFacts.getitem_Ok in Hg.
    eapply list_elem_of_lookup_2; eauto.
  - intros _. intros s H. unfold alloc. simpl.
    apply insert_subseteq_r; [|exact H].
    destruct (s0 !! fresh (dom s)) as [o'|] eqn:E; [|reflexivity].
    exfalso. apply (is_fresh (dom s)). apply elem_of_dom.
    exists o'. eapply lookup_weaken; eauto.
Qed.

Lemma keeps_create_masks (alti_map : raster_ref) (do_classification : bool)
    (ref_support : option raster_ref) (do_cross : bool)
    (desc : option classified_img) (remove_outliers : bool) :
  keeps s0 (create_masks alti_map do_classification ref_support do_cross desc
                         remove_outliers).
Proof.
  unfold create_masks, standard_mask.
  apply keeps_bind_assoc.
  apply keeps_bind; [apply keeps_float_array|]. intros alti.
  apply keeps_bind_assoc.
  apply keeps_alloc_bind. intros m0 Hm0.
  apply keeps_bind_assoc.
  apply keeps_bind.
  { destruct remove_outliers; [|apply keeps_ret].
    apply keeps_bind; [apply keeps_bool_array|]. intros mask0.
    apply keeps_bind; [apply keeps_lift|]. intros free.
    apply keeps_alloc_bind. intros l _. apply keeps_ret. }
  intros no_outliers.
  apply keeps_ret_bind. cbv beta iota.
  apply keeps_bind.
  { destruct do_classification; [|apply keeps_ret].
    destruct ref_support as [support|]; [|apply keeps_raise].
    apply keeps_bind; [apply keeps_float_array|]. intros sup.
    apply keeps_update_bool. exact Hm0. }
  intros _.
  destruct (do_classification && do_cross); [|apply keeps_ret].
  destruct desc as [d|]; [|apply keeps_raise].
  apply keeps_bind; [apply keeps_lift|]. intros nd0.
  apply keeps_bind; [apply keeps_bool_array|]. intros mask0.
  apply keeps_bind; [apply keeps_lift|]. intros coherent.
  apply keeps_alloc_bind. intros m1 _.
  apply keeps_bind; [apply keeps_bool_array|]. intros mask0'.
  apply keeps_bind; [apply keeps_lift|]. intros incoherent.
  apply keeps_alloc_bind. intros m2 _. apply keeps_ret.
Qed.

Create HintDb keeps.

#[local] Hint Resolve keeps_ret keeps_raise keeps_lift keeps_float_array
  keeps_bool_array keeps_py_list : keeps.

Ltac keeps_step :=
  first
    [ apply keeps_alloc_bind; intros ? ?
    | apply keeps_bind; [ | intros ? ]
    | solve [ auto with keeps ] ].

Variable curve_fit_converges : list float -> bool.

Lemma keeps_plot_set (input_array : list float) (to_keep_mask : option (list bool))
    (sets : loc) (sets_labels : list string) (sets_colors : list color)
    (st : Z * list string) (set_idx : nat) :
  s0 !! sets = None ->
  keeps s0 (plot_set curve_fit_converges input_array to_keep_mask sets
                     sets_labels sets_colors st set_idx).
Proof.
  intros Hs. unfold plot_set. destruct st as [set_zero_size saved_labels].
  apply keeps_bind.
  { destruct to_keep_mask as [mask|]; [|apply keeps_ret].
    repeat keeps_step. apply keeps_setitem. exact Hs. }
  intros _. repeat keeps_step.
  destruct (Np.size _ =? 0); [apply keeps_ret|].
  apply keeps_bind.
  { destruct (Nat.eqb set_idx 0); [apply keeps_ret|].
    destruct (set_zero_size =? 0); [apply keeps_raise | apply keeps_ret]. }
  intros z. repeat keeps_step.
  destruct (curve_fit_converges _); [apply keeps_ret | apply keeps_raise].
Qed.

(** [plot_histograms] keeps every object but the list it is given. *)
Lemma keeps_plot_histograms (input_array : loc) (bin_step : float)
    (to_keep_mask : option loc)
    (sets : option loc) (sets_labels : option (list string))
    (sets_colors : option (list color)) :
  (forall l, sets = Some l -> s0 !! l = None) ->
  keeps s0 (plot_histograms curve_fit_converges input_array bin_step
                            to_keep_mask sets sets_labels sets_colors).
Proof.
  intros Hs. unfold plot_histograms.
  keeps_step; [apply keeps_float_array|].
  apply keeps_bind.
  { destruct to_keep_mask; [|apply keeps_ret]. repeat keeps_step. }
  intros mask. apply keeps_bind.
  { destruct mask; [apply keeps_lift | apply keeps_ret]. }
  intros kept.
  apply keeps_bind; [apply keeps_lift|]. intros lowest.
  apply keeps_bind; [apply keeps_lift|]. intros highest.
  apply keeps_bind; [apply keeps_lift|]. intros _.
  destruct sets as [l|]; [|apply keeps_ret].
  destruct sets_labels as [labels|]; [|apply keeps_ret].
  destruct sets_colors as [colors|]; [|apply keeps_ret].
  keeps_step; [apply keeps_py_list|].
  apply keeps_bind; [|intros; apply keeps_ret].
  apply keeps_for_each. intros st idx. apply keeps_plot_set. auto.
Qed.

Lemma keeps_mode_step (alti_r : loc) (bin_step : float)
    (no_outliers_mask : loc) (ref_sets_def : option loc)
    (sets_labels sets_names : option (list string)) (sets_color : list color)
    (to_keep_mask : loc) :
  keeps s0 (mode_step curve_fit_converges alti_r bin_step no_outliers_mask
                      ref_sets_def sets_labels sets_names sets_color
                      to_keep_mask).
Proof.
  unfold mode_step.
  keeps_step; [apply keeps_float_array|].
  keeps_step; [apply keeps_bool_array|].
  keeps_step; [apply keeps_bool_array|].
  apply keeps_bind.
  { destruct ref_sets_def; [|apply keeps_ret].
    keeps_step; [apply keeps_py_list|].
    keeps_step; [apply keeps_traverseM; intros; apply keeps_bool_array|].
    apply keeps_ret. }
  intros sets.
  keeps_step; [apply keeps_lift|].
  keeps_step; [apply keeps_lift|].
  apply keeps_alloc_bind; intros kept Hkept.
  apply keeps_alloc_bind; intros all Hall.
  apply keeps_bind.
  { destruct ref_sets_def; [apply keeps_py_list | apply keeps_raise]. }
  intros items.
  apply keeps_alloc_bind; intros sets_all Hsets.
  apply keeps_bind.
  { destruct sets_labels; [apply keeps_ret | apply keeps_raise]. }
  intros labels.
  apply keeps_bind; [|intros; apply keeps_ret].
  apply keeps_plot_histograms. intros l [= <-]. exact Hsets.
Qed.

Lemma keeps_run_modes (alti_r : loc) (bin_step : float)
    (no_outliers_mask : loc) (ref_sets_def : option loc)
    (sets_labels sets_names : option (list string)) (sets_color : list color)
    (to_keep_masks : list loc) :
  keeps s0 (run_modes curve_fit_converges alti_r bin_step no_outliers_mask
                      ref_sets_def sets_labels sets_names sets_color
                      to_keep_masks).
Proof.
  unfold run_modes. apply keeps_traverseM. intros mask. apply keeps_mode_step.
Qed.

Lemma keeps_alti_diff_stats (alti_map : raster_ref) (bin_step : float)
    (do_classify_results : bool)
    (support : option raster_ref) (class_rad_range : list float)
    (sets_labels sets_names : option (list string)) (sets_color : list color)
    (do_cross : bool) (ref_classified : option classified_img) :
  keeps s0 (alti_diff_stats curve_fit_converges alti_map bin_step
                            do_classify_results support class_rad_range
                            sets_labels sets_names sets_color do_cross
                            ref_classified).
Proof.
  unfold alti_diff_stats.
  apply keeps_bind.
  { destruct do_classify_results; [|apply keeps_ret].
    destruct support as [sup|]; [|apply keeps_raise].
    apply keeps_bind; [apply keeps_create_sets|]. intros sets. apply keeps_ret. }
  intros ref_sets_def.
  apply keeps_bind; [apply keeps_create_masks|].
  intros [[to_keep_masks modes] no_outliers_mask].
  destruct no_outliers_mask; [apply keeps_run_modes | apply keeps_raise].
Qed.

End Keeps.

(** C9, amended. The rasters are never changed, and a class grid or a mask
    is not changed once the function that builds it has returned: the
    class builder, the mask builder, the loop of the statistics and
    histogram steps over the modes, and their sequence in
    [alti_diff_stats] each end in a store where every object of the store
    they started from is as it was. The in-place updates of [create_sets]
    and of [create_masks] reach only the grids the same call has created.
    In particular, after the statistics and histogram steps have run for
    the modes, the list of the class grids holds the same grids, and each
    grid the same values: the assignment [sets[set_idx] = ...] of
    [plot_histograms] reaches the list built by
    [[np.ones(...)] + ref_sets_def] for the call, and the products of grids
    and masks are new arrays. *)
Theorem statistics_and_histograms_keep_objects
    (curve_fit_converges : list float -> bool) :
  (forall (img : raster_ref) (sets_rad_range : list float)
          (s : gmap loc obj) (l : loc) (o : obj),
      s !! l = Some o ->
      snd (create_sets img sets_rad_range s) !! l = Some o)
  /\
  (forall (alti_map : raster_ref) (do_classification : bool)
          (ref_support : option raster_ref) (do_cross : bool)
          (desc : option classified_img) (remove_outliers : bool)
          (s : gmap loc obj) (l : loc) (o : obj),
      s !! l = Some o ->
      snd (create_masks alti_map do_classification ref_support do_cross desc
                        remove_outliers s) !! l = Some o)
  /\
  (forall (alti_r : loc) (bin_step : float) (no_outliers_mask : loc)
          (ref_sets_def : option loc)
          (sets_labels sets_names : option (list string))
          (sets_color : list color) (to_keep_masks : list loc)
          (s : gmap loc obj),
      let s' := snd (run_modes curve_fit_converges alti_r bin_step
                               no_outliers_mask ref_sets_def sets_labels
                               sets_names sets_color to_keep_masks s) in
      (forall (l : loc) (o : obj), s !! l = Some o -> s' !! l = Some o) /\
      (forall (l : loc) (items : list loc),
          ref_sets_def = Some l -> s !! l = Some (PyList items) ->
          s' !! l = Some (PyList items) /\
          forall (i : nat) (g : loc) (grid : list bool),
            items !! i = Some g -> s !! g = Some (BoolArray grid) ->
            s' !! g = Some (BoolArray grid)))
  /\
  (forall (alti_map : raster_ref) (bin_step : float)
          (do_classify_results : bool)
          (support : option raster_ref) (class_rad_range : list float)
          (sets_labels sets_names : option (list string))
          (sets_color : list color) (do_cross : bool)
          (ref_classified : option classified_img)
          (s : gmap loc obj) (l : loc) (o : obj),
      s !! l = Some o ->
      snd (alti_diff_stats curve_fit_converges alti_map bin_step
                           do_classify_results support class_rad_range
                           sets_labels sets_names sets_color do_cross
                           ref_classified s) !! l
        = Some o).
Proof.
  split; [|split; [|split]].
  - intros img sets_rad_range s l o Hl.
    eapply lookup_weaken; [exact Hl|].
    apply keeps_create_sets. reflexivity.
  - intros alti_map do_classification ref_support do_cross desc
      remove_outliers s l o Hl.
    eapply lookup_weaken; [exact Hl|].
    apply keeps_create_masks. reflexivity.
  - intros alti_r bin_step no_outliers_mask ref_sets_def sets_labels
      sets_names sets_color to_keep_masks s s'.
    assert (Hsub : s ⊆ s') by (apply keeps_run_modes; reflexivity).
    assert (Hall : forall (l : loc) (o : obj),
               s !! l = Some o -> s' !! l = Some o).
    { intros l o Hl. eapply lookup_weaken; eauto. }
    split; [exact Hall|].
    intros l items _ Hl. split; [apply Hall, Hl|].
    intros i g grid _ Hg. apply Hall, Hg.
  - intros alti_map bin_step do_classify_results support class_rad_range
      sets_labels sets_names sets_color do_cross ref_classified s l o Hl.
    eapply lookup_weaken; [exact Hl|].
    apply keeps_alti_diff_stats. reflexivity.
Qed.

Lemma statistics_and_histograms_keep_objects_witness :
  store_demo !! 6%positive = Some (PyList [4%positive; 5%positive]) /\
  store_demo !! 5%positive = Some (BoolArray [false; true; true; true]) /\
  let s' := snd (run_modes fit_always 1%positive bin_step_demo 3%positive (Some 6%positive)
                           (Some ["a"; "b"]%string) (Some ["A"; "B"]%string)
                           [black; black] [2%positive] store_demo) in
  s' !! 6%positive = Some (PyList [4%positive; 5%positive]) /\
  s' !! 5%positive = Some (BoolArray [false; true; true; true]).
Proof.
  assert (H6 : store_demo !! 6%positive = Some (PyList [4%positive; 5%positive]))
    by (vm_compute; reflexivity).
  assert (H5 : store_demo !! 5%positive
               = Some (BoolArray [false; true; true; true]))
    by (vm_compute; reflexivity).
  split; [exact H6|]. split; [exact H5|].
  intros s'.
  destruct (proj2 (proj1 (proj2 (proj2
                     (statistics_and_histograms_keep_objects fit_always)))
                     1%positive bin_step_demo 3%positive (Some 6%positive)
                     (Some ["a"; "b"]%string) (Some ["A"; "B"]%string)
                     [black; black] [2%positive] store_demo)
              6%positive [4%positive; 5%positive] eq_refl H6) as [K6 K].
  split; [exact K6|].
  exact (K 1%nat 5%positive [false; true; true; true] eq_refl H5).
Defined.

(** C9, as the claim words it, fails: a mask and a class grid are updated
    in place after their creation. [create_masks] creates [masks[0]] and
    reads it for the outlier mask, then multiplies it in place by the mask
    of the support: the array at 3 does not hold, when [create_masks]
    returns, the values it was created with. [create_sets] creates the
    grids of the ranges, then clears them in place where the support has no
    data: so for the array at 2, the first item of the list returned. *)
Lemma builders_update_new_grids_in_place :
  (store_rasters !! 3%positive = None /\
   fst (standard_mask alti_ref true store_rasters)
     = Ok (3%positive, Some 4%positive) /\
   snd (standard_mask alti_ref true store_rasters) !! 3%positive
     = Some (BoolArray [true; false; true; true]) /\
   fst (create_masks alti_ref true (Some support_ref) false None true
                     store_rasters)
     = Ok ([3%positive], [standard], Some 4%positive) /\
   snd (create_masks alti_ref true (Some support_ref) false None true
                     store_rasters) !! 3%positive
     = Some (BoolArray [true; false; false; true]) /\
   snd (create_masks alti_ref true (Some support_ref) false None true
                     store_rasters) !! 3%positive
     <> snd (standard_mask alti_ref true store_rasters) !! 3%positive)
  /\
  (MoreSamples.store_support_zero !! 2%positive = None /\
   fst (range_grids (floats [0; 5; 12; 30]) boundaries
                    MoreSamples.store_support_zero)
     = Ok [2%positive; 3%positive; 4%positive] /\
   snd (range_grids (floats [0; 5; 12; 30]) boundaries
                    MoreSamples.store_support_zero) !! 2%positive
     = Some (BoolArray [true; true; false; false]) /\
   fst (create_sets MoreSamples.support_zero_ref boundaries
                    MoreSamples.store_support_zero)
     = Ok 5%positive /\
   snd (create_sets MoreSamples.support_zero_ref boundaries
                    MoreSamples.store_support_zero) !! 5%positive
     = Some (PyList [2%positive; 3%positive; 4%positive]) /\
   snd (create_sets MoreSamples.support_zero_ref boundaries
                    MoreSamples.store_support_zero) !! 2%positive
     = Some (BoolArray [false; true; false; false]) /\
   snd (create_sets MoreSamples.support_zero_ref boundaries
                    MoreSamples.store_support_zero) !! 2%positive
     <> snd (range_grids (floats [0; 5; 12; 30]) boundaries
                         MoreSamples.store_support_zero) !! 2%positive).
Proof.
  split; repeat split; try (vm_compute; reflexivity);
    intros H; vm_compute in H; discriminate H.
Qed.

(** The whole sequence runs to its end on two small rasters: one record
    for all the classes and one for each class, and a histogram for the
    classes that have kept samples. *)
Lemma alti_diff_stats_demo :
  exists records,
    fst (alti_diff_stats fit_always alti_ref bin_step_demo true (Some support_ref)
           boundaries (Some ["a"; "b"; "c"]%string)
           (Some ["A"; "B"; "C"]%string) [black; black; black] false None
           store_rasters)
      = Ok [(records, ["all"; "a"; "c"]%string)] /\
    length records = 4%nat.
Proof.
  eexists. split; [vm_compute; reflexivity | reflexivity].
Qed.

(** On the store [create_masks] builds the masks [Stats.create_masks]
    computes from the samples. *)
Lemma create_masks_demo :
  exists s',
    create_masks alti_ref true (Some support_ref) true (Some desc_demo) true
                 store_rasters
      = (Ok ([3%positive; 5%positive; 6%positive],
             [standard; coherent_classification; incoherent_classification],
             Some 4%positive), s') /\
    Stats.create_masks alti_demo true (Some support_demo) true (Some desc_demo)
                       true
      = Ok ([[true; false; false; true]; [true; false; false; false];
             [false; false; false; true]],
            [standard; coherent_classification; incoherent_classification],
            Some [true; false; true; true]) /\
    s' !! 3%positive = Some (BoolArray [true; false; false; true]) /\
    s' !! 5%positive = Some (BoolArray [true; false; false; false]) /\
    s' !! 6%positive = Some (BoolArray [false; false; false; true]) /\
    s' !! 4%positive = Some (BoolArray [true; false; true; true]).
Proof.
  eexists. split; [vm_compute; reflexivity|].
  repeat split; vm_compute; reflexivity.
Qed.

(** The loop of the demonstration store runs to its end, and its histograms
    are those of the class grids restricted to the kept pixels. *)
Lemma run_modes_demo :
  exists records,
    fst (run_modes fit_always 1%positive bin_step_demo 3%positive (Some 6%positive)
                   (Some ["a"; "b"]%string) (Some ["A"; "B"]%string)
                   [black; black] [2%positive] store_demo)
      = Ok [(records, ["all"; "a"; "b"]%string)] /\
    length records = 3%nat.
Proof.
  eexists. split; [vm_compute; reflexivity | reflexivity].
Qed.

(** Called on a list of its caller, [plot_histograms] replaces the items
    of that list: the caller's list then holds the restricted grids. *)
Lemma plot_histograms_assigns_into_its_list :
  snd (plot_histograms fit_always 1%positive bin_step_demo (Some 2%positive)
                       (Some 6%positive) (Some ["a"; "b"]%string)
                       (Some [black; black]) store_demo) !! 6%positive
    = Some (PyList [7%positive; 8%positive]).
Proof. vm_compute. reflexivity. Qed.

End HeapProps.

(** ** The reconciliation of two classifications *)

Module CrossProps.

Import Py Stats More ListFacts ClassProps.

Lemma lookup_nth_lt {A : Type} (l : list A) (p : nat) (d : A) :
  (p < length l)%nat -> l !! p = Some (nth p l d).
Proof.
  intros H. destruct (lookup_lt_is_Some_2 l p H) as [x Hx].
  rewrite Hx. f_equal. symmetry. apply nth_lookup_Some with (d := d) in Hx.
  exact Hx.
Qed.

Lemma fold_and_lookup (grids : list (list bool)) :
  forall (acc : list bool) (p : nat) (a : bool),
    Forall (fun g => length g = length acc) grids ->
    acc !! p = Some a ->
    fold_left (zip_with andb) grids acc !! p
      = Some (a && forallb (fun g => nth p g false) grids).
Proof.
  induction grids as [|g grids IH]; intros acc p a Hlen Hacc; simpl.
  - rewrite andb_true_r. exact Hacc.
  - inversion Hlen as [|? ? Hg Hrest]; subst.
    assert (Hp : (p < length acc)%nat) by (apply lookup_lt_is_Some; eauto).
    rewrite (IH (zip_with andb acc g) p (a && nth p g false)).
    + rewrite andb_assoc. reflexivity.
    + rewrite length_zip_with, Hg, Nat.min_id.
      eapply Forall_impl; [exact Hrest|]. simpl. intros; lia.
    + rewrite lookup_zip_with, Hacc. simpl.
      rewrite (lookup_nth_lt g p false) by lia. reflexivity.
Qed.

Lemma eq_grid_length (a b : list bool) (n : nat) :
  length a = n -> length b = n -> length (eq_grid a b) = n.
Proof.
  intros Ha Hb. unfold eq_grid. rewrite length_zip_with. lia.
Qed.

Lemma eq_grid_nth (a b : list bool) (p : nat) :
  (p < length a)%nat -> (p < length b)%nat ->
  nth p (eq_grid a b) false = Bool.eqb (nth p a false) (nth p b false).
Proof.
  intros Ha Hb. apply nth_lookup_Some with (d := false) (x := Bool.eqb (nth p a false) (nth p b false)).
  unfold eq_grid. rewrite lookup_zip_with.
  rewrite (lookup_nth_lt a p false), (lookup_nth_lt b p false) by lia.
  reflexivity.
Qed.

Lemma compare_class_Ok (ref_sets dsm_sets : list (list bool)) (i : nat) :
  (i < length ref_sets)%nat -> (i < length dsm_sets)%nat ->
  compare_class ref_sets dsm_sets i
    = Ok (eq_grid (nth i ref_sets []) (nth i dsm_sets [])).
Proof.
  intros Hr Hd. unfold compare_class, getitem.
  rewrite (lookup_nth_lt ref_sets i []), (lookup_nth_lt dsm_sets i []) by lia.
  reflexivity.
Qed.

Lemma combine_sets_Ok (ref_sets dsm_sets : list (list bool)) :
  (length ref_sets <= length dsm_sets)%nat ->
  traverse (compare_class ref_sets dsm_sets) (seq 0 (length ref_sets))
    = Ok (compared ref_sets dsm_sets).
Proof.
  intros Hlen. apply traverse_all_Ok. intros i Hi. apply in_seq in Hi.
  apply compare_class_Ok; lia.
Qed.

Lemma forallb_map_seq {A : Type} (f : A -> bool) (g : nat -> A) (l : list nat) :
  forallb f (map g l) = forallb (fun i => f (g i)) l.
Proof.
  induction l as [|i l IH]; simpl; [reflexivity|]. rewrite IH. reflexivity.
Qed.

Lemma forallb_eq_in {A : Type} (f g : A -> bool) (l : list A) :
  (forall a, In a l -> f a = g a) -> forallb f l = forallb g l.
Proof.
  induction l as [|a l IH]; simpl; intros H; [reflexivity|].
  rewrite (H a), IH by auto. reflexivity.
Qed.

Lemma traverse_raises_at {A B : Type} (f : A -> result B) (pre post : list A)
    (a : A) (e : exn) :
  (forall x, In x pre -> exists b, f x = Ok b) -> f a = Raise e ->
  traverse f (pre ++ a :: post) = Raise e.
Proof.
  intros Hpre Ha. induction pre as [|x pre IH]; simpl.
  - rewrite Ha. reflexivity.
  - destruct (Hpre x) as [b Hb]; [left; reflexivity|]. rewrite Hb. simpl.
    rewrite IH; [reflexivity|]. intros y Hy. apply Hpre. right. exact Hy.
Qed.

Lemma combine_sets_raises (ref_sets dsm_sets : list (list bool)) :
  (length dsm_sets < length ref_sets)%nat ->
  traverse (compare_class ref_sets dsm_sets) (seq 0 (length ref_sets))
    = Raise IndexError.
Proof.
  intros Hlen.
  replace (length ref_sets)
    with (length dsm_sets + S (length ref_sets - S (length dsm_sets)))%nat by lia.
  rewrite seq_app. simpl.
  apply traverse_raises_at.
  - intros i Hi. apply in_seq in Hi. rewrite compare_class_Ok by lia. eauto.
  - unfold compare_class, getitem.
    rewrite (lookup_nth_lt ref_sets (length dsm_sets) []) by lia. simpl.
    rewrite (lookup_ge_None_2 dsm_sets) by lia. reflexivity.
Qed.

Lemma compared_shape (n : nat) (ref_sets dsm_sets : list (list bool)) :
  Forall (fun set => length set = n) ref_sets ->
  Forall (fun set => length set = n) dsm_sets ->
  (length ref_sets <= length dsm_sets)%nat ->
  Forall (fun g => length g = n) (compared ref_sets dsm_sets).
Proof.
  intros Hr Hd Hlen. unfold compared. apply Forall_forall.
  intros g Hg. apply list_elem_of_In, in_map_iff in Hg.
  destruct Hg as (i & <- & Hi). apply in_seq in Hi.
  apply eq_grid_length.
  - eapply Forall_forall in Hr; [exact Hr|].
    apply list_elem_of_In, nth_In. lia.
  - eapply Forall_forall in Hd; [exact Hd|].
    apply list_elem_of_In, nth_In. lia.
Qed.

Lemma compared_agree (n : nat) (ref_sets dsm_sets : list (list bool)) (p : nat) :
  Forall (fun set => length set = n) ref_sets ->
  Forall (fun set => length set = n) dsm_sets ->
  (length ref_sets <= length dsm_sets)%nat -> (p < n)%nat ->
  forallb (fun g => nth p g false) (compared ref_sets dsm_sets)
    = agree_at ref_sets dsm_sets p.
Proof.
  intros Hr Hd Hlen Hp. unfold compared, agree_at.
  rewrite forallb_map_seq. apply forallb_eq_in.
  intros i Hi. apply in_seq in Hi.
  apply eq_grid_nth.
  - eapply Forall_forall in Hr; [rewrite Hr; exact Hp|].
    apply list_elem_of_In, nth_In. lia.
  - eapply Forall_forall in Hd; [rewrite Hd; exact Hp|].
    apply list_elem_of_In, nth_In. lia.
Qed.

Lemma incoherent_lookup (n : nat) (ref_sets dsm_sets : list (list bool)) (p : nat) :
  Forall (fun set => length set = n) ref_sets ->
  Forall (fun set => length set = n) dsm_sets ->
  (length ref_sets <= length dsm_sets)%nat -> (p < n)%nat ->
  map negb (fold_left (zip_with andb) (compared ref_sets dsm_sets)
                      (repeat true n)) !! p
    = Some (negb (agree_at ref_sets dsm_sets p)).
Proof.
  intros Hr Hd Hlen Hp. rewrite list_lookup_fmap.
  rewrite (fold_and_lookup _ _ p true).
  - simpl. rewrite (compared_agree n) by assumption. reflexivity.
  - rewrite repeat_length. apply compared_shape; assumption.
  - rewrite <- (repeat_length true n) in Hp.
    rewrite (lookup_nth_lt _ p true Hp). f_equal.
    apply nth_repeat.
Qed.

Lemma fold_and_length (grids : list (list bool)) :
  forall acc : list bool,
    Forall (fun g => length g = length acc) grids ->
    length (fold_left (zip_with andb) grids acc) = length acc.
Proof.
  induction grids as [|g grids IH]; intros acc Hlen; [reflexivity|].
  inversion Hlen as [|? ? Hg Hrest]; subst. simpl.
  rewrite IH; rewrite length_zip_with, Hg, Nat.min_id; [reflexivity|].
  eapply Forall_impl; [exact Hrest|]. simpl. intros; lia.
Qed.

Lemma and_with_ones (g : list bool) :
  zip_with andb (repeat true (length g)) g = g.
Proof. induction g as [|b g IH]; simpl; [reflexivity | rewrite IH; reflexivity]. Qed.

Lemma where_from_none (n : nat) :
  forall k, Np.where_from k (repeat false n) = [].
Proof. induction n as [|n IH]; intros k; simpl; [reflexivity | apply IH]. Qed.

(** The incoherent pixels, read off the grids or off a start of the shape
    of the alpha bands. *)
Lemma incoherent_indices_from (n : nat) (grids : list (list bool)) :
  Forall (fun g => length g = n) grids ->
  Np.where_true (map negb (all_axis0 grids))
  = Np.where_true (map negb (fold_left (zip_with andb) grids (repeat true n))).
Proof.
  intros Hlen. unfold Np.where_true. destruct grids as [|g rest]; simpl.
  - rewrite map_repeat. simpl. symmetry. apply where_from_none.
  - inversion Hlen as [|? ? Hg Hrest]; subst.
    rewrite and_with_ones. reflexivity.
Qed.

Lemma where_from_lt (mask : list bool) :
  forall k i, In i (Np.where_from k mask) -> (i < k + length mask)%nat.
Proof.
  induction mask as [|b mask IH]; intros k i Hin; simpl in Hin; [destruct Hin|].
  simpl. destruct b.
  - destruct Hin as [<-|Hin]; [lia|]. apply IH in Hin. lia.
  - apply IH in Hin. lia.
Qed.

Lemma assign_from {A : Type} (v : A) (mask : list bool) :
  forall pre arr : list A,
    (length mask <= length arr)%nat ->
    fold_left (fun a i => <[i := v]> a) (Np.where_from (length pre) mask)
              (pre ++ arr)
    = pre ++ assign_where arr mask v.
Proof.
  induction mask as [|b mask IH]; intros pre arr Hlen.
  - destruct arr; reflexivity.
  - destruct arr as [|a arr]; [simpl in Hlen; lia|]. simpl in Hlen.
    assert (IHv := IH (pre ++ [v]) arr ltac:(lia)).
    assert (IHa := IH (pre ++ [a]) arr ltac:(lia)).
    rewrite length_app, Nat.add_1_r, <- !app_assoc in IHv, IHa.
    simpl in IHv, IHa. destruct b; simpl.
    + replace (<[length pre := v]> (pre ++ a :: arr)) with (pre ++ v :: arr).
      * exact IHv.
      * replace (length pre) with (length pre + 0)%nat at 1 by lia.
        rewrite insert_app_r. reflexivity.
    + exact IHa.
Qed.

(** Assigning at the positions of a mask that fits in the array does not
    raise. *)
Lemma assign_at_mask {A : Type} (arr : list A) (mask : list bool) (v : A) :
  (length mask <= length arr)%nat ->
  assign_at arr (Np.where_true mask) v = Ok (assign_where arr mask v).
Proof.
  intros Hlen. unfold assign_at, Np.where_true.
  replace (forallb _ _) with true.
  - f_equal. apply (assign_from v mask [] arr Hlen).
  - symmetry. apply forallb_forall. intros i Hi.
    apply where_from_lt in Hi. apply Nat.ltb_lt. lia.
Qed.

Lemma cross_class_unfold (ref_alpha dsm_alpha : list Z)
    (ref_sets dsm_sets : list (list bool)) :
  cross_class_apha_bands ref_alpha dsm_alpha ref_sets dsm_sets
  = let* combine_sets :=
      traverse (compare_class ref_sets dsm_sets) (seq 0 (length ref_sets)) in
    let incoherent_indices :=
      Np.where_true (map negb (all_axis0 combine_sets)) in
    let* ref_alpha' := assign_at ref_alpha incoherent_indices 0 in
    let* dsm_alpha' := assign_at dsm_alpha incoherent_indices 0 in
    Ok (ref_alpha', dsm_alpha').
Proof. reflexivity. Qed.

Lemma cross_class_pixelwise
    (n : nat) (ref_alpha dsm_alpha : list Z)
    (ref_sets dsm_sets : list (list bool)) :
  one_shape n ref_alpha dsm_alpha ref_sets dsm_sets ->
  (length ref_sets <= length dsm_sets)%nat ->
  exists ref_alpha' dsm_alpha',
    cross_class_apha_bands ref_alpha dsm_alpha ref_sets dsm_sets
      = Ok (ref_alpha', dsm_alpha') /\
    length ref_alpha' = n /\ length dsm_alpha' = n /\
    forall p, (p < n)%nat ->
      ref_alpha' !! p
        = Some (if agree_at ref_sets dsm_sets p then nth p ref_alpha 0 else 0) /\
      dsm_alpha' !! p
        = Some (if agree_at ref_sets dsm_sets p then nth p dsm_alpha 0 else 0).
Proof.
  intros (Hra & Hda & Hr & Hd) Hlen.
  assert (Hshape := compared_shape n _ _ Hr Hd Hlen).
  assert (Hmask : length (map negb
                            (fold_left (zip_with andb)
                                       (compared ref_sets dsm_sets)
                                       (repeat true n))) = n).
  { rewrite length_map, fold_and_length; rewrite repeat_length;
      [reflexivity | exact Hshape]. }
  rewrite cross_class_unfold, combine_sets_Ok by lia. cbn [Py.bind].
  rewrite (incoherent_indices_from n _ Hshape).
  rewrite !assign_at_mask by lia. cbn [Py.bind].
  eexists _, _. split; [reflexivity|].
  rewrite !assign_where_length. repeat split; try assumption.
  - rewrite (assign_where_lookup _ _ _ p (nth p ref_alpha 0)
                                 (negb (agree_at ref_sets dsm_sets p))).
    + destruct (agree_at ref_sets dsm_sets p); reflexivity.
    + apply lookup_nth_lt. lia.
    + apply (incoherent_lookup n); assumption.
  - rewrite (assign_where_lookup _ _ _ p (nth p dsm_alpha 0)
                                 (negb (agree_at ref_sets dsm_sets p))).
    + destruct (agree_at ref_sets dsm_sets p); reflexivity.
    + apply lookup_nth_lt. lia.
    + apply (incoherent_lookup n); assumption.
Qed.

(** X1. For two classifications of one shape with as many classes,
    [cross_class_apha_bands] returns, and in both alpha bands a pixel keeps
    its value where every class grid of the one classification equals the
    grid of the other, and is 0 elsewhere. *)
Theorem cross_class_alpha_zero_where_classes_differ
    (n : nat) (ref_alpha dsm_alpha : list Z)
    (ref_sets dsm_sets : list (list bool)) :
  one_shape n ref_alpha dsm_alpha ref_sets dsm_sets ->
  length ref_sets = length dsm_sets ->
  exists ref_alpha' dsm_alpha',
    cross_class_apha_bands ref_alpha dsm_alpha ref_sets dsm_sets
      = Ok (ref_alpha', dsm_alpha') /\
    length ref_alpha' = n /\ length dsm_alpha' = n /\
    forall p, (p < n)%nat ->
      ref_alpha' !! p
        = Some (if agree_at ref_sets dsm_sets p then nth p ref_alpha 0 else 0) /\
      dsm_alpha' !! p
        = Some (if agree_at ref_sets dsm_sets p then nth p dsm_alpha 0 else 0).
Proof.
  intros Hshape Hlen. apply cross_class_pixelwise; [assumption | lia].
Qed.

Lemma cross_class_alpha_zero_where_classes_differ_witness :
  one_shape 2 [255; 255] [255; 0] [[true; false]] [[true; true]] /\
  exists ref_alpha' dsm_alpha',
    cross_class_apha_bands [255; 255] [255; 0] [[true; false]] [[true; true]]
      = Ok (ref_alpha', dsm_alpha') /\
    length ref_alpha' = 2%nat /\ length dsm_alpha' = 2%nat /\
    forall p, (p < 2)%nat ->
      ref_alpha' !! p
        = Some (if agree_at [[true; false]] [[true; true]] p
                then nth p [255; 255] 0 else 0) /\
      dsm_alpha' !! p
        = Some (if agree_at [[true; false]] [[true; true]] p
                then nth p [255; 0] 0 else 0).
Proof.
  assert (H : one_shape 2 [255; 255] [255; 0] [[true; false]] [[true; true]]).
  { repeat split; repeat constructor. }
  split; [exact H|].
  apply (cross_class_alpha_zero_where_classes_differ 2 _ _ _ _ H).
  reflexivity.
Defined.

Lemma lookup_Some_nth {A : Type} (l : list A) (p : nat) (x d : A) :
  l !! p = Some x -> nth p l d = x.
Proof. apply nth_lookup_Some. Qed.

Lemma same_lookups_below {A : Type} (n : nat) (l l' : list A) :
  length l = n -> length l' = n ->
  (forall p, (p < n)%nat -> l !! p = l' !! p) -> l = l'.
Proof.
  intros Hl Hl' H. apply list_eq. intros p.
  destruct (Nat.lt_ge_cases p n) as [Hp|Hp]; [auto|].
  rewrite !lookup_ge_None_2 by lia. reflexivity.
Qed.

(** X2. Reconciling again bands that were reconciled with the same class
    grids changes nothing: the pixels set to 0 are the same, and the others
    are kept. *)
Theorem cross_class_alpha_idempotent
    (n : nat) (ref_alpha dsm_alpha ref_alpha' dsm_alpha' : list Z)
    (ref_sets dsm_sets : list (list bool)) :
  one_shape n ref_alpha dsm_alpha ref_sets dsm_sets ->
  length ref_sets = length dsm_sets ->
  cross_class_apha_bands ref_alpha dsm_alpha ref_sets dsm_sets
    = Ok (ref_alpha', dsm_alpha') ->
  cross_class_apha_bands ref_alpha' dsm_alpha' ref_sets dsm_sets
    = Ok (ref_alpha', dsm_alpha').
Proof.
  intros Hshape Hlen Hrun.
  destruct (cross_class_pixelwise n _ _ _ _ Hshape (Nat.eq_le_incl _ _ Hlen))
    as (a1 & d1 & Hrun1 & Ha1 & Hd1 & Hpix1).
  rewrite Hrun in Hrun1. injection Hrun1 as <- <-.
  assert (Hshape' : one_shape n ref_alpha' dsm_alpha' ref_sets dsm_sets).
  { destruct Hshape as (_ & _ & Hr & Hd). repeat split; assumption. }
  destruct (cross_class_pixelwise n _ _ _ _ Hshape' (Nat.eq_le_incl _ _ Hlen))
    as (a2 & d2 & Hrun2 & Ha2 & Hd2 & Hpix2).
  rewrite Hrun2. f_equal. f_equal.
  - apply (same_lookups_below n); try assumption. intros p Hp.
    destruct (Hpix1 p Hp) as [H1 _]. destruct (Hpix2 p Hp) as [H2 _].
    rewrite H2, H1. rewrite (lookup_Some_nth _ _ _ 0 H1).
    destruct (agree_at ref_sets dsm_sets p); reflexivity.
  - apply (same_lookups_below n); try assumption. intros p Hp.
    destruct (Hpix1 p Hp) as [_ H1]. destruct (Hpix2 p Hp) as [_ H2].
    rewrite H2, H1. rewrite (lookup_Some_nth _ _ _ 0 H1).
    destruct (agree_at ref_sets dsm_sets p); reflexivity.
Qed.

Lemma cross_class_alpha_idempotent_witness :
  one_shape 2 [255; 255] [255; 0] [[true; false]] [[true; true]] /\
  cross_class_apha_bands [255; 255] [255; 0] [[true; false]] [[true; true]]
    = Ok ([255; 0], [255; 0]) /\
  cross_class_apha_bands [255; 0] [255; 0] [[true; false]] [[true; true]]
    = Ok ([255; 0], [255; 0]).
Proof.
  assert (H : one_shape 2 [255; 255] [255; 0] [[true; false]] [[true; true]]).
  { repeat split; repeat constructor. }
  assert (Hrun : cross_class_apha_bands [255; 255] [255; 0]
                   [[true; false]] [[true; true]] = Ok ([255; 0], [255; 0])).
  { reflexivity. }
  split; [exact H|]. split; [exact Hrun|].
  apply (cross_class_alpha_idempotent 2 _ _ _ _ _ _ H eq_refl Hrun).
Defined.

(** X3. For classifications and alpha bands of one shape,
    [cross_class_apha_bands] raises IndexError exactly when the other
    classification has fewer classes than the reference; the classes the
    other one has in surplus are not read. *)
Theorem cross_class_raises_iff_fewer_classes
    (n : nat) (ref_alpha dsm_alpha : list Z)
    (ref_sets dsm_sets : list (list bool)) :
  one_shape n ref_alpha dsm_alpha ref_sets dsm_sets ->
  ((length dsm_sets < length ref_sets)%nat <->
   cross_class_apha_bands ref_alpha dsm_alpha ref_sets dsm_sets
     = Raise IndexError) /\
  cross_class_apha_bands ref_alpha dsm_alpha ref_sets dsm_sets
    = cross_class_apha_bands ref_alpha dsm_alpha ref_sets
        (take (length ref_sets) dsm_sets).
Proof.
  intros Hshape. split; [split|].
  - intros H. rewrite cross_class_unfold, combine_sets_raises by exact H.
    reflexivity.
  - intros H. destruct (Nat.lt_ge_cases (length dsm_sets) (length ref_sets))
      as [Hlt|Hge]; [exact Hlt|].
    destruct (cross_class_pixelwise n _ _ _ _ Hshape Hge)
      as (a & d & Hrun & _).
    rewrite Hrun in H. discriminate.
  - destruct (Nat.lt_ge_cases (length dsm_sets) (length ref_sets))
      as [Hlt|H]; [rewrite take_ge by lia; reflexivity|].
    rewrite !cross_class_unfold.
    rewrite !combine_sets_Ok by (rewrite ?length_take; lia).
    unfold compared.
    assert (E : map (fun i => eq_grid (nth i ref_sets []) (nth i dsm_sets []))
                    (seq 0 (length ref_sets))
              = map (fun i => eq_grid (nth i ref_sets [])
                                (nth i (take (length ref_sets) dsm_sets) []))
                    (seq 0 (length ref_sets))).
    { apply map_ext_in. intros i Hi. apply in_seq in Hi. f_equal.
      symmetry. apply nth_lookup_Some with (d := []).
      rewrite lookup_take_lt by lia. apply lookup_nth_lt. lia. }
    rewrite E. reflexivity.
Qed.

Lemma cross_class_raises_iff_fewer_classes_witness :
  one_shape 2 [255; 255] [255; 0] [[true; false]; [false; true]]
            [[true; true]] /\
  ((length [[true; true]] < length [[true; false]; [false; true]])%nat <->
   cross_class_apha_bands [255; 255] [255; 0] [[true; false]; [false; true]]
                          [[true; true]]
     = Raise IndexError) /\
  cross_class_apha_bands [255; 255] [255; 0] [[true; false]; [false; true]]
                         [[true; true]]
    = cross_class_apha_bands [255; 255] [255; 0]
        [[true; false]; [false; true]]
        (take (length [[true; false]; [false; true]]) [[true; true]]).
Proof.
  assert (H : one_shape 2 [255; 255] [255; 0] [[true; false]; [false; true]]
                        [[true; true]]).
  { repeat split; repeat constructor. }
  split; [exact H|].
  exact (cross_class_raises_iff_fewer_classes 2 _ _ _ _ H).
Defined.

End CrossProps.

(** ** From the class grids to the masks *)

Module PipelineProps.

Import Py F64 Stats More Samples MoreSamples ListFacts ClassProps CrossProps.

(** The grids and the alpha band of a classified image. *)
Lemma create_sets_classified (img : A3DGeoRaster) (sets_rad_range : list float) :
  (length sets_rad_range <= 20)%nat ->
  exists sets colors,
    create_sets img sets_rad_range (Some classified_nodata)
      = Ok (sets, colors,
            Some (assign_where (repeat 255 (length (r img)))
                               (nan_or_nodata img) 0)) /\
    length sets = length sets_rad_range /\
    Forall (fun set => length set = length (r img)) sets.
Proof.
  intros Hn. unfold create_sets.
  destruct (getColor_Ok _ Hn) as [c ->]. cbn [Py.bind].
  change (getitem classified_nodata 3) with (Ok 0 : result Z). cbn [Py.bind].
  eexists _, c. split; [reflexivity|]. split.
  - rewrite !length_map, length_seq. reflexivity.
  - apply Forall_forall. intros set Hset.
    apply list_elem_of_In, in_map_iff in Hset. destruct Hset as (g & <- & Hg).
    apply in_map_iff in Hg. destruct Hg as (idx & <- & _).
    rewrite assign_where_length. unfold range_grid.
    destruct (Nat.eqb idx (length sets_rad_range - 1)); apply length_map.
Qed.

Lemma alpha_lookup (img : A3DGeoRaster) (p : nat) (v : float) :
  r img !! p = Some v ->
  assign_where (repeat 255 (length (r img))) (nan_or_nodata img) 0 !! p
    = Some (if isnan v || eqb v (nodata img) then 0 else 255).
Proof.
  intros Hv. apply assign_where_lookup.
  - assert (Hp : (p < length (r img))%nat) by (apply lookup_lt_is_Some; eauto).
    rewrite <- (repeat_length 255 (length (r img))) in Hp.
    rewrite (lookup_nth_lt _ p 255 Hp). f_equal. apply nth_repeat.
  - unfold nan_or_nodata. rewrite list_lookup_fmap, Hv. reflexivity.
Qed.

Lemma outliers_mask_returns (array : list float) (nan_value : float) :
  exists m, get_ouliersfree_mask array (get_nonan_mask array nan_value) = Ok m.
Proof.
  unfold get_ouliersfree_mask, get_nonan_mask.
  rewrite select_map. cbn [Py.bind]. eauto.
Qed.

Lemma classify_and_mask_pixels
    (alti_map support_ref support_dsm : A3DGeoRaster)
    (class_rad_range : list float) :
  length (r support_ref) = length (r alti_map) ->
  length (r support_dsm) = length (r alti_map) ->
  (length class_rad_range <= 20)%nat ->
  exists ref_sets dsm_sets m_std m_coh m_inc no_outliers,
    classify_and_mask alti_map true (Some support_ref) true (Some support_dsm)
                      class_rad_range
      = Ok (Some ref_sets, Some dsm_sets,
            ([m_std; m_coh; m_inc],
             [standard; coherent_classification; incoherent_classification],
             Some no_outliers)) /\
    (exists colors alpha,
       create_sets support_ref class_rad_range (Some classified_nodata)
         = Ok (ref_sets, colors, alpha)) /\
    (exists colors alpha,
       create_sets support_dsm class_rad_range (Some classified_nodata)
         = Ok (dsm_sets, colors, alpha)) /\
    (forall (p : nat) (s : bool), m_std !! p = Some s ->
       m_coh !! p = Some (s && agree_at ref_sets dsm_sets p) /\
       m_inc !! p = Some (s && negb (agree_at ref_sets dsm_sets p))) /\
    length m_std = length (r alti_map) /\
    length m_coh = length (r alti_map) /\
    length m_inc = length (r alti_map).
Proof.
  intros Href Hdsm Hn.
  destruct (create_sets_classified support_ref _ Hn)
    as (ref_sets & cr & Hcr & Hlr & Hshr).
  destruct (create_sets_classified support_dsm _ Hn)
    as (dsm_sets & cd & Hcd & Hld & Hshd).
  set (n := length (r alti_map)) in *.
  set (alpha_r := assign_where (repeat 255 (length (r support_ref)))
                               (nan_or_nodata support_ref) 0) in *.
  set (alpha_d := assign_where (repeat 255 (length (r support_dsm)))
                               (nan_or_nodata support_dsm) 0) in *.
  assert (Hshape : one_shape n alpha_r alpha_d ref_sets dsm_sets).
  { unfold alpha_r, alpha_d. rewrite Href in Hshr. rewrite Hdsm in Hshd.
    repeat split; try assumption;
      rewrite assign_where_length, repeat_length; assumption. }
  destruct (cross_class_pixelwise n _ _ _ _ Hshape ltac:(lia))
    as (ar & ad & Hcross & Har & Had & Hpix).
  unfold classify_and_mask. cbn [andb].
  rewrite Hcr, Hcd. cbn [Py.bind option_map from_option fst snd default].
  unfold id. fold alpha_r alpha_d. rewrite Hcross. cbn [Py.bind fst].
  unfold create_masks. cbn [andb].
  destruct (outliers_mask_returns (r alti_map) (nodata alti_map)) as [mo ->].
  cbn [Py.bind png_nodata alpha_band].
  change (getitem classified_nodata 0) with (Ok 0 : result Z).
  assert (Hstd : length (get_nonan_mask (r alti_map) (nodata alti_map))
                 = length (get_nonan_mask (r support_ref) (nodata support_ref))).
  { unfold get_nonan_mask. rewrite !length_map. fold n. congruence. }
  rewrite (mul_bool_same_shape _ _ Hstd). cbn [Py.bind].
  set (m_std := zip_with andb (get_nonan_mask (r alti_map) (nodata alti_map))
                  (get_nonan_mask (r support_ref) (nodata support_ref))).
  assert (Hlen_std : length m_std = n).
  { unfold m_std, get_nonan_mask. rewrite length_zip_with, !length_map.
    fold n. lia. }
  rewrite !mul_bool_same_shape
    by (unfold get_nonan_mask; rewrite ?length_map; congruence).
  cbn [Py.bind].
  eexists _, _, _, _, _, _. split; [reflexivity|].
  split; [eauto|]. split; [eauto|].
  split;
    [|unfold get_nonan_mask; rewrite !length_zip_with, !length_map, Hlen_std;
      repeat split; lia].
  intros p s Hs.
  assert (Hp : (p < n)%nat) by (rewrite <- Hlen_std; apply lookup_lt_is_Some; eauto).
  destruct (lookup_lt_is_Some_2 (r alti_map) p Hp) as [va Hva].
  destruct (lookup_lt_is_Some_2 (r support_ref) p ltac:(lia)) as [vr Hvr].
  destruct (Hpix p Hp) as [Hap _].
  unfold alpha_r in Hap.
  rewrite (lookup_Some_nth _ _ _ 0 (alpha_lookup support_ref p vr Hvr)) in Hap.
  unfold m_std, get_nonan_mask in Hs.
  rewrite lookup_zip_with, !list_lookup_fmap, Hva, Hvr in Hs.
  simpl in Hs. injection Hs as <-.
  unfold get_nonan_mask.
  rewrite !lookup_zip_with, !list_lookup_fmap.
  unfold m_std, get_nonan_mask.
  rewrite !lookup_zip_with, !list_lookup_fmap, Hva, Hvr, Hap.
  simpl. unfold neb.
  destruct (isnan va), (eqb va (nodata alti_map)), (isnan vr),
    (eqb vr (nodata support_ref)), (agree_at ref_sets dsm_sets p);
    split; reflexivity.
Qed.

(** X4. With a classification and a cross classification asked, on three
    rasters of one shape and at most 20 boundaries, the run from the class
    grids to the masks returns the three masks, and a pixel of the standard
    mask is in the coherent mask where the class grids of the two supports
    agree for every class, and in the incoherent mask elsewhere. *)
Theorem coherent_mask_is_class_agreement_on_standard
    (alti_map support_ref support_dsm : A3DGeoRaster)
    (class_rad_range : list float) :
  length (r support_ref) = length (r alti_map) ->
  length (r support_dsm) = length (r alti_map) ->
  (length class_rad_range <= 20)%nat ->
  exists ref_sets dsm_sets m_std m_coh m_inc no_outliers,
    classify_and_mask alti_map true (Some support_ref) true (Some support_dsm)
                      class_rad_range
      = Ok (Some ref_sets, Some dsm_sets,
            ([m_std; m_coh; m_inc],
             [standard; coherent_classification; incoherent_classification],
             Some no_outliers)) /\
    (exists colors alpha,
       create_sets support_ref class_rad_range (Some classified_nodata)
         = Ok (ref_sets, colors, alpha)) /\
    (exists colors alpha,
       create_sets support_dsm class_rad_range (Some classified_nodata)
         = Ok (dsm_sets, colors, alpha)) /\
    forall (p : nat) (s : bool), m_std !! p = Some s ->
      m_coh !! p = Some (s && agree_at ref_sets dsm_sets p) /\
      m_inc !! p = Some (s && negb (agree_at ref_sets dsm_sets p)).
Proof.
  intros Href Hdsm Hn.
  destruct (classify_and_mask_pixels _ _ _ _ Href Hdsm Hn)
    as (ref_sets & dsm_sets & m_std & m_coh & m_inc & no_outliers
        & Hrun & Hr & Hd & Hpix & _).
  exists ref_sets, dsm_sets, m_std, m_coh, m_inc, no_outliers.
  split; [exact Hrun|]. split; [exact Hr|]. split; [exact Hd|]. exact Hpix.
Qed.

Lemma coherent_mask_is_class_agreement_on_standard_witness :
  length (r support_demo) = length (r alti_demo) /\
  length (r support_other) = length (r alti_demo) /\
  (length boundaries <= 20)%nat /\
  exists ref_sets dsm_sets m_std m_coh m_inc no_outliers,
    classify_and_mask alti_demo true (Some support_demo) true
                      (Some support_other) boundaries
      = Ok (Some ref_sets, Some dsm_sets,
            ([m_std; m_coh; m_inc],
             [standard; coherent_classification; incoherent_classification],
             Some no_outliers)) /\
    (exists colors alpha,
       create_sets support_demo boundaries (Some classified_nodata)
         = Ok (ref_sets, colors, alpha)) /\
    (exists colors alpha,
       create_sets support_other boundaries (Some classified_nodata)
         = Ok (dsm_sets, colors, alpha)) /\
    forall (p : nat) (s : bool), m_std !! p = Some s ->
      m_coh !! p = Some (s && agree_at ref_sets dsm_sets p) /\
      m_inc !! p = Some (s && negb (agree_at ref_sets dsm_sets p)).
Proof.
  split; [reflexivity|]. split; [reflexivity|]. split; [simpl; lia|].
  apply (coherent_mask_is_class_agreement_on_standard
           alti_demo support_demo support_other boundaries);
    [reflexivity | reflexivity | simpl; lia].
Defined.

Lemma agree_with_itself (sets : list (list bool)) (p : nat) :
  agree_at sets sets p = true.
Proof.
  unfold agree_at. apply forallb_forall. intros i _.
  apply Bool.eqb_reflx.
Qed.

(** X5. When the two supports are one raster, the coherent mask is the
    standard mask and the incoherent mask has no pixel. *)
Theorem same_support_leaves_no_incoherent_pixel
    (alti_map support : A3DGeoRaster) (class_rad_range : list float) :
  length (r support) = length (r alti_map) ->
  (length class_rad_range <= 20)%nat ->
  exists sets m_std no_outliers,
    classify_and_mask alti_map true (Some support) true (Some support)
                      class_rad_range
      = Ok (Some sets, Some sets,
            ([m_std; m_std; repeat false (length (r alti_map))],
             [standard; coherent_classification; incoherent_classification],
             Some no_outliers)).
Proof.
  intros Hshape Hn.
  destruct (classify_and_mask_pixels _ _ _ _ Hshape Hshape Hn)
    as (ref_sets & dsm_sets & m_std & m_coh & m_inc & no_outliers
        & Hrun & (c1 & a1 & Hr) & (c2 & a2 & Hd) & Hpix & Ls & Lc & Li).
  rewrite Hr in Hd. injection Hd as <- _ _.
  exists ref_sets, m_std, no_outliers. rewrite Hrun.
  assert (Ec : m_coh = m_std).
  { apply (same_lookups_below (length (r alti_map))); try assumption.
    intros p Hp.
    destruct (lookup_lt_is_Some_2 m_std p ltac:(lia)) as [b Hb].
    destruct (Hpix p b Hb) as [Hc _].
    rewrite Hc, Hb, agree_with_itself, andb_true_r. reflexivity. }
  assert (Ei : m_inc = repeat false (length (r alti_map))).
  { apply (same_lookups_below (length (r alti_map)));
      rewrite ?repeat_length; try assumption; try reflexivity.
    intros p Hp.
    destruct (lookup_lt_is_Some_2 m_std p ltac:(lia)) as [b Hb].
    destruct (Hpix p b Hb) as [_ Hi].
    rewrite Hi, agree_with_itself, andb_false_r.
    symmetry. rewrite <- (repeat_length false (length (r alti_map))) in Hp.
    rewrite (lookup_nth_lt _ p false Hp). f_equal. apply nth_repeat. }
  rewrite Ec, Ei. reflexivity.
Qed.

Lemma same_support_leaves_no_incoherent_pixel_witness :
  length (r support_demo) = length (r alti_demo) /\
  (length boundaries <= 20)%nat /\
  exists sets m_std no_outliers,
    classify_and_mask alti_demo true (Some support_demo) true
                      (Some support_demo) boundaries
      = Ok (Some sets, Some sets,
            ([m_std; m_std; repeat false (length (r alti_demo))],
             [standard; coherent_classification; incoherent_classification],
             Some no_outliers)).
Proof.
  split; [reflexivity|]. split; [simpl; lia|].
  apply (same_support_leaves_no_incoherent_pixel alti_demo support_demo
           boundaries); [reflexivity | simpl; lia].
Defined.

Lemma eqb_zero_inv (x : float) :
  eqb x zero = true -> exists s, x = S754_zero s.
Proof.
  destruct x as [s| [|] | |[|] m e]; try discriminate; eauto.
Qed.

Lemma ltb_between_false (a b x : float) :
  isnan a = true \/ isnan b = true \/ key a = key b ->
  ltb a x && ltb x b = false.
Proof.
  intros H. destruct (ltb a x) eqn:Ea; [|reflexivity].
  destruct (ltb x b) eqn:Eb; [|reflexivity]. exfalso.
  apply F64Facts.ltb_spec in Ea. apply F64Facts.ltb_spec in Eb.
  destruct Ea as (Ha & _ & Hax). destruct Eb as (_ & Hb & Hxb).
  destruct H as [H|[H|H]]; [congruence|congruence|].
  rewrite H in Hax. eapply F64Facts.klt_irrefl, F64Facts.klt_trans; eauto.
Qed.

Lemma three_times_zero_or_nan (sigma : float) :
  isnan sigma = true \/ eqb sigma zero = true ->
  mul (of_Z 3) sigma = S754_nan \/ exists s, mul (of_Z 3) sigma = S754_zero s.
Proof.
  intros [H|H].
  - destruct sigma; try discriminate. left. reflexivity.
  - apply eqb_zero_inv in H as [s ->]. right. exists s.
    destruct s; reflexivity.
Qed.

(** Bounds at no distance of the mean leave no sample inside. *)
Lemma inside_3sigma_zero_deviation (mu sigma x : float) :
  isnan sigma = true \/ eqb sigma zero = true ->
  inside_3sigma mu sigma x = false.
Proof.
  intros H. unfold inside_3sigma, gtb.
  apply ltb_between_false.
  destruct (three_times_zero_or_nan sigma H) as [->|[s ->]].
  - left. destruct mu; reflexivity.
  - destruct mu as [[|]| [|] | |[|] m e], s; simpl; auto.
Qed.

Lemma map_inside_zero_deviation (mu sigma : float) (l : list float) :
  isnan sigma = true \/ eqb sigma zero = true ->
  map (inside_3sigma mu sigma) l = repeat false (length l).
Proof.
  intros H. induction l as [|x l IH]; simpl; [reflexivity|].
  rewrite inside_3sigma_zero_deviation by exact H. rewrite IH. reflexivity.
Qed.

(** X6. When the deviation of the differences that are neither NaN nor
    nodata is zero, as for two identical models, or is NaN, as when no
    difference is valid, the outlier mask keeps no pixel. *)
Theorem outlier_mask_empty_at_zero_deviation
    (alti_map : A3DGeoRaster) (do_classification : bool)
    (ref_support : option A3DGeoRaster) (do_cross : bool)
    (desc : option classified_img)
    (masks : list (list bool)) (modes : list string)
    (no_outliers : option (list bool)) :
  create_masks alti_map do_classification ref_support do_cross desc true
    = Ok (masks, modes, no_outliers) ->
  let kept :=
    List.filter (fun v => negb (isnan v) && neb v (nodata alti_map))
                (r alti_map) in
  isnan (Np.std kept) = true \/ eqb (Np.std kept) zero = true ->
  no_outliers = Some (repeat false (length (r alti_map))).
Proof.
  intros H kept Hsigma. unfold create_masks in H.
  inv_bind H as no_out Hout. cbv beta iota in Hout.
  inv_bind Hout as om Hom. injection Hout as <-.
  unfold get_ouliersfree_mask in Hom.
  rewrite MaskProps.get_nonan_mask_float, select_map in Hom. simpl in Hom.
  injection Hom as <-.
  inv_bind H as m0 Hm0.
  assert (E : no_outliers
              = Some (map (inside_3sigma (Np.mean kept) (Np.std kept))
                          (r alti_map))).
  { destruct (do_classification && do_cross).
    - destruct desc as [d|]; [|discriminate].
      inv_bind H as nd0 Hnd. inv_bind H as coh Hcoh. inv_bind H as inc Hinc.
      injection H as <- <- <-. reflexivity.
    - injection H as <- <- <-. reflexivity. }
  rewrite E. f_equal.
  apply map_inside_zero_deviation. exact Hsigma.
Qed.

Lemma outlier_mask_empty_at_zero_deviation_witness :
  create_masks zeros_4x4 false None false None true
    = Ok ([mask_4x4], [standard], Some (repeat false 16)) /\
  (let kept :=
     List.filter (fun v => negb (isnan v) && neb v (nodata zeros_4x4))
                 (r zeros_4x4) in
   isnan (Np.std kept) = true \/ eqb (Np.std kept) zero = true) /\
  Some (repeat false 16) = Some (repeat false (length (r zeros_4x4))).
Proof.
  assert (H : create_masks zeros_4x4 false None false None true
              = Ok ([mask_4x4], [standard], Some (repeat false 16))).
  { vm_compute. reflexivity. }
  assert (Hs : isnan (Np.std (List.filter
                  (fun v => negb (isnan v) && neb v (nodata zeros_4x4))
                  (r zeros_4x4))) = true
               \/ eqb (Np.std (List.filter
                  (fun v => negb (isnan v) && neb v (nodata zeros_4x4))
                  (r zeros_4x4))) zero = true).
  { right. vm_compute. reflexivity. }
  split; [exact H|]. split; [exact Hs|].
  exact (outlier_mask_empty_at_zero_deviation _ _ _ _ _ _ _ _ H Hs).
Defined.

End PipelineProps.

(** ** The records of [get_stats] *)

Module RecordProps.

Import Py F64 Stats Terms More Samples MoreSamples ListFacts StatsProps CrossProps.

Lemma where_from_length (mask : list bool) :
  forall i, length (Np.where_from i mask) = selected mask.
Proof.
  unfold selected.
  induction mask as [|b mask IH]; intros i; simpl; [reflexivity|].
  destruct b; simpl; rewrite IH; reflexivity.
Qed.

Lemma traverse_length {A B : Type} (f : A -> result B) (l : list A) (bs : list B) :
  traverse f l = Ok bs -> length bs = length l.
Proof.
  intros H. apply traverse_Ok in H.
  symmetry. eapply Forall2_length; eauto.
Qed.

(** Boolean indexing returns as many samples as the mask selects. *)
Lemma select_size {A : Type} (arr : list A) (mask : list bool) (l : list A) :
  Np.select arr mask = Ok l -> Np.size l = Z.of_nat (selected mask).
Proof.
  unfold Np.select, Np.take, Np.where_true, Np.size. intros H.
  apply traverse_length in H. rewrite H, where_from_length. reflexivity.
Qed.

Lemma zip_and_assoc (a b c : list bool) :
  zip_with andb (zip_with andb a b) c = zip_with andb a (zip_with andb b c).
Proof.
  revert b c. induction a as [|x a IH]; intros [|y b] [|z c]; simpl;
    try reflexivity.
  rewrite IH, andb_assoc. reflexivity.
Qed.

Lemma classes_at_tail (sets : list (list bool)) (p : nat) :
  classes_at sets (S p) = classes_at (map (drop 1) sets) p.
Proof.
  unfold classes_at. induction sets as [|s sets IH]; simpl; [reflexivity|].
  assert (E : nth (S p) s false = nth p (drop 1 s) false).
  { destruct s as [|h t]; [destruct p; reflexivity | reflexivity]. }
  rewrite E. destruct (nth p (drop 1 s) false); simpl; rewrite IH; reflexivity.
Qed.

Lemma count_heads (sets : list (list bool)) (b : bool) (k : list bool) :
  Forall (fun s => length s = S (length k)) sets ->
  list_sum (map (fun s => selected (zip_with andb s (b :: k))) sets)
  = ((if b then classes_at sets 0 else 0)
     + list_sum (map (fun s => selected (zip_with andb s k))
                     (map (drop 1) sets)))%nat.
Proof.
  unfold classes_at, selected.
  induction sets as [|s sets IH]; intros Hlen; simpl.
  - destruct b; reflexivity.
  - inversion Hlen as [|? ? Hs Hrest]; subst.
    destruct s as [|h t]; [discriminate|].
    rewrite (IH Hrest). simpl. rewrite drop_0.
    destruct h, b; simpl; lia.
Qed.

(** When every selected pixel is in one class, the classes share out the
    selected pixels. *)
Lemma classes_share_selected (k : list bool) :
  forall sets : list (list bool),
    Forall (fun s => length s = length k) sets ->
    (forall p, k !! p = Some true -> classes_at sets p = 1%nat) ->
    list_sum (map (fun s => selected (zip_with andb s k)) sets) = selected k.
Proof.
  induction k as [|b k IH]; intros sets Hlen Hone.
  - induction sets as [|s sets IHs]; [reflexivity|].
    inversion Hlen as [|? ? Hs Hrest]; subst.
    destruct s; [|discriminate]. simpl. apply IHs; [exact Hrest|].
    intros p Hp. destruct p; discriminate.
  - rewrite count_heads by exact Hlen.
    rewrite IH.
    + unfold selected. destruct b; simpl; [|reflexivity].
      rewrite (Hone 0%nat) by reflexivity. reflexivity.
    + apply Forall_forall. intros s Hs.
      apply list_elem_of_In, in_map_iff in Hs. destruct Hs as (s0 & <- & Hs0).
      rewrite Forall_forall in Hlen.
      specialize (Hlen s0 (proj2 (list_elem_of_In _ _) Hs0)).
      rewrite length_drop, Hlen. simpl. lia.
    + intros p Hp. rewrite <- classes_at_tail. apply Hone. exact Hp.
Qed.

Lemma total_of_nat (counts : list nat) :
  total (map Z.of_nat counts) = Z.of_nat (list_sum counts).
Proof.
  unfold total. induction counts as [|c counts IH]; simpl; [reflexivity|].
  rewrite IH. lia.
Qed.

Lemma map_by_index {A B C : Type} (R : nat -> B -> Prop) (g : B -> C)
    (F : A -> C) (l : list A) (k : list B) :
  Forall2 R (seq 0 (length l)) k ->
  (forall i b, R i b -> exists a, l !! i = Some a /\ g b = F a) ->
  map g k = map F l.
Proof.
  intros H HR.
  assert (Hlen : length k = length l).
  { apply Forall2_length in H. rewrite length_seq in H. lia. }
  apply (same_lookups_below (length l));
    [rewrite length_map; exact Hlen | apply length_map |].
  intros i Hi. rewrite !list_lookup_fmap.
  destruct (lookup_lt_is_Some_2 k i ltac:(lia)) as [b Hb].
  assert (Hseq : seq 0 (length l) !! i = Some i).
  { rewrite lookup_seq. split; [reflexivity | lia]. }
  destruct (HR i b (Forall2_lookup_lr _ _ _ _ _ _ H Hseq Hb)) as (a & Ha & E).
  rewrite Hb, Ha. simpl. f_equal. exact E.
Qed.

(** What [get_stats] returns with classes, when it returns: the record of
    all the pixels, then one record by class, in the order of the classes,
    with its label, its name and the count of the pixels of the class that
    both masks keep. *)
Lemma get_stats_classes (dz_values : list float)
    (to_keep_mask no_outliers_mask : option (list bool))
    (sets : list (list bool)) (labels names : list string)
    (recs : list StatsRecord) :
  get_stats dz_values to_keep_mask no_outliers_mask (Some sets) (Some labels)
            (Some names) = Ok recs ->
  let keep := default (Np.ones (length dz_values)) to_keep_mask in
  let no_out := default (Np.ones (length dz_values)) no_outliers_mask in
  exists all per_set,
    recs = all :: per_set /\
    length keep = length no_out /\
    set_label all = "all"%string /\
    nbpts (stats all) = Z.of_nat (selected (zip_with andb keep no_out)) /\
    Forall2 (fun i rec =>
               exists s, sets !! i = Some s /\
                 length s = length keep /\
                 labels !! i = Some (set_label rec) /\
                 names !! i = Some (set_name rec) /\
                 nbpts (stats rec)
                   = Z.of_nat (selected (zip_with andb s
                                           (zip_with andb keep no_out))))
            (seq 0 (length sets)) per_set.
Proof.
  intros H keep no_out. unfold get_stats in H. fold keep no_out in H.
  inv_bind H as kept Hkept. inv_bind H as data Hdata. inv_bind H as st Hst.
  inv_bind H as pc Hpc. inv_bind H as data90 Hdata90.
  inv_bind H as per_set Hper. injection H as <-.
  apply mul_bool_Ok in Hkept as [Hlen ->].
  eexists _, per_set. split; [reflexivity|]. split; [exact Hlen|].
  split; [reflexivity|]. split.
  - simpl. rewrite (stats_computation_count _ _ Hst).
    apply (select_size _ _ _ Hdata).
  - apply traverse_Ok in Hper.
    eapply Forall2_impl; [exact Hper|].
    intros idx rec Hrec. simpl in Hrec.
    inv_bind Hrec as s Hs. inv_bind Hrec as sk Hsk. inv_bind Hrec as set Hset.
    inv_bind Hrec as d Hd. inv_bind Hrec as st' Hst'.
    inv_bind Hrec as label Hlabel. inv_bind Hrec as name Hname.
    inv_bind Hrec as pc' Hpc'. inv_bind Hrec as d90 Hd90.
    injection Hrec as <-. simpl.
    apply mul_bool_Ok in Hsk as [Hls ->].
    apply mul_bool_Ok in Hset as [_ ->].
    exists s. split; [apply getitem_Ok; exact Hs|].
    split; [exact Hls|].
    split; [apply getitem_Ok; exact Hlabel|].
    split; [apply getitem_Ok; exact Hname|].
    rewrite (stats_computation_count _ _ Hst'), <- zip_and_assoc.
    apply (select_size _ _ _ Hd).
Qed.

(** X7. With classes, [get_stats] returns the record labelled all followed
    by one record by class, in the order of the classes, each with the label
    and the name of its index; so it returns only when every class has a
    label and a name, and labels and names in surplus are not read. *)
Theorem get_stats_one_record_by_class (dz_values : list float)
    (to_keep_mask no_outliers_mask : option (list bool))
    (sets : list (list bool)) (labels names : list string)
    (recs : list StatsRecord) :
  get_stats dz_values to_keep_mask no_outliers_mask (Some sets) (Some labels)
            (Some names) = Ok recs ->
  length recs = S (length sets) /\
  (length sets <= length labels)%nat /\ (length sets <= length names)%nat /\
  map set_label recs = "all"%string :: take (length sets) labels /\
  map set_name (drop 1 recs) = take (length sets) names.
Proof.
  intros H. destruct (get_stats_classes _ _ _ _ _ _ _ H)
    as (all & per_set & -> & _ & Hall & _ & Hper).
  assert (Hlen : length per_set = length sets).
  { apply Forall2_length in Hper. rewrite length_seq in Hper. lia. }
  assert (Hlab : forall i, (i < length sets)%nat ->
            exists rec, per_set !! i = Some rec /\
              labels !! i = Some (set_label rec) /\
              names !! i = Some (set_name rec)).
  { intros i Hi.
    destruct (lookup_lt_is_Some_2 per_set i ltac:(lia)) as [rec Hrec].
    assert (Hseq : seq 0 (length sets) !! i = Some i).
    { rewrite lookup_seq. split; [reflexivity | lia]. }
    destruct (Forall2_lookup_lr _ _ _ _ _ _ Hper Hseq Hrec)
      as (s & _ & _ & Hl & Hn & _).
    eauto. }
  assert (Hll : (length sets <= length labels)%nat).
  { destruct (length sets) as [|n] eqn:E; [lia|].
    destruct (Hlab n ltac:(lia)) as (rec & _ & Hl & _).
    apply lookup_lt_Some in Hl. lia. }
  assert (Hln : (length sets <= length names)%nat).
  { destruct (length sets) as [|n] eqn:E; [lia|].
    destruct (Hlab n ltac:(lia)) as (rec & _ & _ & Hn).
    apply lookup_lt_Some in Hn. lia. }
  split; [simpl; lia|]. split; [exact Hll|]. split; [exact Hln|].
  split.
  - simpl. rewrite Hall. f_equal.
    apply (same_lookups_below (length sets));
      rewrite ?length_map, ?length_take; try lia.
    intros i Hi. destruct (Hlab i Hi) as (rec & Hrec & Hl & _).
    rewrite list_lookup_fmap, Hrec, lookup_take_lt by lia. simpl.
    symmetry. exact Hl.
  - simpl. rewrite drop_0.
    apply (same_lookups_below (length sets));
      rewrite ?length_map, ?length_take; try lia.
    intros i Hi. destruct (Hlab i Hi) as (rec & Hrec & _ & Hn).
    rewrite list_lookup_fmap, Hrec, lookup_take_lt by lia. simpl.
    symmetry. exact Hn.
Qed.

Lemma get_stats_one_record_by_class_witness :
  exists recs,
    get_stats dz_four (Some keep_three) None (Some two_classes)
              (Some ["low"; "high"; "spare"]%string)
              (Some ["[0; 10]"; "[10; inf["]%string) = Ok recs /\
    length recs = S (length two_classes) /\
    (length two_classes <= length ["low"; "high"; "spare"]%string)%nat /\
    (length two_classes <= length ["[0; 10]"; "[10; inf["]%string)%nat /\
    map set_label recs
      = "all"%string
        :: take (length two_classes) ["low"; "high"; "spare"]%string /\
    map set_name (drop 1 recs)
      = take (length two_classes) ["[0; 10]"; "[10; inf["]%string.
Proof.
  assert (H : { recs |
                get_stats dz_four (Some keep_three) None (Some two_classes)
                          (Some ["low"; "high"; "spare"]%string)
                          (Some ["[0; 10]"; "[10; inf["]%string) = Ok recs }).
  { eexists. vm_compute. reflexivity. }
  destruct H as [recs H]. exists recs. split; [exact H|].
  exact (get_stats_one_record_by_class _ _ _ _ _ _ _ H).
Defined.

(** X8. When every pixel that both masks keep is in exactly one class, the
    counts of the class records add up to the count of the record of all
    the pixels. *)
Theorem class_counts_add_up (dz_values : list float)
    (to_keep_mask no_outliers_mask : option (list bool))
    (sets : list (list bool)) (labels names : list string)
    (recs : list StatsRecord) :
  get_stats dz_values to_keep_mask no_outliers_mask (Some sets) (Some labels)
            (Some names) = Ok recs ->
  (forall p,
      default (Np.ones (length dz_values)) to_keep_mask !! p = Some true ->
      default (Np.ones (length dz_values)) no_outliers_mask !! p = Some true ->
      classes_at sets p = 1%nat) ->
  exists all per_set,
    recs = all :: per_set /\
    total (map (fun rec => nbpts (stats rec)) per_set) = nbpts (stats all).
Proof.
  intros H Hone. destruct (get_stats_classes _ _ _ _ _ _ _ H)
    as (all & per_set & -> & Hlen & _ & Hall & Hper).
  set (keep := default (Np.ones (length dz_values)) to_keep_mask) in *.
  set (no_out := default (Np.ones (length dz_values)) no_outliers_mask) in *.
  exists all, per_set. split; [reflexivity|].
  rewrite Hall.
  rewrite (map_by_index _ (fun rec => nbpts (stats rec))
             (fun s => Z.of_nat (selected (zip_with andb s
                                             (zip_with andb keep no_out))))
             sets per_set Hper).
  - rewrite <- (map_map (fun s => selected (zip_with andb s
                                              (zip_with andb keep no_out)))
                        Z.of_nat).
    rewrite total_of_nat. f_equal.
    apply classes_share_selected.
    + apply Forall_forall. intros s Hs.
      apply list_elem_of_lookup_1 in Hs as [i Hi].
      assert (Hseq : seq 0 (length sets) !! i = Some i).
      { rewrite lookup_seq. split; [reflexivity|].
        apply lookup_lt_Some in Hi. exact Hi. }
      destruct (Forall2_lookup_l _ _ _ _ _ Hper Hseq) as (rec & _ & s' & Hs' & Hl & _).
      rewrite Hi in Hs'. injection Hs' as <-.
      rewrite length_zip_with. lia.
    + intros p Hp. rewrite lookup_zip_with in Hp.
      destruct (keep !! p) as [[|]|] eqn:Ek; simpl in Hp; try discriminate;
        destruct (no_out !! p) as [[|]|] eqn:Eo; simpl in Hp; try discriminate.
      apply Hone; assumption.
  - intros i rec (s & Hs & _ & _ & _ & Hn). eauto.
Qed.

Lemma class_counts_add_up_witness :
  exists recs,
    get_stats dz_four (Some keep_three) None (Some two_classes)
              (Some ["low"; "high"]%string)
              (Some ["[0; 10]"; "[10; inf["]%string) = Ok recs /\
    (forall p,
        default (Np.ones (length dz_four)) (Some keep_three) !! p = Some true ->
        default (Np.ones (length dz_four)) None !! p = Some true ->
        classes_at two_classes p = 1%nat) /\
    exists all per_set,
      recs = all :: per_set /\
      total (map (fun rec => nbpts (stats rec)) per_set) = nbpts (stats all).
Proof.
  assert (H : { recs |
                get_stats dz_four (Some keep_three) None (Some two_classes)
                          (Some ["low"; "high"]%string)
                          (Some ["[0; 10]"; "[10; inf["]%string) = Ok recs }).
  { eexists. vm_compute. reflexivity. }
  assert (Hone : forall p,
             default (Np.ones (length dz_four)) (Some keep_three) !! p
               = Some true ->
             default (Np.ones (length dz_four)) None !! p = Some true ->
             classes_at two_classes p = 1%nat).
  { intros [|[|[|[|p]]]] Hk Ho; try reflexivity; discriminate. }
  destruct H as [recs H]. exists recs. split; [exact H|].
  split; [exact Hone|].
  exact (class_counts_add_up _ _ _ _ _ _ _ H Hone).
Defined.

End RecordProps.

(** ** The extreme values of the statistics *)

Module ExtremaProps.

Import Py F64 Stats More Samples MoreSamples F64Facts StatsProps.

Lemma leb_refl (x : float) : isnan x = false -> leb x x = true.
Proof.
  intros H. apply leb_spec. repeat split; try exact H. right. reflexivity.
Qed.

Lemma leb_trans (a b c : float) :
  leb a b = true -> leb b c = true -> leb a c = true.
Proof.
  intros Hab Hbc. apply leb_spec in Hab. apply leb_spec in Hbc.
  destruct Hab as (Ha & _ & Hab). destruct Hbc as (_ & Hc & Hbc).
  apply leb_spec. repeat split; try assumption.
  destruct Hab as [Hab|Hab], Hbc as [Hbc|Hbc].
  - left. eapply klt_trans; eauto.
  - left. rewrite <- Hbc. exact Hab.
  - left. rewrite Hab. exact Hbc.
  - right. congruence.
Qed.

Lemma ltb_leb (x y : float) : ltb x y = true -> leb x y = true.
Proof.
  intros H. apply ltb_spec in H. destruct H as (Hx & Hy & H).
  apply leb_spec. repeat split; try assumption. left. exact H.
Qed.

Lemma maximum_bounds (x y : float) :
  isnan x = false -> isnan y = false ->
  isnan (Np.maximum x y) = false /\
  (Np.maximum x y = x \/ Np.maximum x y = y) /\
  leb x (Np.maximum x y) = true /\ leb y (Np.maximum x y) = true.
Proof.
  intros Hx Hy. unfold Np.maximum. rewrite Hx, Hy.
  destruct (ltb x y) eqn:E.
  - repeat split; auto using ltb_leb, leb_refl.
  - repeat split; auto using leb_refl, not_ltb_leb.
Qed.

Lemma minimum_bounds (x y : float) :
  isnan x = false -> isnan y = false ->
  isnan (Np.minimum x y) = false /\
  (Np.minimum x y = x \/ Np.minimum x y = y) /\
  leb (Np.minimum x y) x = true /\ leb (Np.minimum x y) y = true.
Proof.
  intros Hx Hy. unfold Np.minimum. rewrite Hx, Hy.
  destruct (ltb y x) eqn:E.
  - repeat split; auto using ltb_leb, leb_refl.
  - repeat split; auto using leb_refl, not_ltb_leb.
Qed.

Lemma fold_maximum_bounds (l : list float) :
  forall acc : float,
    isnan acc = false -> Forall (fun v => isnan v = false) l ->
    let m := fold_left Np.maximum l acc in
    isnan m = false /\ (m = acc \/ In m l) /\
    leb acc m = true /\ forall x, In x l -> leb x m = true.
Proof.
  induction l as [|y l IH]; intros acc Hacc Hl; simpl.
  - repeat split; auto using leb_refl; try (intros x []).
  - inversion Hl as [|? ? Hy Hl']; subst.
    destruct (maximum_bounds acc y Hacc Hy) as (Hn & Hor & Ha & Hb).
    destruct (IH (Np.maximum acc y) Hn Hl') as (Hm & Hin & Hle & Hall).
    repeat split.
    + exact Hm.
    + destruct Hin as [E|Hin]; [|right; right; exact Hin].
      rewrite E. destruct Hor as [->| ->]; [left | right; left]; reflexivity.
    + eapply leb_trans; eauto.
    + intros x [<-|Hx]; [eapply leb_trans; eauto | auto].
Qed.

Lemma fold_minimum_bounds (l : list float) :
  forall acc : float,
    isnan acc = false -> Forall (fun v => isnan v = false) l ->
    let m := fold_left Np.minimum l acc in
    isnan m = false /\ (m = acc \/ In m l) /\
    leb m acc = true /\ forall x, In x l -> leb m x = true.
Proof.
  induction l as [|y l IH]; intros acc Hacc Hl; simpl.
  - repeat split; auto using leb_refl; try (intros x []).
  - inversion Hl as [|? ? Hy Hl']; subst.
    destruct (minimum_bounds acc y Hacc Hy) as (Hn & Hor & Ha & Hb).
    destruct (IH (Np.minimum acc y) Hn Hl') as (Hm & Hin & Hle & Hall).
    repeat split.
    + exact Hm.
    + destruct Hin as [E|Hin]; [|right; right; exact Hin].
      rewrite E. destruct Hor as [->| ->]; [left | right; left]; reflexivity.
    + eapply leb_trans; eauto.
    + intros x [<-|Hx]; [eapply leb_trans; eauto | auto].
Qed.

(** X9. On samples none of which is NaN, the [max] and the [min] that
    [stats_computation] returns are samples of the array, and every sample
    lies between them. *)
Theorem max_and_min_bound_the_samples (array : list float) (st : Stats) :
  stats_computation array = Ok st ->
  array <> [] -> Forall (fun v => isnan v = false) array ->
  In (max st) array /\ In (min st) array /\
  forall x, In x array -> leb (min st) x = true /\ leb x (max st) = true.
Proof.
  intros H Hne Hnan. unfold stats_computation in H.
  destruct array as [|a array]; [congruence|].
  replace (Np.size (a :: array) =? 0) with false in H
    by (symmetry; apply Z.eqb_neq; unfold Np.size; simpl; lia).
  cbn [negb Np.max Np.min Py.bind] in H. injection H as <-. simpl max. simpl min.
  inversion Hnan as [|? ? Ha Hrest]; subst.
  destruct (fold_maximum_bounds array a Ha Hrest) as (_ & Hmax & Hamax & Hallmax).
  destruct (fold_minimum_bounds array a Ha Hrest) as (_ & Hmin & Hamin & Hallmin).
  split; [|split].
  - destruct Hmax as [->|Hmax]; [left; reflexivity | right; exact Hmax].
  - destruct Hmin as [->|Hmin]; [left; reflexivity | right; exact Hmin].
  - intros x [<-|Hx]; split; auto.
Qed.

Lemma max_and_min_bound_the_samples_witness :
  exists st,
    stats_computation values_with_outlier = Ok st /\
    values_with_outlier <> [] /\
    Forall (fun v => isnan v = false) values_with_outlier /\
    In (max st) values_with_outlier /\ In (min st) values_with_outlier /\
    forall x, In x values_with_outlier ->
      leb (min st) x = true /\ leb x (max st) = true.
Proof.
  assert (H : { st | stats_computation values_with_outlier = Ok st }).
  { eexists. vm_compute. reflexivity. }
  assert (Hne : values_with_outlier <> []) by discriminate.
  assert (Hnan : Forall (fun v => isnan v = false) values_with_outlier).
  { repeat constructor. }
  destruct H as [st H]. exists st.
  split; [exact H|]. split; [exact Hne|]. split; [exact Hnan|].
  exact (max_and_min_bound_the_samples _ _ H Hne Hnan).
Defined.

Lemma add_nan_r (x : float) : add x S754_nan = S754_nan.
Proof. destruct x; reflexivity. Qed.

Lemma fold_add_nan (l : list float) : fold_left add l S754_nan = S754_nan.
Proof. induction l as [|y l IH]; simpl; [reflexivity | exact IH]. Qed.

Lemma sum_from_nan (l : list float) :
  forall acc, In S754_nan l -> fold_left add l acc = S754_nan.
Proof.
  induction l as [|y l IH]; intros acc Hin; simpl; [destruct Hin|].
  destruct Hin as [->|Hin]; [|auto].
  rewrite add_nan_r. apply fold_add_nan.
Qed.

Lemma add_nan_l (x : float) : add S754_nan x = S754_nan.
Proof. reflexivity. Qed.

(** A NaN among the accumulators or among the samples still to add is
    handed on by a turn of the loop over the blocks. *)
Lemma accumulate_nan (blocks : nat) :
  forall r rest : list float,
    length r = 8%nat -> (8 * blocks <= length rest)%nat ->
    In S754_nan r \/ In S754_nan rest ->
    In S754_nan (fst (Np.accumulate blocks r rest)) \/
    In S754_nan (snd (Np.accumulate blocks r rest)).
Proof.
  induction blocks as [|blocks IH]; intros r rest Hr Hrest Hin; [exact Hin|].
  simpl. apply IH.
  - rewrite length_zip_with, length_firstn, Hr. lia.
  - rewrite length_skipn. lia.
  - assert (Hlen : length (firstn 8 rest) = 8%nat)
      by (rewrite length_firstn; lia).
    destruct Hin as [Hin|Hin].
    + left. apply list_elem_of_In, list_elem_of_lookup_1 in Hin as [j Hj].
      assert (Hlt : (j < 8)%nat) by (apply lookup_lt_Some in Hj; lia).
      destruct (lookup_lt_is_Some_2 (firstn 8 rest) j ltac:(lia)) as [y Hy].
      apply list_elem_of_In. apply (list_elem_of_lookup_2 _ j).
      rewrite lookup_zip_with, Hj. simpl. rewrite Hy. reflexivity.
    + rewrite <- (firstn_skipn 8 rest) in Hin.
      apply in_app_or in Hin as [Hin|Hin]; [left | right; exact Hin].
      apply list_elem_of_In, list_elem_of_lookup_1 in Hin as [j Hj].
      assert (Hlt : (j < 8)%nat) by (apply lookup_lt_Some in Hj; lia).
      destruct (lookup_lt_is_Some_2 r j ltac:(lia)) as [x Hx].
      apply list_elem_of_In. apply (list_elem_of_lookup_2 _ j).
      rewrite lookup_zip_with, Hx. simpl. rewrite Hj. simpl.
      rewrite add_nan_r. reflexivity.
Qed.

Lemma accumulate_length (blocks : nat) :
  forall r rest : list float,
    length r = 8%nat -> (8 * blocks <= length rest)%nat ->
    length (fst (Np.accumulate blocks r rest)) = 8%nat.
Proof.
  induction blocks as [|blocks IH]; intros r rest Hr Hrest; [exact Hr|].
  simpl. apply IH.
  - rewrite length_zip_with, length_firstn, Hr. lia.
  - rewrite length_skipn. lia.
Qed.

Lemma block_sum_nan (a : list float) :
  (8 <= length a)%nat -> In S754_nan a -> Np.block_sum a = S754_nan.
Proof.
  intros Hlen Hin. unfold Np.block_sum.
  pose proof (Nat.div_mod_eq (length a) 8) as Hdiv.
  pose proof (Nat.mod_upper_bound (length a) 8 ltac:(lia)) as Hmod.
  assert (Hr : length (firstn 8 a) = 8%nat) by (rewrite length_firstn; lia).
  assert (Hrest : (8 * (Nat.div (length a) 8 - 1) <= length (skipn 8 a))%nat)
    by (rewrite length_skipn; lia).
  assert (Hsplit : In S754_nan (firstn 8 a) \/ In S754_nan (skipn 8 a)).
  { rewrite <- (firstn_skipn 8 a) in Hin. apply in_app_or in Hin. exact Hin. }
  pose proof (accumulate_nan _ _ _ Hr Hrest Hsplit) as Hnan.
  pose proof (accumulate_length _ _ _ Hr Hrest) as Hacc.
  destruct (Np.accumulate _ (firstn 8 a) (skipn 8 a)) as [r rest].
  simpl in Hnan, Hacc.
  destruct Hnan as [Hnan|Hnan]; [|apply sum_from_nan; exact Hnan].
  replace (add _ _) with S754_nan; [apply fold_add_nan|].
  destruct r as [|r0 [|r1 [|r2 [|r3 [|r4 [|r5 [|r6 [|r7 [|]]]]]]]]];
    try discriminate.
  simpl.
  destruct Hnan as [->|[->|[->|[->|[->|[->|[->|[->|[]]]]]]]]];
    rewrite ?add_nan_r, ?add_nan_l; reflexivity.
Qed.

Lemma pairwise_sum_nan (fuel : nat) :
  forall a : list float,
    In S754_nan a -> Np.pairwise_sum fuel a = S754_nan.
Proof.
  induction fuel as [|fuel IH]; intros a Hin.
  - simpl.
    destruct (Nat.ltb (length a) 8) eqn:E8; [apply sum_from_nan; exact Hin|].
    apply Nat.ltb_ge in E8.
    destruct (Nat.leb (length a) 128); apply block_sum_nan; assumption.
  - rewrite StatsProps.pairwise_sum_S.
    destruct (Nat.ltb (length a) 8) eqn:E8; [apply sum_from_nan; exact Hin|].
    apply Nat.ltb_ge in E8.
    destruct (Nat.leb (length a) 128); [apply block_sum_nan; assumption|].
    set (n2 := (Nat.div (length a) 2 - Nat.modulo (Nat.div (length a) 2) 8)%nat).
    rewrite <- (firstn_skipn n2 a) in Hin.
    apply in_app_or in Hin as [Hin|Hin]; rewrite (IH _ Hin).
    + reflexivity.
    + apply add_nan_r.
Qed.

(** One NaN among the samples makes their sum NaN. *)
Lemma sum_nan (a : list float) : In S754_nan a -> Np.sum a = S754_nan.
Proof.
  intros Hin. unfold Np.sum. rewrite (pairwise_sum_nan _ _ Hin). reflexivity.
Qed.

Lemma maximum_nan_r (x : float) : Np.maximum x S754_nan = S754_nan.
Proof. destruct x; reflexivity. Qed.

Lemma minimum_nan_r (x : float) : Np.minimum x S754_nan = S754_nan.
Proof. destruct x; reflexivity. Qed.

Lemma fold_maximum_nan (l : list float) :
  fold_left Np.maximum l S754_nan = S754_nan.
Proof. induction l as [|y l IH]; simpl; [reflexivity | exact IH]. Qed.

Lemma fold_minimum_nan (l : list float) :
  fold_left Np.minimum l S754_nan = S754_nan.
Proof. induction l as [|y l IH]; simpl; [reflexivity | exact IH]. Qed.

Lemma maximum_from_nan (l : list float) :
  forall acc, In S754_nan l -> fold_left Np.maximum l acc = S754_nan.
Proof.
  induction l as [|y l IH]; intros acc Hin; simpl; [destruct Hin|].
  destruct Hin as [->|Hin]; [|auto].
  rewrite maximum_nan_r. apply fold_maximum_nan.
Qed.

Lemma minimum_from_nan (l : list float) :
  forall acc, In S754_nan l -> fold_left Np.minimum l acc = S754_nan.
Proof.
  induction l as [|y l IH]; intros acc Hin; simpl; [destruct Hin|].
  destruct Hin as [->|Hin]; [|auto].
  rewrite minimum_nan_r. apply fold_minimum_nan.
Qed.

(** X10. One NaN among the samples makes the [max], the [min], the [mean]
    and the sum that [stats_computation] returns NaN, whereas the [median]
    is that of the other samples: it is not NaN when they are finite and
    there is at least one. *)
Theorem nan_sample_spoils_all_but_median (array : list float) (st : Stats) :
  stats_computation array = Ok st ->
  In S754_nan array ->
  max st = S754_nan /\ min st = S754_nan /\ mean st = S754_nan /\
  sum_err st = S754_nan /\
  median st = Np.nanmedian array /\
  (Np.remove_nan array <> [] ->
   Forall (fun v => isfinite v = true) (Np.remove_nan array) ->
   isnan (median st) = false).
Proof.
  intros H Hin. unfold stats_computation in H.
  destruct array as [|a array]; [destruct Hin|].
  replace (Np.size (a :: array) =? 0) with false in H
    by (symmetry; apply Z.eqb_neq; unfold Np.size; simpl; lia).
  cbn [negb Np.max Np.min Py.bind] in H. injection H as <-.
  cbn [max min mean sum_err median].
  assert (Hsum : Np.sum (a :: array) = S754_nan).
  { apply sum_nan. exact Hin. }
  assert (Hmax : fold_left Np.maximum array a = S754_nan).
  { destruct Hin as [->|Hin];
      [apply fold_maximum_nan | apply maximum_from_nan; exact Hin]. }
  assert (Hmin : fold_left Np.minimum array a = S754_nan).
  { destruct Hin as [->|Hin];
      [apply fold_minimum_nan | apply minimum_from_nan; exact Hin]. }
  repeat split; try assumption.
  - unfold Np.mean. rewrite Hsum.
    destruct (of_Z (Np.size (a :: array))); reflexivity.
  - intros Hne Hfin. unfold Np.nanmedian.
    destruct (Np.remove_nan (a :: array)) as [|b rest] eqn:E; [congruence|].
    apply median_not_nan; [discriminate | exact Hfin].
Qed.

Lemma nan_sample_spoils_all_but_median_witness :
  exists st,
    stats_computation values_with_nan = Ok st /\
    In S754_nan values_with_nan /\
    max st = S754_nan /\ min st = S754_nan /\ mean st = S754_nan /\
    sum_err st = S754_nan /\
    median st = Np.nanmedian values_with_nan /\
    (Np.remove_nan values_with_nan <> [] ->
     Forall (fun v => isfinite v = true) (Np.remove_nan values_with_nan) ->
     isnan (median st) = false).
Proof.
  assert (H : { st | stats_computation values_with_nan = Ok st }).
  { eexists. vm_compute. reflexivity. }
  assert (Hin : In S754_nan values_with_nan) by (right; left; reflexivity).
  destruct H as [st H]. exists st.
  split; [exact H|]. split; [exact Hin|].
  exact (nan_sample_spoils_all_but_median _ _ H Hin).
Defined.

End ExtremaProps.

(** ** The comparator on whole files *)

Module ComparatorProps.

Import Py F64 Baseline CsvSpec More Samples MoreSamples ListFacts.

Lemma where_from_In (mask : list bool) :
  forall k i, In i (Np.where_from k mask) ->
    exists j, i = (k + j)%nat /\ mask !! j = Some true.
Proof.
  induction mask as [|b mask IH]; intros k i Hin; simpl in Hin; [destruct Hin|].
  destruct b.
  - destruct Hin as [<-|Hin].
    + exists 0%nat. split; [lia | reflexivity].
    + destruct (IH _ _ Hin) as (j & -> & Hj). exists (S j). split; [lia | exact Hj].
  - destruct (IH _ _ Hin) as (j & -> & Hj). exists (S j). split; [lia | exact Hj].
Qed.

Lemma traverse_In {A B : Type} (f : A -> result B) (l : list A) (bs : list B) (b : B) :
  traverse f l = Ok bs -> In b bs -> exists a, In a l /\ f a = Ok b.
Proof.
  revert bs. induction l as [|a l IH]; simpl; intros bs H Hin.
  - injection H as <-. destruct Hin.
  - inv_bind H as b0 Hb0. inv_bind H as bs' Hbs. injection H as <-.
    destruct Hin as [<-|Hin]; [eauto|].
    destruct (IH _ Hbs Hin) as (a' & Ha' & Hf). eauto.
Qed.

(** A record of [check_row] is a cell of the two rows at which the values
    are not within the tolerance. *)
Lemma check_row_report (header file : string) (epsilon : float)
    (row_ref row_test : string) (ds : list difference) (d : difference) :
  check_row header file epsilon row_ref row_test = Ok ds -> In d ds ->
  csv_file d = file /\
  within epsilon (baseline_val d) (test_val d) = false /\
  exists (i : nat) (f_ref f_test : list float),
    split "," (strip CRLF row_ref) !! 0%nat = Some (class_name d) /\
    traverse float_of_string (tail (split "," (strip CRLF row_ref))) = Ok f_ref /\
    traverse float_of_string (tail (split "," (strip CRLF row_test))) = Ok f_test /\
    f_ref !! i = Some (baseline_val d) /\ f_test !! i = Some (test_val d) /\
    split "," (strip CRLF header) !! (i + 1)%nat = Some (stat_name d).
Proof.
  unfold check_row. intros H Hin.
  inv_bind H as name_ref Hnr. inv_bind H as name_test Hnt.
  destruct (negb (String.eqb name_ref name_test)); [discriminate|].
  inv_bind H as f_ref Hfr. inv_bind H as f_test Hft.
  match type of H with
  | (if ?c then _ else _) = _ => destruct c
  end; [|injection H as <-; destruct Hin].
  destruct (traverse_In _ _ _ _ H Hin) as (i & Hi & Hrep).
  unfold report in Hrep.
  inv_bind Hrep as stat Hstat. inv_bind Hrep as ref Href.
  inv_bind Hrep as test Htest. injection Hrep as <-. simpl.
  apply getitem_Ok in Hstat, Href, Htest, Hnr.
  unfold false_indices, Np.where_true in Hi.
  apply where_from_In in Hi as (j & -> & Hj). simpl in *.
  rewrite list_lookup_fmap, lookup_zip_with, Href in Hj. simpl in Hj.
  rewrite Htest in Hj. simpl in Hj.
  split; [reflexivity|]. split.
  - unfold within. injection Hj as Hj. apply negb_true_iff in Hj. exact Hj.
  - exists j, f_ref, f_test. repeat split; assumption.
Qed.

(** A record of [check_csv] comes from a pair of rows of the same rank. *)
Lemma check_csv_report (csv_ref csv_test : list string) (file : string)
    (epsilon : float) (diffs : list difference) (d : difference) :
  check_csv csv_ref csv_test file epsilon = Ok diffs -> In d diffs ->
  exists (header row_ref row_test : string) (k : nat) (ds : list difference),
    csv_ref !! 0%nat = Some header /\
    csv_ref !! S k = Some row_ref /\ csv_test !! S k = Some row_test /\
    check_row header file epsilon row_ref row_test = Ok ds /\ In d ds.
Proof.
  unfold check_csv. intros H Hin.
  inv_bind H as header Hh. inv_bind H as header_test Hht.
  destruct (negb (String.eqb header header_test)); [discriminate|].
  inv_bind H as per_row Hper. injection H as <-.
  apply in_concat in Hin as (ds & Hds & Hd).
  destruct (traverse_In _ _ _ _ Hper Hds) as ([row_ref row_test] & Hrows & Hrow).
  apply list_elem_of_In, list_elem_of_lookup_1 in Hrows as [k Hk].
  apply lookup_zip_with_Some in Hk as (x & y & E & Hx & Hy).
  injection E as <- <-.
  exists header, row_ref, row_test, k, ds. simpl in Hrow.
  apply getitem_Ok in Hh.
  repeat split; try assumption.
  - destruct csv_ref; [discriminate | exact Hx].
  - destruct csv_test; [discriminate | exact Hy].
Qed.

(** X11. Every record [check_csv] returns is a cell of two rows of the same
    rank, under the column title of the baseline header, with the class
    name of the baseline row and the two values read at that column, and
    these two values are not within the tolerance. *)
Theorem check_csv_reports_cells_out_of_tolerance
    (csv_ref csv_test : list string) (file : string) (epsilon : float)
    (diffs : list difference) (d : difference) :
  check_csv csv_ref csv_test file epsilon = Ok diffs -> In d diffs ->
  csv_file d = file /\
  within epsilon (baseline_val d) (test_val d) = false /\
  exists (header row_ref row_test : string) (k i : nat)
         (f_ref f_test : list float),
    csv_ref !! 0%nat = Some header /\
    csv_ref !! S k = Some row_ref /\ csv_test !! S k = Some row_test /\
    split "," (strip CRLF row_ref) !! 0%nat = Some (class_name d) /\
    traverse float_of_string (tail (split "," (strip CRLF row_ref))) = Ok f_ref /\
    traverse float_of_string (tail (split "," (strip CRLF row_test))) = Ok f_test /\
    f_ref !! i = Some (baseline_val d) /\ f_test !! i = Some (test_val d) /\
    split "," (strip CRLF header) !! (i + 1)%nat = Some (stat_name d).
Proof.
  intros H Hin.
  destruct (check_csv_report _ _ _ _ _ _ H Hin)
    as (header & row_ref & row_test & k & ds & Hh & Hr & Ht & Hrow & Hd).
  destruct (check_row_report _ _ _ _ _ _ _ Hrow Hd)
    as (Hfile & Hout & i & f_ref & f_test & Hname & Hfr & Hft & Hi & Hj & Hs).
  split; [exact Hfile|]. split; [exact Hout|].
  exists header, row_ref, row_test, k, i, f_ref, f_test.
  repeat split; assumption.
Qed.

Lemma check_csv_reports_cells_out_of_tolerance_witness :
  check_csv [header_line; baseline_row] [header_line; test_row_next]
            "stats.csv" zero = Ok [record_next] /\
  In record_next [record_next] /\
  csv_file record_next = "stats.csv"%string /\
  within zero (baseline_val record_next) (test_val record_next) = false /\
  exists (header row_ref row_test : string) (k i : nat)
         (f_ref f_test : list float),
    [header_line; baseline_row] !! 0%nat = Some header /\
    [header_line; baseline_row] !! S k = Some row_ref /\
    [header_line; test_row_next] !! S k = Some row_test /\
    split "," (strip CRLF row_ref) !! 0%nat = Some (class_name record_next) /\
    traverse float_of_string (tail (split "," (strip CRLF row_ref))) = Ok f_ref /\
    traverse float_of_string (tail (split "," (strip CRLF row_test))) = Ok f_test /\
    f_ref !! i = Some (baseline_val record_next) /\
    f_test !! i = Some (test_val record_next) /\
    split "," (strip CRLF header) !! (i + 1)%nat = Some (stat_name record_next).
Proof.
  assert (H : check_csv [header_line; baseline_row] [header_line; test_row_next]
                        "stats.csv" zero = Ok [record_next]).
  { vm_compute. reflexivity. }
  assert (Hin : In record_next [record_next]) by (left; reflexivity).
  split; [exact H|]. split; [exact Hin|].
  exact (check_csv_reports_cells_out_of_tolerance _ _ _ _ _ _ H Hin).
Defined.

Lemma sub_self_zero (x : float) :
  isfinite x = true -> exists s, sub x x = S754_zero s.
Proof.
  destruct x as [[|]| | |s m e]; try discriminate; intros _.
  - exists false. reflexivity.
  - exists false. reflexivity.
  - exists false. unfold sub, SFsub. rewrite Z.sub_diag. reflexivity.
Qed.

Lemma within_self (epsilon x : float) :
  leb zero epsilon = true -> isfinite x = true -> within epsilon x x = true.
Proof.
  intros Heps Hx. unfold within.
  destruct (sub_self_zero x Hx) as [s ->]. exact Heps.
Qed.

(** X12. A file compared with itself, with a tolerance that is not
    negative, yields only records of cells whose value is NaN or infinite. *)
Theorem self_comparison_reports_only_non_finite_cells
    (csv : list string) (file : string) (epsilon : float)
    (diffs : list difference) (d : difference) :
  check_csv csv csv file epsilon = Ok diffs ->
  leb zero epsilon = true -> In d diffs ->
  test_val d = baseline_val d /\ isfinite (baseline_val d) = false.
Proof.
  intros H Heps Hin.
  destruct (check_csv_report _ _ _ _ _ _ H Hin)
    as (header & row_ref & row_test & k & ds & Hh & Hr & Ht & Hrow & Hd).
  rewrite Hr in Ht. injection Ht as <-.
  destruct (check_row_report _ _ _ _ _ _ _ Hrow Hd)
    as (_ & Hout & i & f_ref & f_test & _ & Hfr & Hft & Hi & Hj & _).
  rewrite Hfr in Hft. injection Hft as <-.
  rewrite Hi in Hj. injection Hj as Hj.
  split; [symmetry; exact Hj|].
  rewrite <- Hj in Hout.
  destruct (isfinite (baseline_val d)) eqn:E; [|reflexivity].
  rewrite within_self in Hout by assumption. discriminate.
Qed.

Lemma self_comparison_reports_only_non_finite_cells_witness :
  check_csv [header_line; nan_row] [header_line; nan_row] "stats.csv"
            (dec 1 15) = Ok [record_nan] /\
  leb zero (dec 1 15) = true /\ In record_nan [record_nan] /\
  test_val record_nan = baseline_val record_nan /\
  isfinite (baseline_val record_nan) = false.
Proof.
  assert (H : check_csv [header_line; nan_row] [header_line; nan_row]
                        "stats.csv" (dec 1 15) = Ok [record_nan]).
  { vm_compute. reflexivity. }
  assert (Heps : leb zero (dec 1 15) = true) by (vm_compute; reflexivity).
  assert (Hin : In record_nan [record_nan]) by (left; reflexivity).
  split; [exact H|]. split; [exact Heps|]. split; [exact Hin|].
  exact (self_comparison_reports_only_non_finite_cells _ _ _ _ _ H Heps Hin).
Defined.

Lemma abs_round_sign (s : bool) (m : positive) (e : Z) :
  abs (binary_round prec emax s m e) = abs (binary_round prec emax false m e).
Proof.
  unfold binary_round, binary_round_aux.
  destruct (shl_align m e _) as [mz ez].
  destruct (shr_fexp prec emax (Z.pos mz) ez loc_Exact) as [mrs' e'].
  destruct (shr_fexp prec emax _ e' loc_Exact) as [mrs'' e''].
  destruct (shr_m mrs''); [reflexivity| |reflexivity].
  destruct (e'' <=? emax - prec); reflexivity.
Qed.

Lemma abs_normalize_opp (m e : Z) (sz : bool) :
  abs (binary_normalize prec emax (- m) e sz)
  = abs (binary_normalize prec emax m e sz).
Proof.
  destruct m as [|p|p]; simpl; [reflexivity | | ].
  - apply abs_round_sign.
  - symmetry. apply abs_round_sign.
Qed.

(** The distance of two numbers does not depend on their order. *)
Lemma abs_sub_sym (a b : float) : abs (sub a b) = abs (sub b a).
Proof.
  destruct a as [sa|sa| |sa ma ea], b as [sb|sb| |sb mb eb];
    try (destruct sa, sb; reflexivity); try (destruct sa; reflexivity);
    try (destruct sb; reflexivity); try reflexivity.
  unfold sub, SFsub.
  assert (E : IntDef.Z.min eb ea = IntDef.Z.min ea eb) by apply Z.min_comm.
  rewrite E.
  set (A := cond_Zopp sa (Z.pos (fst (shl_align ma ea (IntDef.Z.min ea eb))))).
  set (B := cond_Zopp sb (Z.pos (fst (shl_align mb eb (IntDef.Z.min ea eb))))).
  replace (B - A) with (- (A - B)) by lia.
  symmetry. apply abs_normalize_opp.
Qed.

Lemma results_sym (epsilon : float) (f_ref f_test : list float) :
  zip_with (fun ref test => leb (abs (sub ref test)) epsilon) f_test f_ref
  = zip_with (fun ref test => leb (abs (sub ref test)) epsilon) f_ref f_test.
Proof.
  revert f_test. induction f_ref as [|a f_ref IH]; intros [|b f_test]; simpl;
    try reflexivity.
  rewrite IH, (abs_sub_sym b a). reflexivity.
Qed.

Lemma report_swapped (header_cols : list string) (file name : string)
    (f_ref f_test : list float) (i : nat) (d : difference) :
  report header_cols file name f_ref f_test i = Ok d ->
  report header_cols file name f_test f_ref i = Ok (swapped d).
Proof.
  unfold report. intros H.
  inv_bind H as stat Hstat. inv_bind H as ref Href. inv_bind H as test Htest.
  injection H as <-. rewrite Hstat, Htest, Href. reflexivity.
Qed.

Lemma traverse_map {A B : Type} (f g : A -> result B) (h : B -> B) (l : list A) :
  (forall a b, f a = Ok b -> g a = Ok (h b)) ->
  forall bs, traverse f l = Ok bs -> traverse g l = Ok (map h bs).
Proof.
  intros Hfg. induction l as [|a l IH]; simpl; intros bs H.
  - injection H as <-. reflexivity.
  - inv_bind H as b Hb. inv_bind H as bs' Hbs. injection H as <-.
    rewrite (Hfg a b Hb). simpl. rewrite (IH bs' Hbs). reflexivity.
Qed.

Lemma check_row_swapped (header file : string) (epsilon : float)
    (row_ref row_test : string) (ds : list difference) :
  check_row header file epsilon row_ref row_test = Ok ds ->
  check_row header file epsilon row_test row_ref = Ok (map swapped ds).
Proof.
  unfold check_row. intros H.
  inv_bind H as name_ref Hnr. inv_bind H as name_test Hnt.
  destruct (String.eqb name_ref name_test) eqn:En; [|discriminate].
  apply String.eqb_eq in En. subst name_test. cbn [negb] in H.
  inv_bind H as f_ref Hfr. inv_bind H as f_test Hft.
  rewrite Hnt. cbn [Py.bind]. rewrite Hnr. cbn [Py.bind].
  rewrite String.eqb_refl. cbn [negb].
  rewrite Hft, Hfr. cbn [Py.bind]. rewrite results_sym.
  match type of H with
  | (if ?c then _ else _) = _ => destruct c
  end; [|injection H as <-; reflexivity].
  apply (traverse_map _ _ swapped _ (report_swapped _ _ _ _ _) _ H).
Qed.

Lemma traverse_zip_swapped {A B : Type} (F G : A * A -> result (list B))
    (h : B -> B) :
  (forall x y bs, F (x, y) = Ok bs -> G (y, x) = Ok (map h bs)) ->
  forall (l k : list A) (per : list (list B)),
    traverse F (zip l k) = Ok per ->
    traverse G (zip k l) = Ok (map (map h) per).
Proof.
  intros HFG. induction l as [|x l IH]; intros [|y k] per H; simpl in *;
    try (injection H as <-; reflexivity).
  inv_bind H as bs Hbs. inv_bind H as per' Hper. injection H as <-.
  rewrite (HFG x y bs Hbs). simpl. rewrite (IH k per' Hper). reflexivity.
Qed.

(** X13. The comparison does not depend on which file is the baseline: when
    [check_csv] returns, it returns from the two files exchanged the same
    records with the two values exchanged. *)
Theorem check_csv_symmetric (csv_ref csv_test : list string) (file : string)
    (epsilon : float) (diffs : list difference) :
  check_csv csv_ref csv_test file epsilon = Ok diffs ->
  check_csv csv_test csv_ref file epsilon = Ok (map swapped diffs).
Proof.
  unfold check_csv. intros H.
  inv_bind H as header Hh. inv_bind H as header_test Hht.
  destruct (String.eqb header header_test) eqn:En; [|discriminate].
  apply String.eqb_eq in En. subst header_test. cbn [negb] in H.
  inv_bind H as per_row Hper. injection H as <-.
  rewrite Hht. cbn [Py.bind]. rewrite Hh. cbn [Py.bind].
  rewrite String.eqb_refl. cbn [negb].
  rewrite (traverse_zip_swapped
             (fun rows => check_row header file epsilon (fst rows) (snd rows))
             (fun rows => check_row header file epsilon (fst rows) (snd rows))
             swapped
             (fun x y bs => check_row_swapped header file epsilon x y bs)
             _ _ _ Hper).
  cbn [Py.bind]. rewrite concat_map. reflexivity.
Qed.

Lemma check_csv_symmetric_witness :
  check_csv [header_line; baseline_row] [header_line; test_row_next]
            "stats.csv" zero = Ok [record_next] /\
  check_csv [header_line; test_row_next] [header_line; baseline_row]
            "stats.csv" zero = Ok (map swapped [record_next]).
Proof.
  assert (H : check_csv [header_line; baseline_row]
                        [header_line; test_row_next] "stats.csv" zero
              = Ok [record_next]).
  { vm_compute. reflexivity. }
  split; [exact H|].
  exact (check_csv_symmetric _ _ _ _ _ H).
Defined.

Lemma list_sum_zero (l : list nat) :
  list_sum l = 0%nat <-> Forall (fun n => n = 0%nat) l.
Proof.
  induction l as [|n l IH]; simpl.
  - split; [constructor | reflexivity].
  - split.
    + intros H. constructor; [lia | apply IH; lia].
    + intros H. inversion H as [|? ? Hn Hl]; subst. apply IH in Hl. lia.
Qed.

(** X14. [main] returns without raising exactly when the two directories
    hold as many CSV files and [check_csv] returns no record for every pair
    of files of the same rank. *)
Theorem main_passes_iff_no_record
    (baseline_data test_data : list (list string))
    (baseline_csv_files : list string) (epsilon : float) :
  main baseline_data test_data baseline_csv_files epsilon = Ok tt <->
  length baseline_data = length test_data /\
  forall files,
    In files (zip (zip baseline_data test_data) baseline_csv_files) ->
    check_csv (fst (fst files)) (snd (fst files)) (snd files) epsilon = Ok [].
Proof.
  unfold main. split.
  - intros H.
    destruct (Nat.eqb (length baseline_data) (length test_data)) eqn:E;
      [|discriminate].
    apply Nat.eqb_eq in E. split; [exact E|]. cbn [negb] in H.
    inv_bind H as differences Hd.
    destruct (Nat.eqb (list_sum (map (@length difference) differences)) 0)
      eqn:E0; [|discriminate].
    apply Nat.eqb_eq, list_sum_zero in E0.
    apply traverse_Ok in Hd.
    intros files Hin.
    apply list_elem_of_In, list_elem_of_lookup_1 in Hin as [k Hk].
    destruct (Forall2_lookup_l _ _ _ _ _ Hd Hk) as (ds & Hds & Hrun).
    rewrite Hrun. f_equal.
    rewrite Forall_forall in E0.
    assert (Hlen : length ds = 0%nat).
    { apply E0. apply list_elem_of_In, in_map.
      apply list_elem_of_In. eapply list_elem_of_lookup_2. exact Hds. }
    destruct ds; [reflexivity | discriminate].
  - intros [E Hall].
    rewrite E, Nat.eqb_refl. cbn [negb].
    rewrite (traverse_all_Ok _ (fun _ => []))
      by (intros files Hin; apply Hall; exact Hin).
    cbn [Py.bind].
    replace (list_sum _) with 0%nat; [reflexivity|].
    symmetry. apply list_sum_zero. rewrite map_map. simpl.
    apply Forall_forall. intros n Hn.
    apply list_elem_of_In, in_map_iff in Hn. destruct Hn as (_ & <- & _).
    reflexivity.
Qed.

Lemma zip_take_header (data : list (list string)) :
  forall files : list string * list string,
    In files (zip data (map (take 1) data)) ->
    snd files = take 1 (fst files) /\ In (fst files) data.
Proof.
  induction data as [|f data IH]; simpl; intros files Hin; [destruct Hin|].
  destruct Hin as [<-|Hin]; [simpl; auto|].
  destruct (IH files Hin) as [E Hf]. auto.
Qed.

(** X15. [main] accepts any output directory whose files are those of the
    baseline cut after their header line: rows that are missing are not
    looked for. *)
Theorem main_accepts_files_cut_after_header
    (baseline_data : list (list string)) (baseline_csv_files : list string)
    (epsilon : float) :
  Forall (fun csv => csv <> []) baseline_data ->
  main baseline_data (map (take 1) baseline_data) baseline_csv_files epsilon
    = Ok tt.
Proof.
  intros Hne. unfold main. rewrite length_map, Nat.eqb_refl. cbn [negb].
  rewrite (traverse_all_Ok _ (fun _ => [])).
  - cbn [Py.bind].
    replace (list_sum _) with 0%nat; [reflexivity|].
    symmetry. apply list_sum_zero. rewrite map_map. simpl.
    apply Forall_forall. intros n Hn.
    apply list_elem_of_In, in_map_iff in Hn. destruct Hn as (_ & <- & _).
    reflexivity.
  - intros [[ref tst] file] Hin. simpl.
    apply list_elem_of_In, list_elem_of_lookup_1 in Hin as [k Hk].
    apply lookup_zip_with_Some in Hk as (x & y & E & Hx & _).
    injection E as <- <-.
    apply list_elem_of_lookup_2, list_elem_of_In, zip_take_header in Hx
      as [Et Hr].
    simpl in Et, Hr. subst tst.
    rewrite Forall_forall in Hne.
    specialize (Hne ref (proj2 (list_elem_of_In _ _) Hr)).
    destruct ref as [|header rows]; [congruence|].
    unfold check_csv. simpl. rewrite String.eqb_refl. simpl.
    destruct rows; reflexivity.
Qed.

Lemma main_accepts_files_cut_after_header_witness :
  Forall (fun csv => csv <> [])
         [[header_line; baseline_row]; [header_line; nan_row]] /\
  main [[header_line; baseline_row]; [header_line; nan_row]]
       (map (take 1) [[header_line; baseline_row]; [header_line; nan_row]])
       ["stats_results_standard.csv"; "stats_results_coherent.csv"]%string
       (dec 1 15)
    = Ok tt.
Proof.
  assert (H : Forall (fun csv => csv <> [])
                     [[header_line; baseline_row]; [header_line; nan_row]]).
  { repeat constructor; discriminate. }
  split; [exact H|].
  exact (main_accepts_files_cut_after_header _ _ _ H).
Defined.

End ComparatorProps.

(** ** Labels, names and class grids *)

Module LabelProps.

Import Py F64 Stats Terms More Samples MoreSamples ListFacts ClassProps
       StatsProps RecordProps.

Section Labels.

Variable format : float -> string.

Lemma labels_and_names_length (class_type : string) (class_rad_range : list float) :
  length (fst (get_sets_labels_and_names format class_type class_rad_range))
    = length class_rad_range /\
  length (snd (get_sets_labels_and_names format class_type class_rad_range))
    = length class_rad_range.
Proof.
  unfold get_sets_labels_and_names. simpl.
  rewrite !length_map, length_seq. split; reflexivity.
Qed.

(** X16. The labels and the names [get_sets_labels_and_names] makes for the
    boundaries fit the class grids [create_sets] makes for them: on a
    difference raster of the shape of the support, with at least one pixel
    and masks of its shape, [get_stats] returns one record for all the
    pixels and one for each boundary. *)
Theorem labels_and_names_fit_the_class_grids
    (class_type : string) (support : A3DGeoRaster) (class_rad_range : list float)
    (desc : option (list Z)) (sets : list (list bool)) (colors : colormap)
    (alpha : option (list Z)) (dz_values : list float)
    (to_keep_mask no_outliers_mask : option (list bool)) :
  create_sets support class_rad_range desc = Ok (sets, colors, alpha) ->
  dz_values <> [] -> length (r support) = length dz_values ->
  same_shape dz_values to_keep_mask -> same_shape dz_values no_outliers_mask ->
  exists recs,
    get_stats dz_values to_keep_mask no_outliers_mask (Some sets)
      (Some (fst (get_sets_labels_and_names format class_type class_rad_range)))
      (Some (snd (get_sets_labels_and_names format class_type class_rad_range)))
      = Ok recs /\
    length recs = S (length class_rad_range).
Proof.
  intros Hsets Hne Hshape Hk Ho.
  destruct (create_sets_inv _ _ _ _ _ _ Hsets) as [_ Esets].
  assert (Hlen : length sets = length class_rad_range).
  { rewrite Esets, length_map, length_seq. reflexivity. }
  destruct (labels_and_names_length class_type class_rad_range) as [Hl Hn].
  destruct (get_stats_returns dz_values to_keep_mask no_outliers_mask
              (Some sets)
              (Some (fst (get_sets_labels_and_names format class_type
                                                    class_rad_range)))
              (Some (snd (get_sets_labels_and_names format class_type
                                                    class_rad_range)))
              Hne Hk Ho) as [recs Hrecs].
  - split; [|split; lia].
    rewrite Esets. apply Forall_forall. intros set Hset.
    apply list_elem_of_In, in_map_iff in Hset. destruct Hset as (idx & <- & _).
    rewrite assign_where_length, length_map. exact Hshape.
  - exists recs. split; [exact Hrecs|].
    destruct (get_stats_classes _ _ _ _ _ _ _ Hrecs)
      as (all & per_set & -> & _ & _ & _ & Hper).
    apply Forall2_length in Hper. rewrite length_seq in Hper.
    simpl. lia.
Qed.

End Labels.

Lemma labels_and_names_fit_the_class_grids_witness :
  exists sets colors alpha,
    create_sets support_demo boundaries None = Ok (sets, colors, alpha) /\
    dz_four <> [] /\ length (r support_demo) = length dz_four /\
    same_shape dz_four (Some keep_three) /\ same_shape dz_four None /\
    exists recs,
      get_stats dz_four (Some keep_three) None (Some sets)
        (Some (fst (get_sets_labels_and_names format_demo "slope" boundaries)))
        (Some (snd (get_sets_labels_and_names format_demo "slope" boundaries)))
        = Ok recs /\
      length recs = S (length boundaries).
Proof.
  assert (H : { built | create_sets support_demo boundaries None = Ok built }).
  { eexists. vm_compute. reflexivity. }
  destruct H as [[[sets colors] alpha] H].
  assert (Hne : dz_four <> []) by discriminate.
  assert (Hshape : length (r support_demo) = length dz_four) by reflexivity.
  assert (Hk : same_shape dz_four (Some keep_three)) by reflexivity.
  assert (Ho : same_shape dz_four None) by exact I.
  exists sets, colors, alpha.
  split; [exact H|]. split; [exact Hne|]. split; [exact Hshape|].
  split; [exact Hk|]. split; [exact Ho|].
  exact (labels_and_names_fit_the_class_grids format_demo "slope" _ _ _ _ _ _
           _ _ _ H Hne Hshape Hk Ho).
Defined.

End LabelProps.

(** ** The modes loop on the store *)

Module ModeProps.

Import Py F64 Stats Heap More Samples MoreSamples ListFacts StatsProps
       RecordProps PipelineProps.

Lemma fresh_unused (s : gmap loc obj) : s !! fresh (dom s) = None.
Proof. apply not_elem_of_dom. apply is_fresh. Qed.

Lemma lookup_after_alloc (s : gmap loc obj) (o o' : obj) (l : loc) :
  s !! l = Some o -> <[fresh (dom s) := o']> s !! l = Some o.
Proof.
  intros H. rewrite lookup_insert_ne; [exact H|].
  intros E. rewrite <- E, fresh_unused in H. discriminate.
Qed.

Lemma outliers_mask_shape (array : list float) (nan_value : float) :
  exists m, get_ouliersfree_mask array (get_nonan_mask array nan_value) = Ok m /\
            length m = length array.
Proof.
  unfold get_ouliersfree_mask, get_nonan_mask.
  rewrite select_map. cbn [Py.bind]. eexists. split; [reflexivity|].
  apply length_map.
Qed.

Section Modes.

Variable curve_fit_converges : list float -> bool.

Lemma mode_step_unclassified (s : gmap loc obj) (alti_r no_l keep_l : loc)
    (bin_step : float) (labels names : option (list string))
    (colors : list color) (dz : list float) (keep no_out : list bool) :
  s !! alti_r = Some (FloatArray dz) -> dz <> [] ->
  s !! keep_l = Some (BoolArray keep) -> s !! no_l = Some (BoolArray no_out) ->
  length keep = length dz -> length no_out = length dz ->
  fst (mode_step curve_fit_converges alti_r bin_step no_l None labels names
                 colors keep_l s) = Raise TypeError.
Proof.
  intros Hdz Hne Hk Ho Lk Lo.
  destruct (get_stats_returns dz (Some keep) (Some no_out) None labels names
              Hne Lk Lo I) as [recs Hrecs].
  unfold mode_step, bindM, float_array, bool_array, ret, lift.
  rewrite Hdz, Hk, Ho, Hrecs.
  rewrite mul_bool_same_shape by lia.
  reflexivity.
Qed.

Lemma create_masks_unclassified (s : gmap loc obj) (alti_map : raster_ref)
    (support : option raster_ref) (do_cross : bool)
    (desc : option classified_img) (dz : list float) :
  s !! samples alti_map = Some (FloatArray dz) ->
  exists (l0 l1 : loc) (free : list bool) (s' : gmap loc obj),
    create_masks alti_map false support do_cross desc true s
      = (Ok ([l0], [standard], Some l1), s') /\
    s' !! samples alti_map = Some (FloatArray dz) /\
    s' !! l0 = Some (BoolArray (get_nonan_mask dz (nodata_value alti_map))) /\
    s' !! l1 = Some (BoolArray free) /\
    length free = length dz.
Proof.
  intros Hdz.
  destruct (outliers_mask_shape dz (nodata_value alti_map))
    as (free & Hfree & Lfree).
  unfold create_masks, standard_mask, bindM, float_array, alloc, bool_array,
    lift, ret.
  rewrite Hdz. cbn [andb]. rewrite lookup_insert_eq. rewrite Hfree.
  eexists _, _, free, _. split; [reflexivity|].
  split; [|split; [|split]].
  - apply lookup_after_alloc, lookup_after_alloc. exact Hdz.
  - apply lookup_after_alloc. apply lookup_insert_eq.
  - apply lookup_insert_eq.
  - exact Lfree.
Qed.

(** X17. With no classification asked, [alti_diff_stats] does not complete
    on a difference raster that has a pixel: the statistics of the standard
    mode are computed, then the list of the class grids, which is None, is
    appended to a list for the histograms, and the TypeError of that
    ends the run. *)
Theorem unclassified_run_raises_TypeError
    (s : gmap loc obj) (alti_map : raster_ref) (bin_step : float)
    (support : option raster_ref) (class_rad_range : list float)
    (sets_labels sets_names : option (list string)) (sets_color : list color)
    (do_cross : bool) (ref_classified : option classified_img)
    (dz : list float) :
  s !! samples alti_map = Some (FloatArray dz) -> dz <> [] ->
  fst (alti_diff_stats curve_fit_converges alti_map bin_step false support
                       class_rad_range sets_labels sets_names sets_color
                       do_cross ref_classified s)
    = Raise TypeError.
Proof.
  intros Hdz Hne.
  destruct (create_masks_unclassified s alti_map support do_cross
              ref_classified dz Hdz)
    as (l0 & l1 & free & s' & Hmasks & Hdz' & Hl0 & Hl1 & Lfree).
  unfold alti_diff_stats. unfold bindM at 1. cbn [ret].
  unfold bindM at 1. rewrite Hmasks.
  unfold run_modes. rewrite HeapProps.traverseM_cons.
  pose proof (mode_step_unclassified s' (samples alti_map) l1 l0 bin_step
                sets_labels sets_names sets_color dz _ free Hdz' Hne Hl0 Hl1
                ltac:(apply length_map) Lfree) as Hstep.
  destruct (mode_step _ _ _ _ _ _ _ _ _ s') as [[res|e] s''];
    simpl in Hstep; [discriminate|].
  injection Hstep as ->. reflexivity.
Qed.

Lemma select_no_pixel {A : Type} (arr : list A) (mask : list bool) :
  selected mask = 0%nat -> Np.select arr mask = Ok [].
Proof.
  intros H. unfold Np.select, Np.where_true, Np.take.
  rewrite <- (where_from_length mask 0) in H.
  destruct (Np.where_from 0 mask); [reflexivity | discriminate].
Qed.

(** The bound of the bins cannot be computed when the mask selects no
    pixel. *)
Lemma plot_histograms_no_pixel (s : gmap loc obj) (input mask : loc)
    (bin_step : float) (sets : option loc) (labels : option (list string))
    (colors : option (list color)) (a : list float) (m : list bool) :
  s !! input = Some (FloatArray a) -> s !! mask = Some (BoolArray m) ->
  selected m = 0%nat ->
  fst (plot_histograms curve_fit_converges input bin_step (Some mask) sets
                       labels colors s) = Raise ValueError.
Proof.
  intros Ha Hm Hsel.
  unfold plot_histograms, bindM, float_array, bool_array, ret, lift.
  rewrite Ha, Hm, (select_no_pixel a m Hsel). reflexivity.
Qed.

Lemma read_grids (s : gmap loc obj) (items : list loc) (grids : list (list bool)) :
  Forall2 (fun g grid => s !! g = Some (BoolArray grid)) items grids ->
  traverseM bool_array items s = (Ok grids, s).
Proof.
  induction 1 as [|g grid items grids Hg _ IH]; [reflexivity|].
  rewrite HeapProps.traverseM_cons. unfold bool_array at 1.
  rewrite Hg, IH. reflexivity.
Qed.

Lemma mode_step_no_pixel
    (s : gmap loc obj) (alti_r no_l keep_l sets_l : loc) (bin_step : float)
    (labels : list string) (names : option (list string))
    (colors : list color) (dz : list float) (keep no_out : list bool)
    (items : list loc) (grids : list (list bool)) (recs : list StatsRecord) :
  s !! alti_r = Some (FloatArray dz) ->
  s !! keep_l = Some (BoolArray keep) -> s !! no_l = Some (BoolArray no_out) ->
  s !! sets_l = Some (PyList items) ->
  Forall2 (fun g grid => s !! g = Some (BoolArray grid)) items grids ->
  get_stats dz (Some keep) (Some no_out) (Some grids) (Some labels) names
    = Ok recs ->
  selected (zip_with andb keep no_out) = 0%nat ->
  fst (mode_step curve_fit_converges alti_r bin_step no_l (Some sets_l)
                 (Some labels) names colors keep_l s) = Raise ValueError.
Proof.
  intros Hdz Hk Ho Hsets Hgrids Hrecs Hsel.
  assert (Hlen : length keep = length no_out).
  { unfold get_stats in Hrecs. simpl in Hrecs.
    inv_bind Hrecs as kept Hkept. apply mul_bool_Ok in Hkept as [E _].
    exact E. }
  unfold mode_step.
  unfold bindM at 1. unfold float_array at 1. rewrite Hdz.
  unfold bindM at 1. unfold bool_array at 1. rewrite Hk.
  unfold bindM at 1. unfold bool_array at 1. rewrite Ho.
  unfold bindM at 1. unfold bindM at 1. unfold py_list at 1. rewrite Hsets.
  unfold bindM at 1. rewrite (read_grids s items grids Hgrids). cbn [ret].
  unfold bindM at 1. unfold lift at 1. rewrite Hrecs.
  unfold bindM at 1. unfold lift at 1. rewrite (mul_bool_same_shape _ _ Hlen).
  unfold bindM at 1. unfold alloc at 1.
  unfold bindM at 1. unfold alloc at 1.
  set (s1 := <[fresh (dom s) := BoolArray (zip_with andb keep no_out)]> s).
  set (s2 := <[fresh (dom s1) := BoolArray (Np.ones (length dz))]> s1).
  unfold bindM at 1. unfold py_list at 1.
  assert (Hsets2 : s2 !! sets_l = Some (PyList items)).
  { apply lookup_after_alloc, lookup_after_alloc. exact Hsets. }
  rewrite Hsets2.
  unfold bindM at 1. unfold alloc at 1.
  set (s3 := <[fresh (dom s2) := PyList (fresh (dom s1) :: items)]> s2).
  unfold bindM at 1. cbn [ret].
  assert (Hdz3 : s3 !! alti_r = Some (FloatArray dz)).
  { apply lookup_after_alloc, lookup_after_alloc, lookup_after_alloc.
    exact Hdz. }
  assert (Hkept3 : s3 !! fresh (dom s)
                   = Some (BoolArray (zip_with andb keep no_out))).
  { apply lookup_after_alloc, lookup_after_alloc. apply lookup_insert_eq. }
  assert (Hplot := plot_histograms_no_pixel s3 alti_r (fresh (dom s)) bin_step
                     (Some (fresh (dom s2)))
                     (Some ("all"%string :: labels))
                     (Some (black :: colors)) dz
                     (zip_with andb keep no_out) Hdz3 Hkept3 Hsel).
  unfold bindM.
  destruct (plot_histograms _ _ _ _ _ _ _ s3) as [[res|e] s4];
    simpl in Hplot |- *; [discriminate|].
  injection Hplot as ->. reflexivity.
Qed.

(** X18. A mode whose mask and the outlier mask have no pixel in common
    ends the run: its statistics are computed, then [plot_histograms]
    raises ValueError on the bounds of no sample, before any result of the
    mode is saved. *)
Theorem mode_without_pixel_raises_ValueError
    (s : gmap loc obj) (alti_r no_l keep_l sets_l : loc) (bin_step : float)
    (labels : list string) (names : option (list string))
    (colors : list color) (dz : list float) (keep no_out : list bool)
    (items : list loc) (grids : list (list bool)) (recs : list StatsRecord) :
  s !! alti_r = Some (FloatArray dz) ->
  s !! keep_l = Some (BoolArray keep) -> s !! no_l = Some (BoolArray no_out) ->
  s !! sets_l = Some (PyList items) ->
  Forall2 (fun g grid => s !! g = Some (BoolArray grid)) items grids ->
  get_stats dz (Some keep) (Some no_out) (Some grids) (Some labels) names
    = Ok recs ->
  selected (zip_with andb keep no_out) = 0%nat ->
  fst (mode_step curve_fit_converges alti_r bin_step no_l (Some sets_l)
                 (Some labels) names colors keep_l s) = Raise ValueError.
Proof.
  intros Hdz Hk Ho Hsets Hgrids Hrecs Hsel.
  eapply mode_step_no_pixel; eassumption.
Qed.

(** The grids [create_sets] leaves on the store. *)
Lemma alloc_all_run {X : Type} (f : X -> obj) (xs : list X) :
  forall s : gmap loc obj,
    exists (locs : list loc) (s' : gmap loc obj),
      traverseM (fun x => alloc (f x)) xs s = (Ok locs, s') /\
      s ⊆ s' /\
      Forall2 (fun l x => s' !! l = Some (f x)) locs xs.
Proof.
  induction xs as [|x xs IH]; intros s.
  - exists [], s. repeat split; [reflexivity | constructor].
  - rewrite HeapProps.traverseM_cons.
    change (alloc (f x) s)
      with (Ok (fresh (dom s)) : result loc, <[fresh (dom s) := f x]> s).
    destruct (IH (<[fresh (dom s) := f x]> s)) as (locs & s' & -> & Hsub & Hall).
    exists (fresh (dom s) :: locs), s'. split; [reflexivity|]. split.
    + etransitivity; [|exact Hsub]. apply insert_subseteq, fresh_unused.
    + constructor; [|exact Hall].
      eapply lookup_weaken; [apply lookup_insert_eq | exact Hsub].
Qed.

Lemma update_all_run (locs : list loc) (F : list bool -> list bool) (n : nat) :
  (forall a, length (F a) = length a) ->
  forall (idxs : list nat) (s : gmap loc obj),
    Forall (fun i => (i < length locs)%nat) idxs ->
    Forall (fun l => exists a, s !! l = Some (BoolArray a) /\ length a = n)
           locs ->
    exists (us : list unit) (s' : gmap loc obj),
      traverseM (fun idx => bindM (lift (getitem locs idx))
                              (fun g => update_bool g (fun set => Ok (F set))))
                idxs s = (Ok us, s') /\
      Forall (fun l => exists a, s' !! l = Some (BoolArray a) /\ length a = n)
             locs.
Proof.
  intros HF. induction idxs as [|i idxs IH]; intros s Hidx Hlocs.
  - exists [], s. split; [reflexivity | exact Hlocs].
  - inversion Hidx as [|? ? Hi Hrest]; subst.
    destruct (lookup_lt_is_Some_2 locs i Hi) as [g Hg].
    rewrite Forall_forall in Hlocs.
    destruct (Hlocs g (list_elem_of_lookup_2 _ _ _ Hg)) as (a & Ha & La).
    rewrite HeapProps.traverseM_cons.
    unfold bindM at 1, lift at 1, update_bool at 1.
    rewrite (proj2 (getitem_Ok _ _ _) Hg), Ha.
    destruct (IH (<[g := BoolArray (F a)]> s) Hrest) as (us & s' & -> & Hs').
    + apply Forall_forall. intros l Hl.
      destruct (decide (l = g)) as [->|Hne].
      * exists (F a). rewrite lookup_insert_eq, HF. auto.
      * rewrite lookup_insert_ne by congruence. apply Hlocs. exact Hl.
    + exists (tt :: us), s'. split; [reflexivity | exact Hs'].
Qed.

Lemma Forall_to_Forall2 {A B : Type} (P : A -> B -> Prop) (Q : B -> Prop)
    (l : list A) :
  Forall (fun a => exists b, P a b /\ Q b) l ->
  exists k, Forall2 P l k /\ Forall Q k.
Proof.
  induction 1 as [|a l (b & Hb & Qb) _ (k & Hk & Qk)].
  - exists []. split; constructor.
  - exists (b :: k). split; constructor; assumption.
Qed.

Lemma range_grid_length (sets_rad_range : list float) (idx : nat)
    (img : list float) :
  length (range_grid sets_rad_range idx img) = length img.
Proof.
  unfold range_grid.
  destruct (Nat.eqb idx (length sets_rad_range - 1)); apply length_map.
Qed.

Lemma create_sets_run (s : gmap loc obj) (img : raster_ref)
    (sets_rad_range : list float) (sup : list float) :
  s !! samples img = Some (FloatArray sup) ->
  (length sets_rad_range <= 20)%nat ->
  exists (l : loc) (items : list loc) (grids : list (list bool))
         (s' : gmap loc obj),
    create_sets img sets_rad_range s = (Ok l, s') /\
    s' !! l = Some (PyList items) /\
    Forall2 (fun g grid => s' !! g = Some (BoolArray grid)) items grids /\
    Forall (fun grid => length grid = length sup) grids /\
    length grids = length sets_rad_range /\
    s ⊆ s'.
Proof.
  intros Hsup Hn.
  assert (Hkeeps := HeapProps.keeps_create_sets s img sets_rad_range s
                      (reflexivity s)).
  assert (Hrun : exists (l : loc) (items : list loc)
                        (grids : list (list bool)) (s' : gmap loc obj),
             create_sets img sets_rad_range s = (Ok l, s') /\
             s' !! l = Some (PyList items) /\
             Forall2 (fun g grid => s' !! g = Some (BoolArray grid))
                     items grids /\
             Forall (fun grid => length grid = length sup) grids /\
             length grids = length sets_rad_range).
  { clear Hkeeps. unfold create_sets, range_grids.
    unfold bindM at 1. unfold float_array at 1. rewrite Hsup.
    destruct (ClassProps.getColor_Ok _ Hn) as [c Hc].
    unfold bindM at 1. unfold lift at 1. rewrite Hc.
    destruct (alloc_all_run
                (fun idx => BoolArray (range_grid sets_rad_range idx sup))
                (seq 0 (length sets_rad_range)) s)
      as (locs & s1 & Halloc & Hsub1 & Hall).
    unfold bindM at 1. rewrite Halloc.
    assert (Hlen : length locs = length sets_rad_range).
    { apply Forall2_length in Hall. rewrite length_seq in Hall. exact Hall. }
    set (absent := nan_or_nodata {| r := sup; nodata := nodata_value img |}).
    destruct (update_all_run locs (fun set => assign_where set absent false)
                (length sup)
                (fun a => ClassProps.assign_where_length a absent false)
                (seq 0 (length sets_rad_range)) s1)
      as (us & s2 & Hupd & Hgrids).
    { apply Forall_forall. intros i Hi.
      apply list_elem_of_In, in_seq in Hi. lia. }
    { apply Forall_forall. intros l Hl.
      apply list_elem_of_lookup_1 in Hl as [i Hi].
      destruct (Forall2_lookup_l _ _ _ _ _ Hall Hi) as (idx & _ & Hidx).
      eexists. split; [exact Hidx | apply range_grid_length]. }
    unfold bindM at 1. rewrite Hupd.
    unfold alloc.
    destruct (Forall_to_Forall2
                (fun l grid => s2 !! l = Some (BoolArray grid))
                (fun grid => length grid = length sup) locs Hgrids)
      as (grids & Hg2 & Hshape).
    exists (fresh (dom s2)), locs, grids,
           (<[fresh (dom s2) := PyList locs]> s2).
    split; [reflexivity|]. split; [apply lookup_insert_eq|].
    split; [|split; [exact Hshape|]].
    - eapply Forall2_impl; [exact Hg2|]. intros g grid Hg.
      apply lookup_after_alloc. exact Hg.
    - apply Forall2_length in Hg2. lia. }
  destruct Hrun as (l & items & grids & s' & Hrun & Hl & Hg & Hshape & Hcount).
  rewrite Hrun in Hkeeps. simpl in Hkeeps.
  exists l, items, grids, s'. repeat split; assumption.
Qed.

Lemma create_masks_classified (s : gmap loc obj) (alti_map support : raster_ref)
    (desc : option classified_img) (dz sup : list float) :
  s !! samples alti_map = Some (FloatArray dz) ->
  s !! samples support = Some (FloatArray sup) ->
  length sup = length dz ->
  exists (m0 l1 : loc) (keep : list bool) (s' : gmap loc obj),
    create_masks alti_map true (Some support) false desc true s
      = (Ok ([m0], [standard], Some l1), s') /\
    s' !! m0 = Some (BoolArray keep) /\ length keep = length dz /\
    s' !! l1
      = Some (BoolArray
                (map (inside_3sigma
                        (Np.mean (List.filter
                                    (fun v => negb (isnan v)
                                              && neb v (nodata_value alti_map))
                                    dz))
                        (Np.std (List.filter
                                   (fun v => negb (isnan v)
                                             && neb v (nodata_value alti_map))
                                   dz)))
                     dz)) /\
    s ⊆ s'.
Proof.
  intros Hdz Hsup Hlen.
  assert (Hkeeps := HeapProps.keeps_create_masks s alti_map true (Some support)
                      false desc true s (reflexivity s)).
  assert (Hrun : exists (m0 l1 : loc) (keep : list bool) (s' : gmap loc obj),
    create_masks alti_map true (Some support) false desc true s
      = (Ok ([m0], [standard], Some l1), s') /\
    s' !! m0 = Some (BoolArray keep) /\ length keep = length dz /\
    s' !! l1
      = Some (BoolArray
                (map (inside_3sigma
                        (Np.mean (List.filter
                                    (fun v => negb (isnan v)
                                              && neb v (nodata_value alti_map))
                                    dz))
                        (Np.std (List.filter
                                   (fun v => negb (isnan v)
                                             && neb v (nodata_value alti_map))
                                   dz)))
                     dz))).
  { clear Hkeeps.
    unfold create_masks, standard_mask, bindM, float_array, alloc, bool_array,
      lift, ret, update_bool.
    rewrite Hdz. cbn [andb]. rewrite lookup_insert_eq.
    unfold get_ouliersfree_mask.
    rewrite MaskProps.get_nonan_mask_float, select_map.
    cbn [Py.bind].
    set (s1 := <[fresh (dom s) := BoolArray _]> s).
    set (s2 := <[fresh (dom s1) := BoolArray _]> s1).
    assert (Hsup2 : s2 !! samples support = Some (FloatArray sup)).
    { apply lookup_after_alloc, lookup_after_alloc. exact Hsup. }
    rewrite Hsup2.
    assert (Hm0 : s2 !! fresh (dom s)
                  = Some (BoolArray
                            (map (fun v => negb (isnan v)
                                           && neb v (nodata_value alti_map))
                                 dz))).
    { apply lookup_after_alloc. apply lookup_insert_eq. }
    rewrite Hm0.
    rewrite mul_bool_same_shape
      by (rewrite MaskProps.get_nonan_mask_float, !length_map; lia).
    eexists _, _, _, _. split; [reflexivity|].
    split; [apply lookup_insert_eq|].
    split; [rewrite length_zip_with, MaskProps.get_nonan_mask_float,
              !length_map; lia|].
    rewrite lookup_insert_ne.
    - apply lookup_insert_eq.
    - intros E. assert (Hf := fresh_unused s1). rewrite <- E in Hf.
      unfold s1 in Hf. rewrite lookup_insert_eq in Hf. discriminate. }
  destruct Hrun as (m0 & l1 & keep & s' & Hrun & Hm0 & Lk & Hl1).
  rewrite Hrun in Hkeeps. simpl in Hkeeps.
  exists m0, l1, keep, s'. repeat split; assumption.
Qed.

Lemma nothing_selected (keep : list bool) (n : nat) :
  selected (zip_with andb keep (repeat false n)) = 0%nat.
Proof.
  unfold selected. revert n. induction keep as [|b keep IH]; intros [|n]; simpl;
    try reflexivity.
  rewrite andb_false_r. apply IH.
Qed.

(** X19. With classes and no cross classification, on a difference raster
    whose valid samples have a deviation of zero, as for two identical
    models, or NaN, [alti_diff_stats] does not complete: no pixel is inside
    the bounds of the outliers, and [plot_histograms] raises ValueError in
    the standard mode. *)
Theorem zero_deviation_run_raises_ValueError
    (s : gmap loc obj) (alti_map support : raster_ref) (bin_step : float)
    (class_rad_range : list float) (labels names : list string)
    (colors : list color) (desc : option classified_img)
    (dz sup : list float) :
  s !! samples alti_map = Some (FloatArray dz) -> dz <> [] ->
  s !! samples support = Some (FloatArray sup) -> length sup = length dz ->
  (length class_rad_range <= 20)%nat ->
  (length class_rad_range <= length labels)%nat ->
  (length class_rad_range <= length names)%nat ->
  (let kept := List.filter (fun v => negb (isnan v)
                                     && neb v (nodata_value alti_map)) dz in
   isnan (Np.std kept) = true \/ eqb (Np.std kept) zero = true) ->
  fst (alti_diff_stats curve_fit_converges alti_map bin_step true
                       (Some support) class_rad_range (Some labels)
                       (Some names) colors false desc s)
    = Raise ValueError.
Proof.
  intros Hdz Hne Hsup Hlen Hn Hlab Hnam Hsigma.
  destruct (create_sets_run s support class_rad_range sup Hsup Hn)
    as (sets_l & items & grids & s1 & Hsets & Hlist & Hgrids & Hshape
        & Hcount & Hsub1).
  destruct (create_masks_classified s1 alti_map support desc dz sup
              (lookup_weaken _ _ _ _ Hdz Hsub1)
              (lookup_weaken _ _ _ _ Hsup Hsub1) Hlen)
    as (m0 & l1 & keep & s2 & Hmasks & Hm0 & Lkeep & Hl1 & Hsub2).
  rewrite (map_inside_zero_deviation _ _ dz Hsigma) in Hl1.
  destruct (get_stats_returns dz (Some keep) (Some (repeat false (length dz)))
              (Some grids) (Some labels) (Some names) Hne Lkeep
              (repeat_length false (length dz)))
    as [recs Hrecs].
  { split; [|split; lia].
    eapply Forall_impl; [exact Hshape|]. simpl. intros; lia. }
  assert (Hgrids2 : Forall2 (fun g grid => s2 !! g = Some (BoolArray grid))
                            items grids).
  { eapply Forall2_impl; [exact Hgrids|]. intros g grid Hg.
    exact (lookup_weaken _ _ _ _ Hg Hsub2). }
  assert (Hstep := mode_step_no_pixel s2 (samples alti_map) l1 m0 sets_l
                     bin_step labels (Some names) colors dz keep
                     (repeat false (length dz)) items grids recs
                     (lookup_weaken _ _ _ _ (lookup_weaken _ _ _ _ Hdz Hsub1)
                                    Hsub2)
                     Hm0 Hl1 (lookup_weaken _ _ _ _ Hlist Hsub2)
                     Hgrids2 Hrecs (nothing_selected keep (length dz))).
  unfold alti_diff_stats.
  unfold bindM at 1. unfold bindM at 1. rewrite Hsets. cbn [ret].
  unfold bindM at 1. rewrite Hmasks.
  unfold run_modes. rewrite HeapProps.traverseM_cons.
  destruct (mode_step _ _ _ _ _ _ _ _ _ s2) as [[res|e] s3];
    simpl in Hstep |- *; [discriminate|].
  injection Hstep as ->. reflexivity.
Qed.

End Modes.

Lemma unclassified_run_raises_TypeError_witness :
  store_rasters !! samples alti_ref
    = Some (FloatArray (floats [1; -9999; 2; 3])) /\
  floats [1; -9999; 2; 3] <> [] /\
  fst (alti_diff_stats fit_always alti_ref bin_step_demo false None boundaries
                       None None [] false None store_rasters)
    = Raise TypeError.
Proof.
  assert (H : store_rasters !! samples alti_ref
              = Some (FloatArray (floats [1; -9999; 2; 3]))).
  { vm_compute. reflexivity. }
  assert (Hne : floats [1; -9999; 2; 3] <> []) by discriminate.
  split; [exact H|]. split; [exact Hne|].
  exact (unclassified_run_raises_TypeError fit_always _ _ _ _ _ _ _ _ _ _ _
           H Hne).
Defined.

Lemma zero_deviation_run_raises_ValueError_witness :
  store_zeros !! samples alti_ref = Some (FloatArray (floats [0; 0; 0; 0])) /\
  floats [0; 0; 0; 0] <> [] /\
  store_zeros !! samples support_ref
    = Some (FloatArray (floats [5; 5; 12; 30])) /\
  length (floats [5; 5; 12; 30]) = length (floats [0; 0; 0; 0]) /\
  (length boundaries <= 20)%nat /\
  (length boundaries <= length ["a"; "b"; "c"]%string)%nat /\
  (length boundaries <= length ["A"; "B"; "C"]%string)%nat /\
  (let kept := List.filter (fun v => negb (isnan v)
                                     && neb v (nodata_value alti_ref))
                           (floats [0; 0; 0; 0]) in
   isnan (Np.std kept) = true \/ eqb (Np.std kept) zero = true) /\
  fst (alti_diff_stats fit_always alti_ref bin_step_demo true
                       (Some support_ref) boundaries
                       (Some ["a"; "b"; "c"]%string)
                       (Some ["A"; "B"; "C"]%string) [black; black; black]
                       false None store_zeros)
    = Raise ValueError.
Proof.
  assert (H1 : store_zeros !! samples alti_ref
               = Some (FloatArray (floats [0; 0; 0; 0])))
    by (vm_compute; reflexivity).
  assert (Hne : floats [0; 0; 0; 0] <> []) by discriminate.
  assert (H2 : store_zeros !! samples support_ref
               = Some (FloatArray (floats [5; 5; 12; 30])))
    by (vm_compute; reflexivity).
  assert (Hlen : length (floats [5; 5; 12; 30]) = length (floats [0; 0; 0; 0]))
    by reflexivity.
  assert (Hn : (length boundaries <= 20)%nat) by (simpl; lia).
  assert (Hl : (length boundaries <= length ["a"; "b"; "c"]%string)%nat)
    by (simpl; lia).
  assert (Hm : (length boundaries <= length ["A"; "B"; "C"]%string)%nat)
    by (simpl; lia).
  assert (Hs : let kept := List.filter
                             (fun v => negb (isnan v)
                                       && neb v (nodata_value alti_ref))
                             (floats [0; 0; 0; 0]) in
               isnan (Np.std kept) = true \/ eqb (Np.std kept) zero = true).
  { right. vm_compute. reflexivity. }
  repeat (split; [assumption|]).
  exact (zero_deviation_run_raises_ValueError fit_always _ _ _ _ _ _ _ _ None
           _ _ H1 Hne H2 Hlen Hn Hl Hm Hs).
Defined.

Lemma mode_without_pixel_raises_ValueError_witness :
  exists recs,
    store_empty_mode !! 1%positive = Some (FloatArray dz_four) /\
    store_empty_mode !! 7%positive
      = Some (BoolArray [false; false; false; false]) /\
    store_empty_mode !! 3%positive
      = Some (BoolArray [true; true; true; true]) /\
    store_empty_mode !! 6%positive = Some (PyList [4%positive; 5%positive]) /\
    Forall2 (fun g grid => store_empty_mode !! g = Some (BoolArray grid))
            [4%positive; 5%positive] two_classes /\
    get_stats dz_four (Some [false; false; false; false])
              (Some [true; true; true; true]) (Some two_classes)
              (Some ["a"; "b"]%string) (Some ["A"; "B"]%string) = Ok recs /\
    selected (zip_with andb [false; false; false; false]
                            [true; true; true; true]) = 0%nat /\
    fst (mode_step fit_always 1%positive bin_step_demo 3%positive
                   (Some 6%positive) (Some ["a"; "b"]%string)
                   (Some ["A"; "B"]%string) [black; black] 7%positive
                   store_empty_mode) = Raise ValueError.
Proof.
  assert (Hrecs : { recs |
            get_stats dz_four (Some [false; false; false; false])
                      (Some [true; true; true; true]) (Some two_classes)
                      (Some ["a"; "b"]%string) (Some ["A"; "B"]%string)
              = Ok recs }).
  { eexists. vm_compute. reflexivity. }
  destruct Hrecs as [recs Hrecs].
  assert (H1 : store_empty_mode !! 1%positive = Some (FloatArray dz_four))
    by (vm_compute; reflexivity).
  assert (H7 : store_empty_mode !! 7%positive
               = Some (BoolArray [false; false; false; false]))
    by (vm_compute; reflexivity).
  assert (H3 : store_empty_mode !! 3%positive
               = Some (BoolArray [true; true; true; true]))
    by (vm_compute; reflexivity).
  assert (H6 : store_empty_mode !! 6%positive
               = Some (PyList [4%positive; 5%positive]))
    by (vm_compute; reflexivity).
  assert (Hg : Forall2 (fun g grid => store_empty_mode !! g
                                      = Some (BoolArray grid))
                       [4%positive; 5%positive] two_classes).
  { repeat constructor; vm_compute; reflexivity. }
  assert (Hsel : selected (zip_with andb [false; false; false; false]
                                         [true; true; true; true]) = 0%nat)
    by reflexivity.
  exists recs. repeat (split; [assumption|]).
  exact (mode_without_pixel_raises_ValueError fit_always _ _ _ _ _ _ _ _ _ _ _
           _ _ _ _ H1 H7 H3 H6 Hg Hrecs Hsel).
Defined.

End ModeProps.

(** ** What [plot_histograms] does to the list of grids it is given *)

Module PlotProps.

Import Py F64 Stats Heap More Samples MoreSamples ListFacts ModeProps CrossProps.

Lemma bindM_Ok_inv {A B : Type} (m : M A) (k : A -> M B) (s s' : gmap loc obj)
    (b : B) :
  bindM m k s = (Ok b, s') ->
  exists a s1, m s = (Ok a, s1) /\ k a s1 = (Ok b, s').
Proof.
  unfold bindM. destruct (m s) as [[a|e] s1]; intros H; [eauto | discriminate].
Qed.

Lemma reads_only_ret {A : Type} (a : A) : reads_only (ret a).
Proof. intros s. reflexivity. Qed.

Lemma reads_only_raise {A : Type} (e : exn) : reads_only (@raise A e).
Proof. intros s. reflexivity. Qed.

Lemma reads_only_lift {A : Type} (x : result A) : reads_only (lift x).
Proof. intros s. reflexivity. Qed.

Lemma reads_only_bind {A B : Type} (m : M A) (k : A -> M B) :
  reads_only m -> (forall a, reads_only (k a)) -> reads_only (bindM m k).
Proof.
  intros Hm Hk s. unfold bindM. specialize (Hm s).
  destruct (m s) as [[a|e] s1]; simpl in Hm; subst s1; [apply Hk | reflexivity].
Qed.

Lemma reads_only_py_list (l : loc) : reads_only (py_list l).
Proof. intros s. unfold py_list. destruct (s !! l) as [[| |]|]; reflexivity. Qed.

Lemma reads_only_bool_array (l : loc) : reads_only (bool_array l).
Proof. intros s. unfold bool_array. destruct (s !! l) as [[| |]|]; reflexivity. Qed.

Lemma reads_only_float_array (l : loc) : reads_only (float_array l).
Proof. intros s. unfold float_array. destruct (s !! l) as [[| |]|]; reflexivity. Qed.

Lemma reads_only_run {A : Type} (m : M A) (s s' : gmap loc obj) (x : result A) :
  reads_only m -> m s = (x, s') -> s' = s.
Proof. intros Hm H. specialize (Hm s). rewrite H in Hm. exact Hm. Qed.

Section Plot.

Variable curve_fit_converges : list float -> bool.

(** One turn of the loop of [plot_histograms] with a mask: the entry of the
    list is replaced by a new array, the grid it held restricted to the
    mask. *)
Lemma plot_set_run (input : list float) (mask : list bool) (sets : loc)
    (labels : list string) (colors : list color) (st st' : Z * list string)
    (idx : nat) (s s' : gmap loc obj) :
  plot_set curve_fit_converges input (Some mask) sets labels colors st idx s
    = (Ok st', s') ->
  exists (cur : list loc) (g : loc) (grid : list bool),
    s !! sets = Some (PyList cur) /\ cur !! idx = Some g /\
    s !! g = Some (BoolArray grid) /\
    s' = <[sets := PyList (<[idx := fresh (dom s)]> cur)]>
           (<[fresh (dom s) := BoolArray (zip_with andb grid mask)]> s).
Proof.
  destruct st as [set_zero_size saved_labels]. unfold plot_set. intros H.
  apply bindM_Ok_inv in H as (u & s1 & Hpre & Htail).
  assert (Es' : s' = s1).
  { eapply reads_only_run; [|exact Htail].
    repeat first
      [ apply reads_only_bind; [|intros ?]
      | apply reads_only_py_list | apply reads_only_bool_array
      | apply reads_only_lift | apply reads_only_ret | apply reads_only_raise
      | match goal with
        | |- reads_only (if ?c then _ else _) => destruct c
        end ]. }
  subst s1. clear Htail.
  apply bindM_Ok_inv in Hpre as (cur & s1 & Hcur & Hpre).
  unfold py_list in Hcur.
  destruct (s !! sets) as [[| |cur0]|] eqn:Esets; try discriminate.
  injection Hcur as <- <-.
  apply bindM_Ok_inv in Hpre as (g & s1 & Hg & Hpre).
  unfold lift in Hg. injection Hg as Hg <-. apply getitem_Ok in Hg.
  apply bindM_Ok_inv in Hpre as (grid & s1 & Hgrid & Hpre).
  unfold bool_array in Hgrid.
  destruct (s !! g) as [[|grid0|]|] eqn:Egrid; try discriminate.
  injection Hgrid as <- <-.
  apply bindM_Ok_inv in Hpre as (restricted & s1 & Hres & Hpre).
  unfold lift in Hres. injection Hres as Hres <-.
  apply mul_bool_Ok in Hres as [_ ->].
  apply bindM_Ok_inv in Hpre as (g' & s1 & Halloc & Hset).
  unfold alloc in Halloc. injection Halloc as <- <-.
  unfold setitem in Hset.
  rewrite lookup_insert_ne in Hset
    by (intros E; rewrite <- E, fresh_unused in Esets; discriminate).
  rewrite Esets in Hset.
  destruct (Nat.ltb idx (length cur0)); [|discriminate].
  injection Hset as _ <-.
  exists cur0, g, grid0. repeat split; assumption.
Qed.

Section Loop.

Variables (s0 : gmap loc obj) (sets : loc) (items : list loc).
Variables (grids : list (list bool)) (mask : list bool).
Variables (input : list float) (labels : list string) (colors : list color).

Hypothesis grids_in_s0 :
  Forall2 (fun g grid => s0 !! g = Some (BoolArray grid)) items grids.

Lemma replaced_step (j : nat) (st st' : Z * list string)
    (s s' : gmap loc obj) :
  replaced_up_to s0 sets items grids mask j s ->
  (j < length items)%nat ->
  plot_set curve_fit_converges input (Some mask) sets labels colors st j s
    = (Ok st', s') ->
  replaced_up_to s0 sets items grids mask (S j) s'.
Proof.
  intros (cur & Hcur & Hlen & Hbefore & Hafter & Hold) Hj Hrun.
  destruct (plot_set_run _ _ _ _ _ _ _ _ _ _ Hrun)
    as (cur' & g & grid & Hcur' & Hg & Hgrid & ->).
  rewrite Hcur in Hcur'. injection Hcur' as <-.
  rewrite (Hafter j (Nat.le_refl j)) in Hg.
  destruct (Forall2_lookup_l _ _ _ _ _ grids_in_s0 Hg) as (grid_j & Hgj & Hs0g).
  assert (Hgs : g <> sets) by (intros ->; congruence).
  rewrite (Hold g _ Hs0g Hgs) in Hgrid. injection Hgrid as <-.
  set (f := fresh (dom s)).
  assert (Hf : s !! f = None) by apply fresh_unused.
  assert (Hfs : f <> sets) by (intros E; rewrite E in Hf; congruence).
  exists (<[j := f]> cur). split; [apply lookup_insert_eq|].
  split; [rewrite length_insert; exact Hlen|].
  split; [|split].
  - intros i grid Hi Hgi.
    destruct (Nat.eq_dec i j) as [->|Hne].
    + rewrite Hgj in Hgi. injection Hgi as <-.
      exists f. split; [apply list_lookup_insert_eq; lia|]. split.
      * destruct (s0 !! f) as [o|] eqn:E; [|reflexivity].
        rewrite (Hold f o E Hfs) in Hf. discriminate.
      * rewrite lookup_insert_ne by congruence. apply lookup_insert_eq.
    + destruct (Hbefore i grid ltac:(lia) Hgi) as (g' & Hg' & Hnew & Hsg').
      exists g'. split; [rewrite list_lookup_insert_ne by lia; exact Hg'|].
      split; [exact Hnew|].
      rewrite !lookup_insert_ne; [exact Hsg' | | ]; intros E; subst g';
        congruence.
  - intros i Hi. rewrite list_lookup_insert_ne by lia. apply Hafter. lia.
  - intros l o Hl Hls.
    rewrite !lookup_insert_ne; [apply Hold; assumption | | ]; try congruence.
    intros E. subst l. rewrite (Hold f o Hl Hfs) in Hf. discriminate.
Qed.

Lemma replaced_loop (k : nat) :
  forall (j : nat) (st st' : Z * list string) (s s' : gmap loc obj),
    replaced_up_to s0 sets items grids mask j s ->
    (j + k = length items)%nat ->
    for_each (plot_set curve_fit_converges input (Some mask) sets labels colors)
             (seq j k) st s = (Ok st', s') ->
    replaced_up_to s0 sets items grids mask (length items) s'.
Proof.
  induction k as [|k IH]; intros j st st' s s' Hinv Hjk Hrun.
  - simpl in Hrun. injection Hrun as _ <-.
    replace (length items) with j by lia. exact Hinv.
  - simpl in Hrun. apply bindM_Ok_inv in Hrun as (st1 & s1 & Hstep & Hrest).
    apply (IH (S j) st1 st' s1 s'); [|lia|exact Hrest].
    eapply replaced_step; [exact Hinv | lia | exact Hstep].
Qed.

End Loop.

(** X20. [plot_histograms] with a mask assigns into the list of grids it is
    given: when it returns, every entry of the list is a new array, the
    grid the entry held restricted to the mask, and the arrays the list
    held before are as they were. *)
Theorem plot_histograms_replaces_the_grids_of_its_list
    (s s' : gmap loc obj) (input mask_l sets_l : loc) (bin_step : float)
    (labels : list string) (colors : list color) (items : list loc)
    (grids : list (list bool)) (mask : list bool) (saved : list string) :
  s !! sets_l = Some (PyList items) ->
  s !! mask_l = Some (BoolArray mask) ->
  Forall2 (fun g grid => s !! g = Some (BoolArray grid)) items grids ->
  plot_histograms curve_fit_converges input bin_step (Some mask_l)
                  (Some sets_l) (Some labels) (Some colors) s
    = (Ok saved, s') ->
  exists items' : list loc,
    s' !! sets_l = Some (PyList items') /\
    Forall2 (fun g' grid =>
               s !! g' = None /\
               s' !! g' = Some (BoolArray (zip_with andb grid mask)))
            items' grids /\
    Forall2 (fun g grid => s' !! g = Some (BoolArray grid)) items grids.
Proof.
  intros Hsets Hmask Hgrids Hrun. unfold plot_histograms in Hrun.
  apply bindM_Ok_inv in Hrun as (a & s1 & Ha & Hrun).
  apply (reads_only_run _ _ _ _ (reads_only_float_array input)) in Ha as E.
  subst s1.
  apply bindM_Ok_inv in Hrun as (m & s1 & Hm & Hrun).
  unfold bindM, bool_array in Hm. rewrite Hmask in Hm.
  injection Hm as <- <-.
  apply bindM_Ok_inv in Hrun as (kept & s1 & Hkept & Hrun).
  injection Hkept as _ <-.
  apply bindM_Ok_inv in Hrun as (lowest & s1 & Hlow & Hrun).
  injection Hlow as _ <-.
  apply bindM_Ok_inv in Hrun as (highest & s1 & Hhigh & Hrun).
  injection Hhigh as _ <-.
  apply bindM_Ok_inv in Hrun as (rounded & s1 & Hround & Hrun).
  injection Hround as _ <-.
  apply bindM_Ok_inv in Hrun as (items0 & s1 & Hitems & Hrun).
  unfold py_list in Hitems. rewrite Hsets in Hitems.
  injection Hitems as <- <-.
  apply bindM_Ok_inv in Hrun as (st & s1 & Hloop & Hret).
  injection Hret as _ <-.
  assert (Hinit : replaced_up_to s sets_l items grids mask 0 s).
  { exists items. repeat split; auto. intros i grid Hi. lia. }
  destruct (replaced_loop s sets_l items grids mask a labels colors
              Hgrids (length items) 0 (0, []) st s s1 Hinit eq_refl Hloop)
    as (cur & Hcur & Hlen & Hbefore & _ & Hold).
  exists cur. split; [exact Hcur|]. split.
  - apply Forall2_same_length_lookup. split.
    + apply Forall2_length in Hgrids. lia.
    + intros i g' grid Hg' Hgrid.
      assert (Hi : (i < length items)%nat).
      { rewrite <- Hlen. apply lookup_lt_Some in Hg'. exact Hg'. }
      destruct (Hbefore i grid Hi Hgrid) as (g'' & Hg'' & Hnew & Hval).
      rewrite Hg' in Hg''. injection Hg'' as <-. auto.
  - eapply Forall2_impl; [exact Hgrids|].
    intros g grid Hg. apply Hold; [exact Hg|].
    intros ->. congruence.
Qed.

End Plot.

Lemma plot_histograms_replaces_the_grids_of_its_list_witness :
  exists (saved : list string) (s' : gmap loc obj),
    store_demo !! 6%positive = Some (PyList [4%positive; 5%positive]) /\
    store_demo !! 2%positive = Some (BoolArray keep_three) /\
    Forall2 (fun g grid => store_demo !! g = Some (BoolArray grid))
            [4%positive; 5%positive] two_classes /\
    plot_histograms fit_always 1%positive bin_step_demo (Some 2%positive)
                    (Some 6%positive) (Some ["a"; "b"]%string)
                    (Some [black; black]) store_demo
      = (Ok saved, s') /\
    exists items' : list loc,
      s' !! 6%positive = Some (PyList items') /\
      Forall2 (fun g' grid =>
                 store_demo !! g' = None /\
                 s' !! g' = Some (BoolArray (zip_with andb grid keep_three)))
              items' two_classes /\
      Forall2 (fun g grid => s' !! g = Some (BoolArray grid))
              [4%positive; 5%positive] two_classes.
Proof.
  assert (Hrun : { out : list string * gmap loc obj |
            plot_histograms fit_always 1%positive bin_step_demo
                            (Some 2%positive) (Some 6%positive)
                            (Some ["a"; "b"]%string) (Some [black; black])
                            store_demo
              = (Ok (fst out), snd out) }).
  { exists (["a"; "b"]%string,
            snd (plot_histograms fit_always 1%positive bin_step_demo
                   (Some 2%positive) (Some 6%positive)
                   (Some ["a"; "b"]%string) (Some [black; black])
                   store_demo)).
    cbn [fst snd].
    assert (E : fst (plot_histograms fit_always 1%positive bin_step_demo
                       (Some 2%positive) (Some 6%positive)
                       (Some ["a"; "b"]%string) (Some [black; black])
                       store_demo) = Ok ["a"; "b"]%string)
      by (vm_compute; reflexivity).
    destruct (plot_histograms _ _ _ _ _ _ _ store_demo) as [x s1].
    simpl in E |- *. rewrite E. reflexivity. }
  destruct Hrun as [[saved s'] Hrun]. cbn [fst snd] in Hrun.
  assert (H6 : store_demo !! 6%positive
               = Some (PyList [4%positive; 5%positive]))
    by (vm_compute; reflexivity).
  assert (H2 : store_demo !! 2%positive = Some (BoolArray keep_three))
    by (vm_compute; reflexivity).
  assert (Hg : Forall2 (fun g grid => store_demo !! g = Some (BoolArray grid))
                       [4%positive; 5%positive] two_classes).
  { repeat constructor; vm_compute; reflexivity. }
  exists saved, s'.
  split; [exact H6|]. split; [exact H2|]. split; [exact Hg|].
  split; [exact Hrun|].
  exact (plot_histograms_replaces_the_grids_of_its_list fit_always _ _ _ _ _
           _ _ _ _ _ _ _ H6 H2 Hg Hrun).
Defined.

End PlotProps.

(** ** The counts of the classes in the standard mode *)

Module CountProps.

Import Py F64 Stats Terms More Samples MoreSamples ListFacts ClassProps
       StatsProps RecordProps CrossProps.

Lemma classes_share_weighted (k : list bool) :
  forall (c : list bool) (sets : list (list bool)),
    length c = length k ->
    Forall (fun s => length s = length k) sets ->
    (forall p, k !! p = Some true ->
       classes_at sets p = if nth p c false then 1%nat else 0%nat) ->
    list_sum (map (fun s => selected (zip_with andb s k)) sets)
      = selected (zip_with andb k c).
Proof.
  induction k as [|b k IH]; intros c sets Hc Hlen Hone.
  - destruct c; [|discriminate].
    induction sets as [|s sets IHs]; [reflexivity|].
    inversion Hlen as [|? ? Hs Hrest]; subst.
    destruct s; [|discriminate]. simpl. apply IHs; [exact Hrest|].
    intros p Hp. destruct p; discriminate.
  - destruct c as [|x c]; [discriminate|]. simpl in Hc.
    rewrite count_heads by exact Hlen.
    rewrite (IH c).
    + unfold selected. destruct b; simpl; [|reflexivity].
      rewrite (Hone 0%nat) by reflexivity. simpl.
      destruct x; reflexivity.
    + lia.
    + apply Forall_forall. intros s Hs.
      apply list_elem_of_In, in_map_iff in Hs. destruct Hs as (s0 & <- & Hs0).
      rewrite Forall_forall in Hlen.
      specialize (Hlen s0 (proj2 (list_elem_of_In _ _) Hs0)).
      rewrite length_drop, Hlen. simpl. lia.
    + intros p Hp. rewrite <- classes_at_tail. apply (Hone (S p)). exact Hp.
Qed.

Lemma selected_and_le (k c : list bool) :
  (selected (zip_with andb k c) <= selected k)%nat.
Proof.
  unfold selected. revert c. induction k as [|b k IH]; intros [|x c]; simpl;
    try lia.
  specialize (IH c). destruct b, x; simpl; lia.
Qed.

(** The number of classes of a pixel of a support classified over
    increasing boundaries. *)
Lemma classes_of_sample (img : A3DGeoRaster) (sets_rad_range : list float)
    (p : nat) (v : float) :
  increasing sets_rad_range -> r img !! p = Some v ->
  classes_at
    (map (fun idx =>
            assign_where (map (in_range sets_rad_range idx) (r img))
                         (nan_or_nodata img) false)
         (seq 0 (length sets_rad_range))) p
  = if negb (isnan v) && neb v (nodata img)
       && leb (nth 0 sets_rad_range nan) v
    then 1%nat else 0%nat.
Proof.
  intros Hinc Hv. unfold classes_at. rewrite filter_map_length.
  destruct (isnan v || eqb v (nodata img)) eqn:Eabs.
  - rewrite (filter_ext_length _ (fun _ => false)).
    2:{ intros idx _.
        apply nth_lookup_Some with (d := false).
        rewrite (class_grid_lookup _ _ _ _ _ Hv), Eabs. reflexivity. }
    rewrite filter_false_length.
    unfold neb. destruct (isnan v); [reflexivity|].
    simpl in Eabs. rewrite Eabs. reflexivity.
  - apply orb_false_iff in Eabs as [Nv Ev].
    rewrite (filter_ext_length _ (fun idx => in_range sets_rad_range idx v)).
    2:{ intros idx _.
        apply nth_lookup_Some with (d := false).
        rewrite (class_grid_lookup _ _ _ _ _ Hv), Nv, Ev. reflexivity. }
    rewrite (count_in_range _ _ Nv Hinc).
    unfold neb. rewrite Nv, Ev. reflexivity.
Qed.

(** X21. In the standard mode of a classified run, over increasing
    boundaries, the counts of the class records add up to the number of the
    kept pixels whose support sample is not below the first boundary, so to
    no more than the count of the record of all the pixels. *)
Theorem class_counts_miss_samples_below_first_boundary
    (alti_map support : A3DGeoRaster) (class_rad_range : list float)
    (desc : option (list Z)) (sets : list (list bool)) (colors : colormap)
    (out : option (list Z)) (do_cross remove_outliers : bool)
    (classified : option classified_img)
    (m_std : list bool) (rest : list (list bool)) (modes : list string)
    (no_outliers : option (list bool)) (labels names : list string)
    (recs : list StatsRecord) :
  increasing class_rad_range ->
  create_sets support class_rad_range desc = Ok (sets, colors, out) ->
  create_masks alti_map true (Some support) do_cross classified remove_outliers
    = Ok (m_std :: rest, modes, no_outliers) ->
  get_stats (r alti_map) (Some m_std) no_outliers (Some sets) (Some labels)
            (Some names) = Ok recs ->
  let kept :=
    zip_with andb m_std
             (default (Np.ones (length (r alti_map))) no_outliers) in
  let reached := map (leb (nth 0 class_rad_range nan)) (r support) in
  exists all per_set,
    recs = all :: per_set /\
    nbpts (stats all) = Z.of_nat (selected kept) /\
    total (map (fun rec => nbpts (stats rec)) per_set)
      = Z.of_nat (selected (zip_with andb kept reached)) /\
    total (map (fun rec => nbpts (stats rec)) per_set) <= nbpts (stats all).
Proof.
  intros Hinc Hsets Hmasks Hrecs kept reached.
  destruct (create_sets_inv _ _ _ _ _ _ Hsets) as [_ Esets].
  destruct (MaskProps.create_masks_inv _ _ _ _ _ _ _ _ _ Hmasks)
    as (m & rest' & Em & s & Es & Hstd).
  injection Em as <- <-. injection Es as <-.
  apply mul_bool_Ok in Hstd as [Lstd Estd].
  unfold get_nonan_mask in Lstd. rewrite !length_map in Lstd.
  destruct (get_stats_classes _ _ _ _ _ _ _ Hrecs)
    as (all & per_set & -> & Hlen & _ & Hall & Hper).
  simpl in Hlen, Hall, Hper. fold kept in Hall, Hper.
  assert (Lm : length m_std = length (r alti_map)).
  { rewrite Estd. unfold get_nonan_mask.
    rewrite length_zip_with, !length_map. lia. }
  assert (Lkept : length kept = length (r alti_map)).
  { unfold kept. rewrite length_zip_with. lia. }
  assert (Etotal : total (map (fun rec => nbpts (stats rec)) per_set)
                   = Z.of_nat (selected (zip_with andb kept reached))).
  { rewrite (map_by_index _ (fun rec => nbpts (stats rec))
               (fun s => Z.of_nat (selected (zip_with andb s kept)))
               sets per_set Hper).
    - rewrite <- (map_map (fun s => selected (zip_with andb s kept)) Z.of_nat).
      rewrite total_of_nat. f_equal.
      apply classes_share_weighted.
      + unfold reached. rewrite length_map. lia.
      + apply Forall_forall. intros g Hg.
        apply list_elem_of_lookup_1 in Hg as [i Hi].
        assert (Hseq : seq 0 (length sets) !! i = Some i).
        { rewrite lookup_seq. split; [reflexivity|].
          apply lookup_lt_Some in Hi. exact Hi. }
        destruct (Forall2_lookup_l _ _ _ _ _ Hper Hseq)
          as (rec & _ & s' & Hs' & Hl & _).
        rewrite Hi in Hs'. injection Hs' as <-. lia.
      + intros p Hp.
        assert (Hlt : (p < length (r support))%nat).
        { apply lookup_lt_Some in Hp. lia. }
        destruct (lookup_lt_is_Some_2 (r support) p Hlt) as [v Hv].
        destruct (lookup_lt_is_Some_2 (r alti_map) p ltac:(lia)) as [a Ha].
        unfold reached.
        rewrite (nth_lookup_Some _ p false (leb (nth 0 class_rad_range nan) v))
          by (rewrite list_lookup_fmap, Hv; reflexivity).
        rewrite Esets, (classes_of_sample _ _ _ _ Hinc Hv).
        assert (Hvalid : negb (isnan v) && neb v (nodata support) = true).
        { unfold kept in Hp. rewrite lookup_zip_with in Hp.
          rewrite Estd in Hp. unfold get_nonan_mask in Hp.
          rewrite lookup_zip_with, !list_lookup_fmap, Ha, Hv in Hp.
          simpl in Hp.
          destruct (negb (isnan v) && neb v (nodata support));
            [reflexivity|].
          rewrite andb_false_r in Hp. simpl in Hp.
          destruct (default _ no_outliers !! p); discriminate. }
        rewrite Hvalid. reflexivity.
    - intros i rec (g & Hg & _ & _ & _ & Hn). eauto. }
  exists all, per_set. split; [reflexivity|]. split; [exact Hall|].
  split; [exact Etotal|].
  rewrite Etotal, Hall. apply Nat2Z.inj_le, selected_and_le.
Qed.

Lemma class_counts_miss_samples_below_first_boundary_witness :
  exists recs,
    increasing boundaries /\
    create_sets support_low boundaries None = Ok (classes_low, tab10, None) /\
    create_masks alti_demo true (Some support_low) false None false
      = Ok ([[true; false; true; true]], [standard], None) /\
    get_stats (r alti_demo) (Some [true; false; true; true]) None
              (Some classes_low) (Some ["a"; "b"; "c"]%string)
              (Some ["A"; "B"; "C"]%string)
      = Ok recs /\
    let kept :=
      zip_with andb [true; false; true; true]
               (default (Np.ones (length (r alti_demo))) None) in
    let reached := map (leb (nth 0 boundaries nan)) (r support_low) in
    exists all per_set,
      recs = all :: per_set /\
      nbpts (stats all) = Z.of_nat (selected kept) /\
      total (map (fun rec => nbpts (stats rec)) per_set)
        = Z.of_nat (selected (zip_with andb kept reached)) /\
      total (map (fun rec => nbpts (stats rec)) per_set) <= nbpts (stats all).
Proof.
  assert (Hsets : create_sets support_low boundaries None
                  = Ok (classes_low, tab10, None)).
  { vm_compute. reflexivity. }
  assert (Hmasks : create_masks alti_demo true (Some support_low) false None
                                false
                   = Ok ([[true; false; true; true]], [standard], None)).
  { vm_compute. reflexivity. }
  assert (Hrecs : { recs |
            get_stats (r alti_demo) (Some [true; false; true; true]) None
                      (Some classes_low) (Some ["a"; "b"; "c"]%string)
                      (Some ["A"; "B"; "C"]%string) = Ok recs }).
  { eexists. vm_compute. reflexivity. }
  destruct Hrecs as [recs Hrecs].
  exists recs.
  split; [exact boundaries_increasing|]. split; [exact Hsets|].
  split; [exact Hmasks|]. split; [exact Hrecs|].
  exact (class_counts_miss_samples_below_first_boundary _ _ _ _ _ _ _ _ _ _ _
           _ _ _ _ _ _ boundaries_increasing Hsets Hmasks Hrecs).
Defined.

(** The 90th percentile of a record, as [get_stats] computes it: from the
    mask to keep and the class grid only. *)
Lemma get_stats_p90 (dz_values : list float)
    (to_keep_mask no_outliers_mask : option (list bool))
    (sets : option (list (list bool)))
    (sets_labels sets_names : option (list string)) (recs : list StatsRecord) :
  get_stats dz_values to_keep_mask no_outliers_mask sets sets_labels sets_names
    = Ok recs ->
  let keep := default (Np.ones (length dz_values)) to_keep_mask in
  exists all per_set,
    recs = all :: per_set /\
    (exists d, Np.select dz_values keep = Ok d /\
               p90 all = nighty_percentile d) /\
    match sets, sets_labels, sets_names with
    | Some sets, Some _, Some _ =>
        Forall2 (fun i rec =>
                   exists s sk d,
                     sets !! i = Some s /\ Np.mul_bool s keep = Ok sk /\
                     Np.select dz_values sk = Ok d /\
                     p90 rec = nighty_percentile d)
                (seq 0 (length sets)) per_set
    | _, _, _ => per_set = []
    end.
Proof.
  intros H keep. unfold get_stats in H. fold keep in H.
  inv_bind H as kept Hkept. inv_bind H as data Hdata. inv_bind H as st Hst.
  inv_bind H as pc Hpc. inv_bind H as data90 Hdata90.
  destruct sets as [sets|];
    [|injection H as <-; eexists _, []; repeat split; eauto].
  destruct sets_labels as [labels|];
    [|injection H as <-; eexists _, []; repeat split; eauto].
  destruct sets_names as [names|];
    [|injection H as <-; eexists _, []; repeat split; eauto].
  inv_bind H as per_set Hper. injection H as <-.
  eexists _, per_set. split; [reflexivity|]. split; [simpl; eauto|].
  apply traverse_Ok in Hper.
  eapply Forall2_impl; [exact Hper|].
  intros idx rec Hrec. simpl in Hrec.
  inv_bind Hrec as s Hs. inv_bind Hrec as sk Hsk. inv_bind Hrec as set Hset.
  inv_bind Hrec as d Hd. inv_bind Hrec as st' Hst'.
  inv_bind Hrec as label Hlabel. inv_bind Hrec as name Hname.
  inv_bind Hrec as pc' Hpc'. inv_bind Hrec as d90 Hd90.
  injection Hrec as <-. simpl.
  exists s, sk, d90. repeat split; try assumption.
  apply getitem_Ok. exact Hs.
Qed.

Lemma Forall2_same_values {A B C : Type} (R : A -> C -> Prop) (g : B -> C)
    (l : list A) :
  (forall a x y, R a x -> R a y -> x = y) ->
  forall k1 k2 : list B,
    Forall2 (fun a b => R a (g b)) l k1 ->
    Forall2 (fun a b => R a (g b)) l k2 ->
    map g k1 = map g k2.
Proof.
  intros Hfun. induction l as [|a l IH]; intros k1 k2 H1 H2;
    inversion H1; inversion H2; subst; simpl; [reflexivity|].
  f_equal; eauto.
Qed.

(** X22. The 90th percentile of every record of [get_stats] is computed
    from the mask to keep and the class grid alone: two calls that differ
    by the outlier mask only return the same percentiles. *)
Theorem p90_ignores_the_outlier_mask (dz_values : list float)
    (to_keep_mask no_outliers no_outliers' : option (list bool))
    (sets : option (list (list bool)))
    (sets_labels sets_names : option (list string))
    (recs recs' : list StatsRecord) :
  get_stats dz_values to_keep_mask no_outliers sets sets_labels sets_names
    = Ok recs ->
  get_stats dz_values to_keep_mask no_outliers' sets sets_labels sets_names
    = Ok recs' ->
  map p90 recs = map p90 recs'.
Proof.
  intros H H'.
  destruct (get_stats_p90 _ _ _ _ _ _ _ H)
    as (all & per & -> & (d & Hd & Hall) & Hper).
  destruct (get_stats_p90 _ _ _ _ _ _ _ H')
    as (all' & per' & -> & (d' & Hd' & Hall') & Hper').
  simpl. f_equal.
  - rewrite Hall, Hall'. congruence.
  - destruct sets as [sets|]; [|subst; reflexivity].
    destruct sets_labels as [labels|]; [|subst; reflexivity].
    destruct sets_names as [names|]; [|subst; reflexivity].
    eapply (Forall2_same_values
              (fun i v => exists s sk d0,
                   sets !! i = Some s /\
                   Np.mul_bool s (default (Np.ones (length dz_values))
                                          to_keep_mask) = Ok sk /\
                   Np.select dz_values sk = Ok d0 /\
                   v = nighty_percentile d0)
              p90 (seq 0 (length sets))); [|exact Hper|exact Hper'].
    intros i x y (s & sk & d0 & Hs & Hsk & Hd0 & ->)
           (s' & sk' & d1 & Hs' & Hsk' & Hd1 & ->).
    congruence.
Qed.

Lemma p90_ignores_the_outlier_mask_witness :
  exists recs recs',
    get_stats dz_four (Some keep_three) None (Some two_classes)
              (Some ["low"; "high"]%string) (Some ["A"; "B"]%string)
      = Ok recs /\
    get_stats dz_four (Some keep_three) (Some [true; false; true; false])
              (Some two_classes) (Some ["low"; "high"]%string)
              (Some ["A"; "B"]%string)
      = Ok recs' /\
    map p90 recs = map p90 recs'.
Proof.
  assert (H : { recs |
            get_stats dz_four (Some keep_three) None (Some two_classes)
                      (Some ["low"; "high"]%string) (Some ["A"; "B"]%string)
              = Ok recs }).
  { eexists. vm_compute. reflexivity. }
  assert (H' : { recs |
            get_stats dz_four (Some keep_three)
                      (Some [true; false; true; false]) (Some two_classes)
                      (Some ["low"; "high"]%string) (Some ["A"; "B"]%string)
              = Ok recs }).
  { eexists. vm_compute. reflexivity. }
  destruct H as [recs H]. destruct H' as [recs' H'].
  exists recs, recs'. split; [exact H|]. split; [exact H'|].
  exact (p90_ignores_the_outlier_mask _ _ _ _ _ _ _ _ _ H H').
Defined.

End CountProps.
